(** * AIScrapper: the job-posting extraction engine of [scraper.py]

    A shallow embedding of [AdvancedJobScraper] (scraper.py) and of the
    properties its specification states about it.

    Conventions of the embedding.
    - A Python [str] is a [string] that holds its UTF-8 encoding. [len],
      slices, [lower], [strip] and [isdigit] work on the code points, with
      the tables of Unicode 14.0 as CPython 3.11 has them. A byte string
      that is not well-formed UTF-8 stands for no [str]; the theorems hold
      for those as well.
    - A Python dict with string keys is a [gmap string value].
    - Code that may raise returns a [result]; [try]/[except] is a match on it.
      A method [f] whose whole body is one [try] block is split in [f_body],
      the block, and [f], which adds the [except] handler.
    - The browser, the network and the parsers ([selenium], [requests],
      [BeautifulSoup], [re]) are not part of the repository: they are
      records of oracles, so every theorem holds whatever they answer.
    - [time.sleep], [random] and logging have no effect on the returned
      values and are left out. *)

From Stdlib Require Import Ascii String List Arith NArith Lia Bool.
From stdpp Require Import base option list strings gmap fin_maps.

Local Open Scope string_scope.
Local Open Scope nat_scope.
Local Open Scope list_scope.

(** ** Exceptions and results *)

Inductive exn_kind :=
  | TimeoutException
  | NoSuchElementException
  | WebDriverException
  | AttributeError
  | ValueError
  | HTTPError
  | MemoryError
  | OtherException.

(** [str_of e] is what Python's [str(e)] returns. *)
Record exn := Exn { kind_of : exn_kind; str_of : string }.

Inductive result (A : Type) :=
  | Ok (a : A)
  | Raise (e : exn).
Arguments Ok {A} a.
Arguments Raise {A} e.

(** [result] is an error monad; [x ← r; k] stops at the first exception. *)
#[global] Instance result_ret : MRet result := fun A a => Ok a.
#[global] Instance result_bind : MBind result := fun A B k r =>
  match r with
  | Ok a => k a
  | Raise e => Raise e
  end.

(** ** Text primitives *)

Module Text.

(** the value of a byte *)
Definition byte (c : ascii) : N := N_of_ascii c.

(** a continuation byte of UTF-8, [10xxxxxx] *)
Definition is_cont (c : ascii) : bool := ((0x80 <=? byte c) && (byte c <? 0xC0))%N.

Definition starts_with_cont (s : string) : bool :=
  match s with
  | String c _ => is_cont c
  | EmptyString => false
  end.

(** The characters of [s]: every byte that is not a continuation byte
    starts one, and the continuation bytes that follow belong to it. *)
Fixpoint chars (s : string) : list string :=
  match s with
  | EmptyString => []
  | String c s' =>
      if starts_with_cont s' then
        match chars s' with
        | ch :: rest => String c ch :: rest
        | [] => [String c EmptyString]
        end
      else String c EmptyString :: chars s'
  end.

(** the concatenation of a list of strings *)
Definition cat (l : list string) : string := fold_right String.append EmptyString l.

(** [len(s)] *)
Fixpoint len (s : string) : nat :=
  match s with
  | EmptyString => 0
  | String c s' => if is_cont c then len s' else S (len s')
  end.

(** [s[:n]] *)
Fixpoint prefix (n : nat) (s : string) : string :=
  match s with
  | EmptyString => EmptyString
  | String c s' =>
      if is_cont c then String c (prefix n s')
      else match n with
           | 0 => EmptyString
           | S n' => String c (prefix n' s')
           end
  end.

(** the payload of a continuation byte *)
Definition low (c : ascii) : N := (byte c mod 64)%N.

(** The code point that a character starts with, and the bytes of the
    character that are left over ([None] when it does not start with the
    UTF-8 form of a code point). *)
Definition decode (ch : string) : option (N * string) :=
  match ch with
  | EmptyString => None
  | String a r =>
      let n := byte a in
      if (n <? 0x80)%N then Some (n, r)
      else if (n <? 0xC0)%N then None
      else if (n <? 0xE0)%N then
        match r with
        | String b r' =>
            let cp := ((n - 0xC0) * 64 + low b)%N in
            if is_cont b && (0x80 <=? cp)%N then Some (cp, r') else None
        | _ => None
        end
      else if (n <? 0xF0)%N then
        match r with
        | String b (String c r') =>
            let cp := ((n - 0xE0) * 4096 + low b * 64 + low c)%N in
            if is_cont b && is_cont c && (0x800 <=? cp)%N
               && negb ((0xD800 <=? cp) && (cp <=? 0xDFFF))%N
            then Some (cp, r') else None
        | _ => None
        end
      else if (n <? 0xF8)%N then
        match r with
        | String b (String c (String d r')) =>
            let cp := ((n - 0xF0) * 262144 + low b * 4096 + low c * 64 + low d)%N in
            if is_cont b && is_cont c && is_cont d
               && (0x10000 <=? cp)%N && (cp <=? 0x10FFFF)%N
            then Some (cp, r') else None
        | _ => None
        end
      else None
  end.

(** the UTF-8 form of a code point *)
Definition encode (cp : N) : string :=
  let b (n : N) := ascii_of_N n in
  let c (n : N) := b (0x80 + n mod 64)%N in
  if (cp <? 0x80)%N then String (b cp) EmptyString
  else if (cp <? 0x800)%N then String (b (0xC0 + cp / 64)%N) (String (c cp) EmptyString)
  else if (cp <? 0x10000)%N then
    String (b (0xE0 + cp / 4096)%N) (String (c (cp / 64)%N) (String (c cp) EmptyString))
  else
    String (b (0xF0 + cp / 262144)%N)
      (String (c (cp / 4096)%N) (String (c (cp / 64)%N) (String (c cp) EmptyString))).

(** membership in a table of ranges, sorted *)
Fixpoint in_ranges (cp : N) (ranges : list (N * N)) : bool :=
  match ranges with
  | [] => false
  | (lo, hi) :: rest =>
      if (cp <? lo)%N then false
      else if (cp <=? hi)%N then true
      else in_ranges cp rest
  end.

(** lookup in a table of pairs, sorted by key *)
Fixpoint lookup_pair (cp : N) (pairs : list (N * N)) : option N :=
  match pairs with
  | [] => None
  | (k, v) :: rest =>
      if (cp <? k)%N then None
      else if (cp =? k)%N then Some v
      else lookup_pair cp rest
  end.


(** *** Tables of the Unicode character database

    [lower_pairs]: the code points with a lower-case form of one code
    point, and that form. [cased_ranges] and [case_ignorable_ranges]: the
    properties Cased and Case_Ignorable. [digit_ranges]: the code points
    for which [isdigit] holds. [space_ranges]: those for which [isspace]
    holds. All are sorted. *)

Definition lower_pairs : list (N * N) :=
  [ (0x41, 0x61); (0x42, 0x62); (0x43, 0x63); (0x44, 0x64); (0x45, 0x65); (0x46, 0x66);
    (0x47, 0x67); (0x48, 0x68); (0x49, 0x69); (0x4A, 0x6A); (0x4B, 0x6B); (0x4C, 0x6C);
    (0x4D, 0x6D); (0x4E, 0x6E); (0x4F, 0x6F); (0x50, 0x70); (0x51, 0x71); (0x52, 0x72);
    (0x53, 0x73); (0x54, 0x74); (0x55, 0x75); (0x56, 0x76); (0x57, 0x77); (0x58, 0x78);
    (0x59, 0x79); (0x5A, 0x7A); (0xC0, 0xE0); (0xC1, 0xE1); (0xC2, 0xE2); (0xC3, 0xE3);
    (0xC4, 0xE4); (0xC5, 0xE5); (0xC6, 0xE6); (0xC7, 0xE7); (0xC8, 0xE8); (0xC9, 0xE9);
    (0xCA, 0xEA); (0xCB, 0xEB); (0xCC, 0xEC); (0xCD, 0xED); (0xCE, 0xEE); (0xCF, 0xEF);
    (0xD0, 0xF0); (0xD1, 0xF1); (0xD2, 0xF2); (0xD3, 0xF3); (0xD4, 0xF4); (0xD5, 0xF5);
    (0xD6, 0xF6); (0xD8, 0xF8); (0xD9, 0xF9); (0xDA, 0xFA); (0xDB, 0xFB); (0xDC, 0xFC);
    (0xDD, 0xFD); (0xDE, 0xFE); (0x100, 0x101); (0x102, 0x103); (0x104, 0x105); (0x106, 0x107);
    (0x108, 0x109); (0x10A, 0x10B); (0x10C, 0x10D); (0x10E, 0x10F); (0x110, 0x111); (0x112, 0x113);
    (0x114, 0x115); (0x116, 0x117); (0x118, 0x119); (0x11A, 0x11B); (0x11C, 0x11D); (0x11E, 0x11F);
    (0x120, 0x121); (0x122, 0x123); (0x124, 0x125); (0x126, 0x127); (0x128, 0x129); (0x12A, 0x12B);
    (0x12C, 0x12D); (0x12E, 0x12F); (0x132, 0x133); (0x134, 0x135); (0x136, 0x137); (0x139, 0x13A);
    (0x13B, 0x13C); (0x13D, 0x13E); (0x13F, 0x140); (0x141, 0x142); (0x143, 0x144); (0x145, 0x146);
    (0x147, 0x148); (0x14A, 0x14B); (0x14C, 0x14D); (0x14E, 0x14F); (0x150, 0x151); (0x152, 0x153);
    (0x154, 0x155); (0x156, 0x157); (0x158, 0x159); (0x15A, 0x15B); (0x15C, 0x15D); (0x15E, 0x15F);
    (0x160, 0x161); (0x162, 0x163); (0x164, 0x165); (0x166, 0x167); (0x168, 0x169); (0x16A, 0x16B);
    (0x16C, 0x16D); (0x16E, 0x16F); (0x170, 0x171); (0x172, 0x173); (0x174, 0x175); (0x176, 0x177);
    (0x178, 0xFF); (0x179, 0x17A); (0x17B, 0x17C); (0x17D, 0x17E); (0x181, 0x253); (0x182, 0x183);
    (0x184, 0x185); (0x186, 0x254); (0x187, 0x188); (0x189, 0x256); (0x18A, 0x257); (0x18B, 0x18C);
    (0x18E, 0x1DD); (0x18F, 0x259); (0x190, 0x25B); (0x191, 0x192); (0x193, 0x260); (0x194, 0x263);
    (0x196, 0x269); (0x197, 0x268); (0x198, 0x199); (0x19C, 0x26F); (0x19D, 0x272); (0x19F, 0x275);
    (0x1A0, 0x1A1); (0x1A2, 0x1A3); (0x1A4, 0x1A5); (0x1A6, 0x280); (0x1A7, 0x1A8); (0x1A9, 0x283);
    (0x1AC, 0x1AD); (0x1AE, 0x288); (0x1AF, 0x1B0); (0x1B1, 0x28A); (0x1B2, 0x28B); (0x1B3, 0x1B4);
    (0x1B5, 0x1B6); (0x1B7, 0x292); (0x1B8, 0x1B9); (0x1BC, 0x1BD); (0x1C4, 0x1C6); (0x1C5, 0x1C6);
    (0x1C7, 0x1C9); (0x1C8, 0x1C9); (0x1CA, 0x1CC); (0x1CB, 0x1CC); (0x1CD, 0x1CE); (0x1CF, 0x1D0);
    (0x1D1, 0x1D2); (0x1D3, 0x1D4); (0x1D5, 0x1D6); (0x1D7, 0x1D8); (0x1D9, 0x1DA); (0x1DB, 0x1DC);
    (0x1DE, 0x1DF); (0x1E0, 0x1E1); (0x1E2, 0x1E3); (0x1E4, 0x1E5); (0x1E6, 0x1E7); (0x1E8, 0x1E9);
    (0x1EA, 0x1EB); (0x1EC, 0x1ED); (0x1EE, 0x1EF); (0x1F1, 0x1F3); (0x1F2, 0x1F3); (0x1F4, 0x1F5);
    (0x1F6, 0x195); (0x1F7, 0x1BF); (0x1F8, 0x1F9); (0x1FA, 0x1FB); (0x1FC, 0x1FD); (0x1FE, 0x1FF);
    (0x200, 0x201); (0x202, 0x203); (0x204, 0x205); (0x206, 0x207); (0x208, 0x209); (0x20A, 0x20B);
    (0x20C, 0x20D); (0x20E, 0x20F); (0x210, 0x211); (0x212, 0x213); (0x214, 0x215); (0x216, 0x217);
    (0x218, 0x219); (0x21A, 0x21B); (0x21C, 0x21D); (0x21E, 0x21F); (0x220, 0x19E); (0x222, 0x223);
    (0x224, 0x225); (0x226, 0x227); (0x228, 0x229); (0x22A, 0x22B); (0x22C, 0x22D); (0x22E, 0x22F);
    (0x230, 0x231); (0x232, 0x233); (0x23A, 0x2C65); (0x23B, 0x23C); (0x23D, 0x19A); (0x23E, 0x2C66);
    (0x241, 0x242); (0x243, 0x180); (0x244, 0x289); (0x245, 0x28C); (0x246, 0x247); (0x248, 0x249);
    (0x24A, 0x24B); (0x24C, 0x24D); (0x24E, 0x24F); (0x370, 0x371); (0x372, 0x373); (0x376, 0x377);
    (0x37F, 0x3F3); (0x386, 0x3AC); (0x388, 0x3AD); (0x389, 0x3AE); (0x38A, 0x3AF); (0x38C, 0x3CC);
    (0x38E, 0x3CD); (0x38F, 0x3CE); (0x391, 0x3B1); (0x392, 0x3B2); (0x393, 0x3B3); (0x394, 0x3B4);
    (0x395, 0x3B5); (0x396, 0x3B6); (0x397, 0x3B7); (0x398, 0x3B8); (0x399, 0x3B9); (0x39A, 0x3BA);
    (0x39B, 0x3BB); (0x39C, 0x3BC); (0x39D, 0x3BD); (0x39E, 0x3BE); (0x39F, 0x3BF); (0x3A0, 0x3C0);
    (0x3A1, 0x3C1); (0x3A4, 0x3C4); (0x3A5, 0x3C5); (0x3A6, 0x3C6); (0x3A7, 0x3C7); (0x3A8, 0x3C8);
    (0x3A9, 0x3C9); (0x3AA, 0x3CA); (0x3AB, 0x3CB); (0x3CF, 0x3D7); (0x3D8, 0x3D9); (0x3DA, 0x3DB);
    (0x3DC, 0x3DD); (0x3DE, 0x3DF); (0x3E0, 0x3E1); (0x3E2, 0x3E3); (0x3E4, 0x3E5); (0x3E6, 0x3E7);
    (0x3E8, 0x3E9); (0x3EA, 0x3EB); (0x3EC, 0x3ED); (0x3EE, 0x3EF); (0x3F4, 0x3B8); (0x3F7, 0x3F8);
    (0x3F9, 0x3F2); (0x3FA, 0x3FB); (0x3FD, 0x37B); (0x3FE, 0x37C); (0x3FF, 0x37D); (0x400, 0x450);
    (0x401, 0x451); (0x402, 0x452); (0x403, 0x453); (0x404, 0x454); (0x405, 0x455); (0x406, 0x456);
    (0x407, 0x457); (0x408, 0x458); (0x409, 0x459); (0x40A, 0x45A); (0x40B, 0x45B); (0x40C, 0x45C);
    (0x40D, 0x45D); (0x40E, 0x45E); (0x40F, 0x45F); (0x410, 0x430); (0x411, 0x431); (0x412, 0x432);
    (0x413, 0x433); (0x414, 0x434); (0x415, 0x435); (0x416, 0x436); (0x417, 0x437); (0x418, 0x438);
    (0x419, 0x439); (0x41A, 0x43A); (0x41B, 0x43B); (0x41C, 0x43C); (0x41D, 0x43D); (0x41E, 0x43E);
    (0x41F, 0x43F); (0x420, 0x440); (0x421, 0x441); (0x422, 0x442); (0x423, 0x443); (0x424, 0x444);
    (0x425, 0x445); (0x426, 0x446); (0x427, 0x447); (0x428, 0x448); (0x429, 0x449); (0x42A, 0x44A);
    (0x42B, 0x44B); (0x42C, 0x44C); (0x42D, 0x44D); (0x42E, 0x44E); (0x42F, 0x44F); (0x460, 0x461);
    (0x462, 0x463); (0x464, 0x465); (0x466, 0x467); (0x468, 0x469); (0x46A, 0x46B); (0x46C, 0x46D);
    (0x46E, 0x46F); (0x470, 0x471); (0x472, 0x473); (0x474, 0x475); (0x476, 0x477); (0x478, 0x479);
    (0x47A, 0x47B); (0x47C, 0x47D); (0x47E, 0x47F); (0x480, 0x481); (0x48A, 0x48B); (0x48C, 0x48D);
    (0x48E, 0x48F); (0x490, 0x491); (0x492, 0x493); (0x494, 0x495); (0x496, 0x497); (0x498, 0x499);
    (0x49A, 0x49B); (0x49C, 0x49D); (0x49E, 0x49F); (0x4A0, 0x4A1); (0x4A2, 0x4A3); (0x4A4, 0x4A5);
    (0x4A6, 0x4A7); (0x4A8, 0x4A9); (0x4AA, 0x4AB); (0x4AC, 0x4AD); (0x4AE, 0x4AF); (0x4B0, 0x4B1);
    (0x4B2, 0x4B3); (0x4B4, 0x4B5); (0x4B6, 0x4B7); (0x4B8, 0x4B9); (0x4BA, 0x4BB); (0x4BC, 0x4BD);
    (0x4BE, 0x4BF); (0x4C0, 0x4CF); (0x4C1, 0x4C2); (0x4C3, 0x4C4); (0x4C5, 0x4C6); (0x4C7, 0x4C8);
    (0x4C9, 0x4CA); (0x4CB, 0x4CC); (0x4CD, 0x4CE); (0x4D0, 0x4D1); (0x4D2, 0x4D3); (0x4D4, 0x4D5);
    (0x4D6, 0x4D7); (0x4D8, 0x4D9); (0x4DA, 0x4DB); (0x4DC, 0x4DD); (0x4DE, 0x4DF); (0x4E0, 0x4E1);
    (0x4E2, 0x4E3); (0x4E4, 0x4E5); (0x4E6, 0x4E7); (0x4E8, 0x4E9); (0x4EA, 0x4EB); (0x4EC, 0x4ED);
    (0x4EE, 0x4EF); (0x4F0, 0x4F1); (0x4F2, 0x4F3); (0x4F4, 0x4F5); (0x4F6, 0x4F7); (0x4F8, 0x4F9);
    (0x4FA, 0x4FB); (0x4FC, 0x4FD); (0x4FE, 0x4FF); (0x500, 0x501); (0x502, 0x503); (0x504, 0x505);
    (0x506, 0x507); (0x508, 0x509); (0x50A, 0x50B); (0x50C, 0x50D); (0x50E, 0x50F); (0x510, 0x511);
    (0x512, 0x513); (0x514, 0x515); (0x516, 0x517); (0x518, 0x519); (0x51A, 0x51B); (0x51C, 0x51D);
    (0x51E, 0x51F); (0x520, 0x521); (0x522, 0x523); (0x524, 0x525); (0x526, 0x527); (0x528, 0x529);
    (0x52A, 0x52B); (0x52C, 0x52D); (0x52E, 0x52F); (0x531, 0x561); (0x532, 0x562); (0x533, 0x563);
    (0x534, 0x564); (0x535, 0x565); (0x536, 0x566); (0x537, 0x567); (0x538, 0x568); (0x539, 0x569);
    (0x53A, 0x56A); (0x53B, 0x56B); (0x53C, 0x56C); (0x53D, 0x56D); (0x53E, 0x56E); (0x53F, 0x56F);
    (0x540, 0x570); (0x541, 0x571); (0x542, 0x572); (0x543, 0x573); (0x544, 0x574); (0x545, 0x575);
    (0x546, 0x576); (0x547, 0x577); (0x548, 0x578); (0x549, 0x579); (0x54A, 0x57A); (0x54B, 0x57B);
    (0x54C, 0x57C); (0x54D, 0x57D); (0x54E, 0x57E); (0x54F, 0x57F); (0x550, 0x580); (0x551, 0x581);
    (0x552, 0x582); (0x553, 0x583); (0x554, 0x584); (0x555, 0x585); (0x556, 0x586); (0x10A0, 0x2D00);
    (0x10A1, 0x2D01); (0x10A2, 0x2D02); (0x10A3, 0x2D03); (0x10A4, 0x2D04); (0x10A5, 0x2D05); (0x10A6, 0x2D06);
    (0x10A7, 0x2D07); (0x10A8, 0x2D08); (0x10A9, 0x2D09); (0x10AA, 0x2D0A); (0x10AB, 0x2D0B); (0x10AC, 0x2D0C);
    (0x10AD, 0x2D0D); (0x10AE, 0x2D0E); (0x10AF, 0x2D0F); (0x10B0, 0x2D10); (0x10B1, 0x2D11); (0x10B2, 0x2D12);
    (0x10B3, 0x2D13); (0x10B4, 0x2D14); (0x10B5, 0x2D15); (0x10B6, 0x2D16); (0x10B7, 0x2D17); (0x10B8, 0x2D18);
    (0x10B9, 0x2D19); (0x10BA, 0x2D1A); (0x10BB, 0x2D1B); (0x10BC, 0x2D1C); (0x10BD, 0x2D1D); (0x10BE, 0x2D1E);
    (0x10BF, 0x2D1F); (0x10C0, 0x2D20); (0x10C1, 0x2D21); (0x10C2, 0x2D22); (0x10C3, 0x2D23); (0x10C4, 0x2D24);
    (0x10C5, 0x2D25); (0x10C7, 0x2D27); (0x10CD, 0x2D2D); (0x13A0, 0xAB70); (0x13A1, 0xAB71); (0x13A2, 0xAB72);
    (0x13A3, 0xAB73); (0x13A4, 0xAB74); (0x13A5, 0xAB75); (0x13A6, 0xAB76); (0x13A7, 0xAB77); (0x13A8, 0xAB78);
    (0x13A9, 0xAB79); (0x13AA, 0xAB7A); (0x13AB, 0xAB7B); (0x13AC, 0xAB7C); (0x13AD, 0xAB7D); (0x13AE, 0xAB7E);
    (0x13AF, 0xAB7F); (0x13B0, 0xAB80); (0x13B1, 0xAB81); (0x13B2, 0xAB82); (0x13B3, 0xAB83); (0x13B4, 0xAB84);
    (0x13B5, 0xAB85); (0x13B6, 0xAB86); (0x13B7, 0xAB87); (0x13B8, 0xAB88); (0x13B9, 0xAB89); (0x13BA, 0xAB8A);
    (0x13BB, 0xAB8B); (0x13BC, 0xAB8C); (0x13BD, 0xAB8D); (0x13BE, 0xAB8E); (0x13BF, 0xAB8F); (0x13C0, 0xAB90);
    (0x13C1, 0xAB91); (0x13C2, 0xAB92); (0x13C3, 0xAB93); (0x13C4, 0xAB94); (0x13C5, 0xAB95); (0x13C6, 0xAB96);
    (0x13C7, 0xAB97); (0x13C8, 0xAB98); (0x13C9, 0xAB99); (0x13CA, 0xAB9A); (0x13CB, 0xAB9B); (0x13CC, 0xAB9C);
    (0x13CD, 0xAB9D); (0x13CE, 0xAB9E); (0x13CF, 0xAB9F); (0x13D0, 0xABA0); (0x13D1, 0xABA1); (0x13D2, 0xABA2);
    (0x13D3, 0xABA3); (0x13D4, 0xABA4); (0x13D5, 0xABA5); (0x13D6, 0xABA6); (0x13D7, 0xABA7); (0x13D8, 0xABA8);
    (0x13D9, 0xABA9); (0x13DA, 0xABAA); (0x13DB, 0xABAB); (0x13DC, 0xABAC); (0x13DD, 0xABAD); (0x13DE, 0xABAE);
    (0x13DF, 0xABAF); (0x13E0, 0xABB0); (0x13E1, 0xABB1); (0x13E2, 0xABB2); (0x13E3, 0xABB3); (0x13E4, 0xABB4);
    (0x13E5, 0xABB5); (0x13E6, 0xABB6); (0x13E7, 0xABB7); (0x13E8, 0xABB8); (0x13E9, 0xABB9); (0x13EA, 0xABBA);
    (0x13EB, 0xABBB); (0x13EC, 0xABBC); (0x13ED, 0xABBD); (0x13EE, 0xABBE); (0x13EF, 0xABBF); (0x13F0, 0x13F8);
    (0x13F1, 0x13F9); (0x13F2, 0x13FA); (0x13F3, 0x13FB); (0x13F4, 0x13FC); (0x13F5, 0x13FD); (0x1C90, 0x10D0);
    (0x1C91, 0x10D1); (0x1C92, 0x10D2); (0x1C93, 0x10D3); (0x1C94, 0x10D4); (0x1C95, 0x10D5); (0x1C96, 0x10D6);
    (0x1C97, 0x10D7); (0x1C98, 0x10D8); (0x1C99, 0x10D9); (0x1C9A, 0x10DA); (0x1C9B, 0x10DB); (0x1C9C, 0x10DC);
    (0x1C9D, 0x10DD); (0x1C9E, 0x10DE); (0x1C9F, 0x10DF); (0x1CA0, 0x10E0); (0x1CA1, 0x10E1); (0x1CA2, 0x10E2);
    (0x1CA3, 0x10E3); (0x1CA4, 0x10E4); (0x1CA5, 0x10E5); (0x1CA6, 0x10E6); (0x1CA7, 0x10E7); (0x1CA8, 0x10E8);
    (0x1CA9, 0x10E9); (0x1CAA, 0x10EA); (0x1CAB, 0x10EB); (0x1CAC, 0x10EC); (0x1CAD, 0x10ED); (0x1CAE, 0x10EE);
    (0x1CAF, 0x10EF); (0x1CB0, 0x10F0); (0x1CB1, 0x10F1); (0x1CB2, 0x10F2); (0x1CB3, 0x10F3); (0x1CB4, 0x10F4);
    (0x1CB5, 0x10F5); (0x1CB6, 0x10F6); (0x1CB7, 0x10F7); (0x1CB8, 0x10F8); (0x1CB9, 0x10F9); (0x1CBA, 0x10FA);
    (0x1CBD, 0x10FD); (0x1CBE, 0x10FE); (0x1CBF, 0x10FF); (0x1E00, 0x1E01); (0x1E02, 0x1E03); (0x1E04, 0x1E05);
    (0x1E06, 0x1E07); (0x1E08, 0x1E09); (0x1E0A, 0x1E0B); (0x1E0C, 0x1E0D); (0x1E0E, 0x1E0F); (0x1E10, 0x1E11);
    (0x1E12, 0x1E13); (0x1E14, 0x1E15); (0x1E16, 0x1E17); (0x1E18, 0x1E19); (0x1E1A, 0x1E1B); (0x1E1C, 0x1E1D);
    (0x1E1E, 0x1E1F); (0x1E20, 0x1E21); (0x1E22, 0x1E23); (0x1E24, 0x1E25); (0x1E26, 0x1E27); (0x1E28, 0x1E29);
    (0x1E2A, 0x1E2B); (0x1E2C, 0x1E2D); (0x1E2E, 0x1E2F); (0x1E30, 0x1E31); (0x1E32, 0x1E33); (0x1E34, 0x1E35);
    (0x1E36, 0x1E37); (0x1E38, 0x1E39); (0x1E3A, 0x1E3B); (0x1E3C, 0x1E3D); (0x1E3E, 0x1E3F); (0x1E40, 0x1E41);
    (0x1E42, 0x1E43); (0x1E44, 0x1E45); (0x1E46, 0x1E47); (0x1E48, 0x1E49); (0x1E4A, 0x1E4B); (0x1E4C, 0x1E4D);
    (0x1E4E, 0x1E4F); (0x1E50, 0x1E51); (0x1E52, 0x1E53); (0x1E54, 0x1E55); (0x1E56, 0x1E57); (0x1E58, 0x1E59);
    (0x1E5A, 0x1E5B); (0x1E5C, 0x1E5D); (0x1E5E, 0x1E5F); (0x1E60, 0x1E61); (0x1E62, 0x1E63); (0x1E64, 0x1E65);
    (0x1E66, 0x1E67); (0x1E68, 0x1E69); (0x1E6A, 0x1E6B); (0x1E6C, 0x1E6D); (0x1E6E, 0x1E6F); (0x1E70, 0x1E71);
    (0x1E72, 0x1E73); (0x1E74, 0x1E75); (0x1E76, 0x1E77); (0x1E78, 0x1E79); (0x1E7A, 0x1E7B); (0x1E7C, 0x1E7D);
    (0x1E7E, 0x1E7F); (0x1E80, 0x1E81); (0x1E82, 0x1E83); (0x1E84, 0x1E85); (0x1E86, 0x1E87); (0x1E88, 0x1E89);
    (0x1E8A, 0x1E8B); (0x1E8C, 0x1E8D); (0x1E8E, 0x1E8F); (0x1E90, 0x1E91); (0x1E92, 0x1E93); (0x1E94, 0x1E95);
    (0x1E9E, 0xDF); (0x1EA0, 0x1EA1); (0x1EA2, 0x1EA3); (0x1EA4, 0x1EA5); (0x1EA6, 0x1EA7); (0x1EA8, 0x1EA9);
    (0x1EAA, 0x1EAB); (0x1EAC, 0x1EAD); (0x1EAE, 0x1EAF); (0x1EB0, 0x1EB1); (0x1EB2, 0x1EB3); (0x1EB4, 0x1EB5);
    (0x1EB6, 0x1EB7); (0x1EB8, 0x1EB9); (0x1EBA, 0x1EBB); (0x1EBC, 0x1EBD); (0x1EBE, 0x1EBF); (0x1EC0, 0x1EC1);
    (0x1EC2, 0x1EC3); (0x1EC4, 0x1EC5); (0x1EC6, 0x1EC7); (0x1EC8, 0x1EC9); (0x1ECA, 0x1ECB); (0x1ECC, 0x1ECD);
    (0x1ECE, 0x1ECF); (0x1ED0, 0x1ED1); (0x1ED2, 0x1ED3); (0x1ED4, 0x1ED5); (0x1ED6, 0x1ED7); (0x1ED8, 0x1ED9);
    (0x1EDA, 0x1EDB); (0x1EDC, 0x1EDD); (0x1EDE, 0x1EDF); (0x1EE0, 0x1EE1); (0x1EE2, 0x1EE3); (0x1EE4, 0x1EE5);
    (0x1EE6, 0x1EE7); (0x1EE8, 0x1EE9); (0x1EEA, 0x1EEB); (0x1EEC, 0x1EED); (0x1EEE, 0x1EEF); (0x1EF0, 0x1EF1);
    (0x1EF2, 0x1EF3); (0x1EF4, 0x1EF5); (0x1EF6, 0x1EF7); (0x1EF8, 0x1EF9); (0x1EFA, 0x1EFB); (0x1EFC, 0x1EFD);
    (0x1EFE, 0x1EFF); (0x1F08, 0x1F00); (0x1F09, 0x1F01); (0x1F0A, 0x1F02); (0x1F0B, 0x1F03); (0x1F0C, 0x1F04);
    (0x1F0D, 0x1F05); (0x1F0E, 0x1F06); (0x1F0F, 0x1F07); (0x1F18, 0x1F10); (0x1F19, 0x1F11); (0x1F1A, 0x1F12);
    (0x1F1B, 0x1F13); (0x1F1C, 0x1F14); (0x1F1D, 0x1F15); (0x1F28, 0x1F20); (0x1F29, 0x1F21); (0x1F2A, 0x1F22);
    (0x1F2B, 0x1F23); (0x1F2C, 0x1F24); (0x1F2D, 0x1F25); (0x1F2E, 0x1F26); (0x1F2F, 0x1F27); (0x1F38, 0x1F30);
    (0x1F39, 0x1F31); (0x1F3A, 0x1F32); (0x1F3B, 0x1F33); (0x1F3C, 0x1F34); (0x1F3D, 0x1F35); (0x1F3E, 0x1F36);
    (0x1F3F, 0x1F37); (0x1F48, 0x1F40); (0x1F49, 0x1F41); (0x1F4A, 0x1F42); (0x1F4B, 0x1F43); (0x1F4C, 0x1F44);
    (0x1F4D, 0x1F45); (0x1F59, 0x1F51); (0x1F5B, 0x1F53); (0x1F5D, 0x1F55); (0x1F5F, 0x1F57); (0x1F68, 0x1F60);
    (0x1F69, 0x1F61); (0x1F6A, 0x1F62); (0x1F6B, 0x1F63); (0x1F6C, 0x1F64); (0x1F6D, 0x1F65); (0x1F6E, 0x1F66);
    (0x1F6F, 0x1F67); (0x1F88, 0x1F80); (0x1F89, 0x1F81); (0x1F8A, 0x1F82); (0x1F8B, 0x1F83); (0x1F8C, 0x1F84);
    (0x1F8D, 0x1F85); (0x1F8E, 0x1F86); (0x1F8F, 0x1F87); (0x1F98, 0x1F90); (0x1F99, 0x1F91); (0x1F9A, 0x1F92);
    (0x1F9B, 0x1F93); (0x1F9C, 0x1F94); (0x1F9D, 0x1F95); (0x1F9E, 0x1F96); (0x1F9F, 0x1F97); (0x1FA8, 0x1FA0);
    (0x1FA9, 0x1FA1); (0x1FAA, 0x1FA2); (0x1FAB, 0x1FA3); (0x1FAC, 0x1FA4); (0x1FAD, 0x1FA5); (0x1FAE, 0x1FA6);
    (0x1FAF, 0x1FA7); (0x1FB8, 0x1FB0); (0x1FB9, 0x1FB1); (0x1FBA, 0x1F70); (0x1FBB, 0x1F71); (0x1FBC, 0x1FB3);
    (0x1FC8, 0x1F72); (0x1FC9, 0x1F73); (0x1FCA, 0x1F74); (0x1FCB, 0x1F75); (0x1FCC, 0x1FC3); (0x1FD8, 0x1FD0);
    (0x1FD9, 0x1FD1); (0x1FDA, 0x1F76); (0x1FDB, 0x1F77); (0x1FE8, 0x1FE0); (0x1FE9, 0x1FE1); (0x1FEA, 0x1F7A);
    (0x1FEB, 0x1F7B); (0x1FEC, 0x1FE5); (0x1FF8, 0x1F78); (0x1FF9, 0x1F79); (0x1FFA, 0x1F7C); (0x1FFB, 0x1F7D);
    (0x1FFC, 0x1FF3); (0x2126, 0x3C9); (0x212A, 0x6B); (0x212B, 0xE5); (0x2132, 0x214E); (0x2160, 0x2170);
    (0x2161, 0x2171); (0x2162, 0x2172); (0x2163, 0x2173); (0x2164, 0x2174); (0x2165, 0x2175); (0x2166, 0x2176);
    (0x2167, 0x2177); (0x2168, 0x2178); (0x2169, 0x2179); (0x216A, 0x217A); (0x216B, 0x217B); (0x216C, 0x217C);
    (0x216D, 0x217D); (0x216E, 0x217E); (0x216F, 0x217F); (0x2183, 0x2184); (0x24B6, 0x24D0); (0x24B7, 0x24D1);
    (0x24B8, 0x24D2); (0x24B9, 0x24D3); (0x24BA, 0x24D4); (0x24BB, 0x24D5); (0x24BC, 0x24D6); (0x24BD, 0x24D7);
    (0x24BE, 0x24D8); (0x24BF, 0x24D9); (0x24C0, 0x24DA); (0x24C1, 0x24DB); (0x24C2, 0x24DC); (0x24C3, 0x24DD);
    (0x24C4, 0x24DE); (0x24C5, 0x24DF); (0x24C6, 0x24E0); (0x24C7, 0x24E1); (0x24C8, 0x24E2); (0x24C9, 0x24E3);
    (0x24CA, 0x24E4); (0x24CB, 0x24E5); (0x24CC, 0x24E6); (0x24CD, 0x24E7); (0x24CE, 0x24E8); (0x24CF, 0x24E9);
    (0x2C00, 0x2C30); (0x2C01, 0x2C31); (0x2C02, 0x2C32); (0x2C03, 0x2C33); (0x2C04, 0x2C34); (0x2C05, 0x2C35);
    (0x2C06, 0x2C36); (0x2C07, 0x2C37); (0x2C08, 0x2C38); (0x2C09, 0x2C39); (0x2C0A, 0x2C3A); (0x2C0B, 0x2C3B);
    (0x2C0C, 0x2C3C); (0x2C0D, 0x2C3D); (0x2C0E, 0x2C3E); (0x2C0F, 0x2C3F); (0x2C10, 0x2C40); (0x2C11, 0x2C41);
    (0x2C12, 0x2C42); (0x2C13, 0x2C43); (0x2C14, 0x2C44); (0x2C15, 0x2C45); (0x2C16, 0x2C46); (0x2C17, 0x2C47);
    (0x2C18, 0x2C48); (0x2C19, 0x2C49); (0x2C1A, 0x2C4A); (0x2C1B, 0x2C4B); (0x2C1C, 0x2C4C); (0x2C1D, 0x2C4D);
    (0x2C1E, 0x2C4E); (0x2C1F, 0x2C4F); (0x2C20, 0x2C50); (0x2C21, 0x2C51); (0x2C22, 0x2C52); (0x2C23, 0x2C53);
    (0x2C24, 0x2C54); (0x2C25, 0x2C55); (0x2C26, 0x2C56); (0x2C27, 0x2C57); (0x2C28, 0x2C58); (0x2C29, 0x2C59);
    (0x2C2A, 0x2C5A); (0x2C2B, 0x2C5B); (0x2C2C, 0x2C5C); (0x2C2D, 0x2C5D); (0x2C2E, 0x2C5E); (0x2C2F, 0x2C5F);
    (0x2C60, 0x2C61); (0x2C62, 0x26B); (0x2C63, 0x1D7D); (0x2C64, 0x27D); (0x2C67, 0x2C68); (0x2C69, 0x2C6A);
    (0x2C6B, 0x2C6C); (0x2C6D, 0x251); (0x2C6E, 0x271); (0x2C6F, 0x250); (0x2C70, 0x252); (0x2C72, 0x2C73);
    (0x2C75, 0x2C76); (0x2C7E, 0x23F); (0x2C7F, 0x240); (0x2C80, 0x2C81); (0x2C82, 0x2C83); (0x2C84, 0x2C85);
    (0x2C86, 0x2C87); (0x2C88, 0x2C89); (0x2C8A, 0x2C8B); (0x2C8C, 0x2C8D); (0x2C8E, 0x2C8F); (0x2C90, 0x2C91);
    (0x2C92, 0x2C93); (0x2C94, 0x2C95); (0x2C96, 0x2C97); (0x2C98, 0x2C99); (0x2C9A, 0x2C9B); (0x2C9C, 0x2C9D);
    (0x2C9E, 0x2C9F); (0x2CA0, 0x2CA1); (0x2CA2, 0x2CA3); (0x2CA4, 0x2CA5); (0x2CA6, 0x2CA7); (0x2CA8, 0x2CA9);
    (0x2CAA, 0x2CAB); (0x2CAC, 0x2CAD); (0x2CAE, 0x2CAF); (0x2CB0, 0x2CB1); (0x2CB2, 0x2CB3); (0x2CB4, 0x2CB5);
    (0x2CB6, 0x2CB7); (0x2CB8, 0x2CB9); (0x2CBA, 0x2CBB); (0x2CBC, 0x2CBD); (0x2CBE, 0x2CBF); (0x2CC0, 0x2CC1);
    (0x2CC2, 0x2CC3); (0x2CC4, 0x2CC5); (0x2CC6, 0x2CC7); (0x2CC8, 0x2CC9); (0x2CCA, 0x2CCB); (0x2CCC, 0x2CCD);
    (0x2CCE, 0x2CCF); (0x2CD0, 0x2CD1); (0x2CD2, 0x2CD3); (0x2CD4, 0x2CD5); (0x2CD6, 0x2CD7); (0x2CD8, 0x2CD9);
    (0x2CDA, 0x2CDB); (0x2CDC, 0x2CDD); (0x2CDE, 0x2CDF); (0x2CE0, 0x2CE1); (0x2CE2, 0x2CE3); (0x2CEB, 0x2CEC);
    (0x2CED, 0x2CEE); (0x2CF2, 0x2CF3); (0xA640, 0xA641); (0xA642, 0xA643); (0xA644, 0xA645); (0xA646, 0xA647);
    (0xA648, 0xA649); (0xA64A, 0xA64B); (0xA64C, 0xA64D); (0xA64E, 0xA64F); (0xA650, 0xA651); (0xA652, 0xA653);
    (0xA654, 0xA655); (0xA656, 0xA657); (0xA658, 0xA659); (0xA65A, 0xA65B); (0xA65C, 0xA65D); (0xA65E, 0xA65F);
    (0xA660, 0xA661); (0xA662, 0xA663); (0xA664, 0xA665); (0xA666, 0xA667); (0xA668, 0xA669); (0xA66A, 0xA66B);
    (0xA66C, 0xA66D); (0xA680, 0xA681); (0xA682, 0xA683); (0xA684, 0xA685); (0xA686, 0xA687); (0xA688, 0xA689);
    (0xA68A, 0xA68B); (0xA68C, 0xA68D); (0xA68E, 0xA68F); (0xA690, 0xA691); (0xA692, 0xA693); (0xA694, 0xA695);
    (0xA696, 0xA697); (0xA698, 0xA699); (0xA69A, 0xA69B); (0xA722, 0xA723); (0xA724, 0xA725); (0xA726, 0xA727);
    (0xA728, 0xA729); (0xA72A, 0xA72B); (0xA72C, 0xA72D); (0xA72E, 0xA72F); (0xA732, 0xA733); (0xA734, 0xA735);
    (0xA736, 0xA737); (0xA738, 0xA739); (0xA73A, 0xA73B); (0xA73C, 0xA73D); (0xA73E, 0xA73F); (0xA740, 0xA741);
    (0xA742, 0xA743); (0xA744, 0xA745); (0xA746, 0xA747); (0xA748, 0xA749); (0xA74A, 0xA74B); (0xA74C, 0xA74D);
    (0xA74E, 0xA74F); (0xA750, 0xA751); (0xA752, 0xA753); (0xA754, 0xA755); (0xA756, 0xA757); (0xA758, 0xA759);
    (0xA75A, 0xA75B); (0xA75C, 0xA75D); (0xA75E, 0xA75F); (0xA760, 0xA761); (0xA762, 0xA763); (0xA764, 0xA765);
    (0xA766, 0xA767); (0xA768, 0xA769); (0xA76A, 0xA76B); (0xA76C, 0xA76D); (0xA76E, 0xA76F); (0xA779, 0xA77A);
    (0xA77B, 0xA77C); (0xA77D, 0x1D79); (0xA77E, 0xA77F); (0xA780, 0xA781); (0xA782, 0xA783); (0xA784, 0xA785);
    (0xA786, 0xA787); (0xA78B, 0xA78C); (0xA78D, 0x265); (0xA790, 0xA791); (0xA792, 0xA793); (0xA796, 0xA797);
    (0xA798, 0xA799); (0xA79A, 0xA79B); (0xA79C, 0xA79D); (0xA79E, 0xA79F); (0xA7A0, 0xA7A1); (0xA7A2, 0xA7A3);
    (0xA7A4, 0xA7A5); (0xA7A6, 0xA7A7); (0xA7A8, 0xA7A9); (0xA7AA, 0x266); (0xA7AB, 0x25C); (0xA7AC, 0x261);
    (0xA7AD, 0x26C); (0xA7AE, 0x26A); (0xA7B0, 0x29E); (0xA7B1, 0x287); (0xA7B2, 0x29D); (0xA7B3, 0xAB53);
    (0xA7B4, 0xA7B5); (0xA7B6, 0xA7B7); (0xA7B8, 0xA7B9); (0xA7BA, 0xA7BB); (0xA7BC, 0xA7BD); (0xA7BE, 0xA7BF);
    (0xA7C0, 0xA7C1); (0xA7C2, 0xA7C3); (0xA7C4, 0xA794); (0xA7C5, 0x282); (0xA7C6, 0x1D8E); (0xA7C7, 0xA7C8);
    (0xA7C9, 0xA7CA); (0xA7D0, 0xA7D1); (0xA7D6, 0xA7D7); (0xA7D8, 0xA7D9); (0xA7F5, 0xA7F6); (0xFF21, 0xFF41);
    (0xFF22, 0xFF42); (0xFF23, 0xFF43); (0xFF24, 0xFF44); (0xFF25, 0xFF45); (0xFF26, 0xFF46); (0xFF27, 0xFF47);
    (0xFF28, 0xFF48); (0xFF29, 0xFF49); (0xFF2A, 0xFF4A); (0xFF2B, 0xFF4B); (0xFF2C, 0xFF4C); (0xFF2D, 0xFF4D);
    (0xFF2E, 0xFF4E); (0xFF2F, 0xFF4F); (0xFF30, 0xFF50); (0xFF31, 0xFF51); (0xFF32, 0xFF52); (0xFF33, 0xFF53);
    (0xFF34, 0xFF54); (0xFF35, 0xFF55); (0xFF36, 0xFF56); (0xFF37, 0xFF57); (0xFF38, 0xFF58); (0xFF39, 0xFF59);
    (0xFF3A, 0xFF5A); (0x10400, 0x10428); (0x10401, 0x10429); (0x10402, 0x1042A); (0x10403, 0x1042B); (0x10404, 0x1042C);
    (0x10405, 0x1042D); (0x10406, 0x1042E); (0x10407, 0x1042F); (0x10408, 0x10430); (0x10409, 0x10431); (0x1040A, 0x10432);
    (0x1040B, 0x10433); (0x1040C, 0x10434); (0x1040D, 0x10435); (0x1040E, 0x10436); (0x1040F, 0x10437); (0x10410, 0x10438);
    (0x10411, 0x10439); (0x10412, 0x1043A); (0x10413, 0x1043B); (0x10414, 0x1043C); (0x10415, 0x1043D); (0x10416, 0x1043E);
    (0x10417, 0x1043F); (0x10418, 0x10440); (0x10419, 0x10441); (0x1041A, 0x10442); (0x1041B, 0x10443); (0x1041C, 0x10444);
    (0x1041D, 0x10445); (0x1041E, 0x10446); (0x1041F, 0x10447); (0x10420, 0x10448); (0x10421, 0x10449); (0x10422, 0x1044A);
    (0x10423, 0x1044B); (0x10424, 0x1044C); (0x10425, 0x1044D); (0x10426, 0x1044E); (0x10427, 0x1044F); (0x104B0, 0x104D8);
    (0x104B1, 0x104D9); (0x104B2, 0x104DA); (0x104B3, 0x104DB); (0x104B4, 0x104DC); (0x104B5, 0x104DD); (0x104B6, 0x104DE);
    (0x104B7, 0x104DF); (0x104B8, 0x104E0); (0x104B9, 0x104E1); (0x104BA, 0x104E2); (0x104BB, 0x104E3); (0x104BC, 0x104E4);
    (0x104BD, 0x104E5); (0x104BE, 0x104E6); (0x104BF, 0x104E7); (0x104C0, 0x104E8); (0x104C1, 0x104E9); (0x104C2, 0x104EA);
    (0x104C3, 0x104EB); (0x104C4, 0x104EC); (0x104C5, 0x104ED); (0x104C6, 0x104EE); (0x104C7, 0x104EF); (0x104C8, 0x104F0);
    (0x104C9, 0x104F1); (0x104CA, 0x104F2); (0x104CB, 0x104F3); (0x104CC, 0x104F4); (0x104CD, 0x104F5); (0x104CE, 0x104F6);
    (0x104CF, 0x104F7); (0x104D0, 0x104F8); (0x104D1, 0x104F9); (0x104D2, 0x104FA); (0x104D3, 0x104FB); (0x10570, 0x10597);
    (0x10571, 0x10598); (0x10572, 0x10599); (0x10573, 0x1059A); (0x10574, 0x1059B); (0x10575, 0x1059C); (0x10576, 0x1059D);
    (0x10577, 0x1059E); (0x10578, 0x1059F); (0x10579, 0x105A0); (0x1057A, 0x105A1); (0x1057C, 0x105A3); (0x1057D, 0x105A4);
    (0x1057E, 0x105A5); (0x1057F, 0x105A6); (0x10580, 0x105A7); (0x10581, 0x105A8); (0x10582, 0x105A9); (0x10583, 0x105AA);
    (0x10584, 0x105AB); (0x10585, 0x105AC); (0x10586, 0x105AD); (0x10587, 0x105AE); (0x10588, 0x105AF); (0x10589, 0x105B0);
    (0x1058A, 0x105B1); (0x1058C, 0x105B3); (0x1058D, 0x105B4); (0x1058E, 0x105B5); (0x1058F, 0x105B6); (0x10590, 0x105B7);
    (0x10591, 0x105B8); (0x10592, 0x105B9); (0x10594, 0x105BB); (0x10595, 0x105BC); (0x10C80, 0x10CC0); (0x10C81, 0x10CC1);
    (0x10C82, 0x10CC2); (0x10C83, 0x10CC3); (0x10C84, 0x10CC4); (0x10C85, 0x10CC5); (0x10C86, 0x10CC6); (0x10C87, 0x10CC7);
    (0x10C88, 0x10CC8); (0x10C89, 0x10CC9); (0x10C8A, 0x10CCA); (0x10C8B, 0x10CCB); (0x10C8C, 0x10CCC); (0x10C8D, 0x10CCD);
    (0x10C8E, 0x10CCE); (0x10C8F, 0x10CCF); (0x10C90, 0x10CD0); (0x10C91, 0x10CD1); (0x10C92, 0x10CD2); (0x10C93, 0x10CD3);
    (0x10C94, 0x10CD4); (0x10C95, 0x10CD5); (0x10C96, 0x10CD6); (0x10C97, 0x10CD7); (0x10C98, 0x10CD8); (0x10C99, 0x10CD9);
    (0x10C9A, 0x10CDA); (0x10C9B, 0x10CDB); (0x10C9C, 0x10CDC); (0x10C9D, 0x10CDD); (0x10C9E, 0x10CDE); (0x10C9F, 0x10CDF);
    (0x10CA0, 0x10CE0); (0x10CA1, 0x10CE1); (0x10CA2, 0x10CE2); (0x10CA3, 0x10CE3); (0x10CA4, 0x10CE4); (0x10CA5, 0x10CE5);
    (0x10CA6, 0x10CE6); (0x10CA7, 0x10CE7); (0x10CA8, 0x10CE8); (0x10CA9, 0x10CE9); (0x10CAA, 0x10CEA); (0x10CAB, 0x10CEB);
    (0x10CAC, 0x10CEC); (0x10CAD, 0x10CED); (0x10CAE, 0x10CEE); (0x10CAF, 0x10CEF); (0x10CB0, 0x10CF0); (0x10CB1, 0x10CF1);
    (0x10CB2, 0x10CF2); (0x118A0, 0x118C0); (0x118A1, 0x118C1); (0x118A2, 0x118C2); (0x118A3, 0x118C3); (0x118A4, 0x118C4);
    (0x118A5, 0x118C5); (0x118A6, 0x118C6); (0x118A7, 0x118C7); (0x118A8, 0x118C8); (0x118A9, 0x118C9); (0x118AA, 0x118CA);
    (0x118AB, 0x118CB); (0x118AC, 0x118CC); (0x118AD, 0x118CD); (0x118AE, 0x118CE); (0x118AF, 0x118CF); (0x118B0, 0x118D0);
    (0x118B1, 0x118D1); (0x118B2, 0x118D2); (0x118B3, 0x118D3); (0x118B4, 0x118D4); (0x118B5, 0x118D5); (0x118B6, 0x118D6);
    (0x118B7, 0x118D7); (0x118B8, 0x118D8); (0x118B9, 0x118D9); (0x118BA, 0x118DA); (0x118BB, 0x118DB); (0x118BC, 0x118DC);
    (0x118BD, 0x118DD); (0x118BE, 0x118DE); (0x118BF, 0x118DF); (0x16E40, 0x16E60); (0x16E41, 0x16E61); (0x16E42, 0x16E62);
    (0x16E43, 0x16E63); (0x16E44, 0x16E64); (0x16E45, 0x16E65); (0x16E46, 0x16E66); (0x16E47, 0x16E67); (0x16E48, 0x16E68);
    (0x16E49, 0x16E69); (0x16E4A, 0x16E6A); (0x16E4B, 0x16E6B); (0x16E4C, 0x16E6C); (0x16E4D, 0x16E6D); (0x16E4E, 0x16E6E);
    (0x16E4F, 0x16E6F); (0x16E50, 0x16E70); (0x16E51, 0x16E71); (0x16E52, 0x16E72); (0x16E53, 0x16E73); (0x16E54, 0x16E74);
    (0x16E55, 0x16E75); (0x16E56, 0x16E76); (0x16E57, 0x16E77); (0x16E58, 0x16E78); (0x16E59, 0x16E79); (0x16E5A, 0x16E7A);
    (0x16E5B, 0x16E7B); (0x16E5C, 0x16E7C); (0x16E5D, 0x16E7D); (0x16E5E, 0x16E7E); (0x16E5F, 0x16E7F); (0x1E900, 0x1E922);
    (0x1E901, 0x1E923); (0x1E902, 0x1E924); (0x1E903, 0x1E925); (0x1E904, 0x1E926); (0x1E905, 0x1E927); (0x1E906, 0x1E928);
    (0x1E907, 0x1E929); (0x1E908, 0x1E92A); (0x1E909, 0x1E92B); (0x1E90A, 0x1E92C); (0x1E90B, 0x1E92D); (0x1E90C, 0x1E92E);
    (0x1E90D, 0x1E92F); (0x1E90E, 0x1E930); (0x1E90F, 0x1E931); (0x1E910, 0x1E932); (0x1E911, 0x1E933); (0x1E912, 0x1E934);
    (0x1E913, 0x1E935); (0x1E914, 0x1E936); (0x1E915, 0x1E937); (0x1E916, 0x1E938); (0x1E917, 0x1E939); (0x1E918, 0x1E93A);
    (0x1E919, 0x1E93B); (0x1E91A, 0x1E93C); (0x1E91B, 0x1E93D); (0x1E91C, 0x1E93E); (0x1E91D, 0x1E93F); (0x1E91E, 0x1E940);
    (0x1E91F, 0x1E941); (0x1E920, 0x1E942); (0x1E921, 0x1E943) ]%N.

Definition cased_ranges : list (N * N) :=
  [ (0x41, 0x5A); (0x61, 0x7A); (0xAA, 0xAA); (0xB5, 0xB5); (0xBA, 0xBA); (0xC0, 0xD6);
    (0xD8, 0xF6); (0xF8, 0x1BA); (0x1BC, 0x1BF); (0x1C4, 0x293); (0x295, 0x2B8); (0x2C0, 0x2C1);
    (0x2E0, 0x2E4); (0x345, 0x345); (0x370, 0x373); (0x376, 0x377); (0x37A, 0x37D); (0x37F, 0x37F);
    (0x386, 0x386); (0x388, 0x38A); (0x38C, 0x38C); (0x38E, 0x3A1); (0x3A3, 0x3F5); (0x3F7, 0x481);
    (0x48A, 0x52F); (0x531, 0x556); (0x560, 0x588); (0x10A0, 0x10C5); (0x10C7, 0x10C7); (0x10CD, 0x10CD);
    (0x10D0, 0x10FA); (0x10FD, 0x10FF); (0x13A0, 0x13F5); (0x13F8, 0x13FD); (0x1C80, 0x1C88); (0x1C90, 0x1CBA);
    (0x1CBD, 0x1CBF); (0x1D00, 0x1DBF); (0x1E00, 0x1F15); (0x1F18, 0x1F1D); (0x1F20, 0x1F45); (0x1F48, 0x1F4D);
    (0x1F50, 0x1F57); (0x1F59, 0x1F59); (0x1F5B, 0x1F5B); (0x1F5D, 0x1F5D); (0x1F5F, 0x1F7D); (0x1F80, 0x1FB4);
    (0x1FB6, 0x1FBC); (0x1FBE, 0x1FBE); (0x1FC2, 0x1FC4); (0x1FC6, 0x1FCC); (0x1FD0, 0x1FD3); (0x1FD6, 0x1FDB);
    (0x1FE0, 0x1FEC); (0x1FF2, 0x1FF4); (0x1FF6, 0x1FFC); (0x2071, 0x2071); (0x207F, 0x207F); (0x2090, 0x209C);
    (0x2102, 0x2102); (0x2107, 0x2107); (0x210A, 0x2113); (0x2115, 0x2115); (0x2119, 0x211D); (0x2124, 0x2124);
    (0x2126, 0x2126); (0x2128, 0x2128); (0x212A, 0x212D); (0x212F, 0x2134); (0x2139, 0x2139); (0x213C, 0x213F);
    (0x2145, 0x2149); (0x214E, 0x214E); (0x2160, 0x217F); (0x2183, 0x2184); (0x24B6, 0x24E9); (0x2C00, 0x2CE4);
    (0x2CEB, 0x2CEE); (0x2CF2, 0x2CF3); (0x2D00, 0x2D25); (0x2D27, 0x2D27); (0x2D2D, 0x2D2D); (0xA640, 0xA66D);
    (0xA680, 0xA69D); (0xA722, 0xA787); (0xA78B, 0xA78E); (0xA790, 0xA7CA); (0xA7D0, 0xA7D1); (0xA7D3, 0xA7D3);
    (0xA7D5, 0xA7D9); (0xA7F5, 0xA7F6); (0xA7F8, 0xA7FA); (0xAB30, 0xAB5A); (0xAB5C, 0xAB68); (0xAB70, 0xABBF);
    (0xFB00, 0xFB06); (0xFB13, 0xFB17); (0xFF21, 0xFF3A); (0xFF41, 0xFF5A); (0x10400, 0x1044F); (0x104B0, 0x104D3);
    (0x104D8, 0x104FB); (0x10570, 0x1057A); (0x1057C, 0x1058A); (0x1058C, 0x10592); (0x10594, 0x10595); (0x10597, 0x105A1);
    (0x105A3, 0x105B1); (0x105B3, 0x105B9); (0x105BB, 0x105BC); (0x10780, 0x10780); (0x10783, 0x10785); (0x10787, 0x107B0);
    (0x107B2, 0x107BA); (0x10C80, 0x10CB2); (0x10CC0, 0x10CF2); (0x118A0, 0x118DF); (0x16E40, 0x16E7F); (0x1D400, 0x1D454);
    (0x1D456, 0x1D49C); (0x1D49E, 0x1D49F); (0x1D4A2, 0x1D4A2); (0x1D4A5, 0x1D4A6); (0x1D4A9, 0x1D4AC); (0x1D4AE, 0x1D4B9);
    (0x1D4BB, 0x1D4BB); (0x1D4BD, 0x1D4C3); (0x1D4C5, 0x1D505); (0x1D507, 0x1D50A); (0x1D50D, 0x1D514); (0x1D516, 0x1D51C);
    (0x1D51E, 0x1D539); (0x1D53B, 0x1D53E); (0x1D540, 0x1D544); (0x1D546, 0x1D546); (0x1D54A, 0x1D550); (0x1D552, 0x1D6A5);
    (0x1D6A8, 0x1D6C0); (0x1D6C2, 0x1D6DA); (0x1D6DC, 0x1D6FA); (0x1D6FC, 0x1D714); (0x1D716, 0x1D734); (0x1D736, 0x1D74E);
    (0x1D750, 0x1D76E); (0x1D770, 0x1D788); (0x1D78A, 0x1D7A8); (0x1D7AA, 0x1D7C2); (0x1D7C4, 0x1D7CB); (0x1DF00, 0x1DF09);
    (0x1DF0B, 0x1DF1E); (0x1E900, 0x1E943); (0x1F130, 0x1F149); (0x1F150, 0x1F169); (0x1F170, 0x1F189) ]%N.

Definition case_ignorable_ranges : list (N * N) :=
  [ (0x27, 0x27); (0x2E, 0x2E); (0x3A, 0x3A); (0x5E, 0x5E); (0x60, 0x60); (0xA8, 0xA8);
    (0xAD, 0xAD); (0xAF, 0xAF); (0xB4, 0xB4); (0xB7, 0xB8); (0x2B0, 0x36F); (0x374, 0x375);
    (0x37A, 0x37A); (0x384, 0x385); (0x387, 0x387); (0x483, 0x489); (0x559, 0x559); (0x55F, 0x55F);
    (0x591, 0x5BD); (0x5BF, 0x5BF); (0x5C1, 0x5C2); (0x5C4, 0x5C5); (0x5C7, 0x5C7); (0x5F4, 0x5F4);
    (0x600, 0x605); (0x610, 0x61A); (0x61C, 0x61C); (0x640, 0x640); (0x64B, 0x65F); (0x670, 0x670);
    (0x6D6, 0x6DD); (0x6DF, 0x6E8); (0x6EA, 0x6ED); (0x70F, 0x70F); (0x711, 0x711); (0x730, 0x74A);
    (0x7A6, 0x7B0); (0x7EB, 0x7F5); (0x7FA, 0x7FA); (0x7FD, 0x7FD); (0x816, 0x82D); (0x859, 0x85B);
    (0x888, 0x888); (0x890, 0x891); (0x898, 0x89F); (0x8C9, 0x902); (0x93A, 0x93A); (0x93C, 0x93C);
    (0x941, 0x948); (0x94D, 0x94D); (0x951, 0x957); (0x962, 0x963); (0x971, 0x971); (0x981, 0x981);
    (0x9BC, 0x9BC); (0x9C1, 0x9C4); (0x9CD, 0x9CD); (0x9E2, 0x9E3); (0x9FE, 0x9FE); (0xA01, 0xA02);
    (0xA3C, 0xA3C); (0xA41, 0xA42); (0xA47, 0xA48); (0xA4B, 0xA4D); (0xA51, 0xA51); (0xA70, 0xA71);
    (0xA75, 0xA75); (0xA81, 0xA82); (0xABC, 0xABC); (0xAC1, 0xAC5); (0xAC7, 0xAC8); (0xACD, 0xACD);
    (0xAE2, 0xAE3); (0xAFA, 0xAFF); (0xB01, 0xB01); (0xB3C, 0xB3C); (0xB3F, 0xB3F); (0xB41, 0xB44);
    (0xB4D, 0xB4D); (0xB55, 0xB56); (0xB62, 0xB63); (0xB82, 0xB82); (0xBC0, 0xBC0); (0xBCD, 0xBCD);
    (0xC00, 0xC00); (0xC04, 0xC04); (0xC3C, 0xC3C); (0xC3E, 0xC40); (0xC46, 0xC48); (0xC4A, 0xC4D);
    (0xC55, 0xC56); (0xC62, 0xC63); (0xC81, 0xC81); (0xCBC, 0xCBC); (0xCBF, 0xCBF); (0xCC6, 0xCC6);
    (0xCCC, 0xCCD); (0xCE2, 0xCE3); (0xD00, 0xD01); (0xD3B, 0xD3C); (0xD41, 0xD44); (0xD4D, 0xD4D);
    (0xD62, 0xD63); (0xD81, 0xD81); (0xDCA, 0xDCA); (0xDD2, 0xDD4); (0xDD6, 0xDD6); (0xE31, 0xE31);
    (0xE34, 0xE3A); (0xE46, 0xE4E); (0xEB1, 0xEB1); (0xEB4, 0xEBC); (0xEC6, 0xEC6); (0xEC8, 0xECD);
    (0xF18, 0xF19); (0xF35, 0xF35); (0xF37, 0xF37); (0xF39, 0xF39); (0xF71, 0xF7E); (0xF80, 0xF84);
    (0xF86, 0xF87); (0xF8D, 0xF97); (0xF99, 0xFBC); (0xFC6, 0xFC6); (0x102D, 0x1030); (0x1032, 0x1037);
    (0x1039, 0x103A); (0x103D, 0x103E); (0x1058, 0x1059); (0x105E, 0x1060); (0x1071, 0x1074); (0x1082, 0x1082);
    (0x1085, 0x1086); (0x108D, 0x108D); (0x109D, 0x109D); (0x10FC, 0x10FC); (0x135D, 0x135F); (0x1712, 0x1714);
    (0x1732, 0x1733); (0x1752, 0x1753); (0x1772, 0x1773); (0x17B4, 0x17B5); (0x17B7, 0x17BD); (0x17C6, 0x17C6);
    (0x17C9, 0x17D3); (0x17D7, 0x17D7); (0x17DD, 0x17DD); (0x180B, 0x180F); (0x1843, 0x1843); (0x1885, 0x1886);
    (0x18A9, 0x18A9); (0x1920, 0x1922); (0x1927, 0x1928); (0x1932, 0x1932); (0x1939, 0x193B); (0x1A17, 0x1A18);
    (0x1A1B, 0x1A1B); (0x1A56, 0x1A56); (0x1A58, 0x1A5E); (0x1A60, 0x1A60); (0x1A62, 0x1A62); (0x1A65, 0x1A6C);
    (0x1A73, 0x1A7C); (0x1A7F, 0x1A7F); (0x1AA7, 0x1AA7); (0x1AB0, 0x1ACE); (0x1B00, 0x1B03); (0x1B34, 0x1B34);
    (0x1B36, 0x1B3A); (0x1B3C, 0x1B3C); (0x1B42, 0x1B42); (0x1B6B, 0x1B73); (0x1B80, 0x1B81); (0x1BA2, 0x1BA5);
    (0x1BA8, 0x1BA9); (0x1BAB, 0x1BAD); (0x1BE6, 0x1BE6); (0x1BE8, 0x1BE9); (0x1BED, 0x1BED); (0x1BEF, 0x1BF1);
    (0x1C2C, 0x1C33); (0x1C36, 0x1C37); (0x1C78, 0x1C7D); (0x1CD0, 0x1CD2); (0x1CD4, 0x1CE0); (0x1CE2, 0x1CE8);
    (0x1CED, 0x1CED); (0x1CF4, 0x1CF4); (0x1CF8, 0x1CF9); (0x1D2C, 0x1D6A); (0x1D78, 0x1D78); (0x1D9B, 0x1DFF);
    (0x1FBD, 0x1FBD); (0x1FBF, 0x1FC1); (0x1FCD, 0x1FCF); (0x1FDD, 0x1FDF); (0x1FED, 0x1FEF); (0x1FFD, 0x1FFE);
    (0x200B, 0x200F); (0x2018, 0x2019); (0x2024, 0x2024); (0x2027, 0x2027); (0x202A, 0x202E); (0x2060, 0x2064);
    (0x2066, 0x206F); (0x2071, 0x2071); (0x207F, 0x207F); (0x2090, 0x209C); (0x20D0, 0x20F0); (0x2C7C, 0x2C7D);
    (0x2CEF, 0x2CF1); (0x2D6F, 0x2D6F); (0x2D7F, 0x2D7F); (0x2DE0, 0x2DFF); (0x2E2F, 0x2E2F); (0x3005, 0x3005);
    (0x302A, 0x302D); (0x3031, 0x3035); (0x303B, 0x303B); (0x3099, 0x309E); (0x30FC, 0x30FE); (0xA015, 0xA015);
    (0xA4F8, 0xA4FD); (0xA60C, 0xA60C); (0xA66F, 0xA672); (0xA674, 0xA67D); (0xA67F, 0xA67F); (0xA69C, 0xA69F);
    (0xA6F0, 0xA6F1); (0xA700, 0xA721); (0xA770, 0xA770); (0xA788, 0xA78A); (0xA7F2, 0xA7F4); (0xA7F8, 0xA7F9);
    (0xA802, 0xA802); (0xA806, 0xA806); (0xA80B, 0xA80B); (0xA825, 0xA826); (0xA82C, 0xA82C); (0xA8C4, 0xA8C5);
    (0xA8E0, 0xA8F1); (0xA8FF, 0xA8FF); (0xA926, 0xA92D); (0xA947, 0xA951); (0xA980, 0xA982); (0xA9B3, 0xA9B3);
    (0xA9B6, 0xA9B9); (0xA9BC, 0xA9BD); (0xA9CF, 0xA9CF); (0xA9E5, 0xA9E6); (0xAA29, 0xAA2E); (0xAA31, 0xAA32);
    (0xAA35, 0xAA36); (0xAA43, 0xAA43); (0xAA4C, 0xAA4C); (0xAA70, 0xAA70); (0xAA7C, 0xAA7C); (0xAAB0, 0xAAB0);
    (0xAAB2, 0xAAB4); (0xAAB7, 0xAAB8); (0xAABE, 0xAABF); (0xAAC1, 0xAAC1); (0xAADD, 0xAADD); (0xAAEC, 0xAAED);
    (0xAAF3, 0xAAF4); (0xAAF6, 0xAAF6); (0xAB5B, 0xAB5F); (0xAB69, 0xAB6B); (0xABE5, 0xABE5); (0xABE8, 0xABE8);
    (0xABED, 0xABED); (0xFB1E, 0xFB1E); (0xFBB2, 0xFBC2); (0xFE00, 0xFE0F); (0xFE13, 0xFE13); (0xFE20, 0xFE2F);
    (0xFE52, 0xFE52); (0xFE55, 0xFE55); (0xFEFF, 0xFEFF); (0xFF07, 0xFF07); (0xFF0E, 0xFF0E); (0xFF1A, 0xFF1A);
    (0xFF3E, 0xFF3E); (0xFF40, 0xFF40); (0xFF70, 0xFF70); (0xFF9E, 0xFF9F); (0xFFE3, 0xFFE3); (0xFFF9, 0xFFFB);
    (0x101FD, 0x101FD); (0x102E0, 0x102E0); (0x10376, 0x1037A); (0x10780, 0x10785); (0x10787, 0x107B0); (0x107B2, 0x107BA);
    (0x10A01, 0x10A03); (0x10A05, 0x10A06); (0x10A0C, 0x10A0F); (0x10A38, 0x10A3A); (0x10A3F, 0x10A3F); (0x10AE5, 0x10AE6);
    (0x10D24, 0x10D27); (0x10EAB, 0x10EAC); (0x10F46, 0x10F50); (0x10F82, 0x10F85); (0x11001, 0x11001); (0x11038, 0x11046);
    (0x11070, 0x11070); (0x11073, 0x11074); (0x1107F, 0x11081); (0x110B3, 0x110B6); (0x110B9, 0x110BA); (0x110BD, 0x110BD);
    (0x110C2, 0x110C2); (0x110CD, 0x110CD); (0x11100, 0x11102); (0x11127, 0x1112B); (0x1112D, 0x11134); (0x11173, 0x11173);
    (0x11180, 0x11181); (0x111B6, 0x111BE); (0x111C9, 0x111CC); (0x111CF, 0x111CF); (0x1122F, 0x11231); (0x11234, 0x11234);
    (0x11236, 0x11237); (0x1123E, 0x1123E); (0x112DF, 0x112DF); (0x112E3, 0x112EA); (0x11300, 0x11301); (0x1133B, 0x1133C);
    (0x11340, 0x11340); (0x11366, 0x1136C); (0x11370, 0x11374); (0x11438, 0x1143F); (0x11442, 0x11444); (0x11446, 0x11446);
    (0x1145E, 0x1145E); (0x114B3, 0x114B8); (0x114BA, 0x114BA); (0x114BF, 0x114C0); (0x114C2, 0x114C3); (0x115B2, 0x115B5);
    (0x115BC, 0x115BD); (0x115BF, 0x115C0); (0x115DC, 0x115DD); (0x11633, 0x1163A); (0x1163D, 0x1163D); (0x1163F, 0x11640);
    (0x116AB, 0x116AB); (0x116AD, 0x116AD); (0x116B0, 0x116B5); (0x116B7, 0x116B7); (0x1171D, 0x1171F); (0x11722, 0x11725);
    (0x11727, 0x1172B); (0x1182F, 0x11837); (0x11839, 0x1183A); (0x1193B, 0x1193C); (0x1193E, 0x1193E); (0x11943, 0x11943);
    (0x119D4, 0x119D7); (0x119DA, 0x119DB); (0x119E0, 0x119E0); (0x11A01, 0x11A0A); (0x11A33, 0x11A38); (0x11A3B, 0x11A3E);
    (0x11A47, 0x11A47); (0x11A51, 0x11A56); (0x11A59, 0x11A5B); (0x11A8A, 0x11A96); (0x11A98, 0x11A99); (0x11C30, 0x11C36);
    (0x11C38, 0x11C3D); (0x11C3F, 0x11C3F); (0x11C92, 0x11CA7); (0x11CAA, 0x11CB0); (0x11CB2, 0x11CB3); (0x11CB5, 0x11CB6);
    (0x11D31, 0x11D36); (0x11D3A, 0x11D3A); (0x11D3C, 0x11D3D); (0x11D3F, 0x11D45); (0x11D47, 0x11D47); (0x11D90, 0x11D91);
    (0x11D95, 0x11D95); (0x11D97, 0x11D97); (0x11EF3, 0x11EF4); (0x13430, 0x13438); (0x16AF0, 0x16AF4); (0x16B30, 0x16B36);
    (0x16B40, 0x16B43); (0x16F4F, 0x16F4F); (0x16F8F, 0x16F9F); (0x16FE0, 0x16FE1); (0x16FE3, 0x16FE4); (0x1AFF0, 0x1AFF3);
    (0x1AFF5, 0x1AFFB); (0x1AFFD, 0x1AFFE); (0x1BC9D, 0x1BC9E); (0x1BCA0, 0x1BCA3); (0x1CF00, 0x1CF2D); (0x1CF30, 0x1CF46);
    (0x1D167, 0x1D169); (0x1D173, 0x1D182); (0x1D185, 0x1D18B); (0x1D1AA, 0x1D1AD); (0x1D242, 0x1D244); (0x1DA00, 0x1DA36);
    (0x1DA3B, 0x1DA6C); (0x1DA75, 0x1DA75); (0x1DA84, 0x1DA84); (0x1DA9B, 0x1DA9F); (0x1DAA1, 0x1DAAF); (0x1E000, 0x1E006);
    (0x1E008, 0x1E018); (0x1E01B, 0x1E021); (0x1E023, 0x1E024); (0x1E026, 0x1E02A); (0x1E130, 0x1E13D); (0x1E2AE, 0x1E2AE);
    (0x1E2EC, 0x1E2EF); (0x1E8D0, 0x1E8D6); (0x1E944, 0x1E94B); (0x1F3FB, 0x1F3FF); (0xE0001, 0xE0001); (0xE0020, 0xE007F);
    (0xE0100, 0xE01EF) ]%N.

Definition digit_ranges : list (N * N) :=
  [ (0x30, 0x39); (0xB2, 0xB3); (0xB9, 0xB9); (0x660, 0x669); (0x6F0, 0x6F9); (0x7C0, 0x7C9);
    (0x966, 0x96F); (0x9E6, 0x9EF); (0xA66, 0xA6F); (0xAE6, 0xAEF); (0xB66, 0xB6F); (0xBE6, 0xBEF);
    (0xC66, 0xC6F); (0xCE6, 0xCEF); (0xD66, 0xD6F); (0xDE6, 0xDEF); (0xE50, 0xE59); (0xED0, 0xED9);
    (0xF20, 0xF29); (0x1040, 0x1049); (0x1090, 0x1099); (0x1369, 0x1371); (0x17E0, 0x17E9); (0x1810, 0x1819);
    (0x1946, 0x194F); (0x19D0, 0x19DA); (0x1A80, 0x1A89); (0x1A90, 0x1A99); (0x1B50, 0x1B59); (0x1BB0, 0x1BB9);
    (0x1C40, 0x1C49); (0x1C50, 0x1C59); (0x2070, 0x2070); (0x2074, 0x2079); (0x2080, 0x2089); (0x2460, 0x2468);
    (0x2474, 0x247C); (0x2488, 0x2490); (0x24EA, 0x24EA); (0x24F5, 0x24FD); (0x24FF, 0x24FF); (0x2776, 0x277E);
    (0x2780, 0x2788); (0x278A, 0x2792); (0xA620, 0xA629); (0xA8D0, 0xA8D9); (0xA900, 0xA909); (0xA9D0, 0xA9D9);
    (0xA9F0, 0xA9F9); (0xAA50, 0xAA59); (0xABF0, 0xABF9); (0xFF10, 0xFF19); (0x104A0, 0x104A9); (0x10A40, 0x10A43);
    (0x10D30, 0x10D39); (0x10E60, 0x10E68); (0x11052, 0x1105A); (0x11066, 0x1106F); (0x110F0, 0x110F9); (0x11136, 0x1113F);
    (0x111D0, 0x111D9); (0x112F0, 0x112F9); (0x11450, 0x11459); (0x114D0, 0x114D9); (0x11650, 0x11659); (0x116C0, 0x116C9);
    (0x11730, 0x11739); (0x118E0, 0x118E9); (0x11950, 0x11959); (0x11C50, 0x11C59); (0x11D50, 0x11D59); (0x11DA0, 0x11DA9);
    (0x16A60, 0x16A69); (0x16AC0, 0x16AC9); (0x16B50, 0x16B59); (0x1D7CE, 0x1D7FF); (0x1E140, 0x1E149); (0x1E2F0, 0x1E2F9);
    (0x1E950, 0x1E959); (0x1F100, 0x1F10A); (0x1FBF0, 0x1FBF9) ]%N.

Definition space_ranges : list (N * N) :=
  [ (0x9, 0xD); (0x1C, 0x20); (0x85, 0x85); (0xA0, 0xA0); (0x1680, 0x1680); (0x2000, 0x200A);
    (0x2028, 0x2029); (0x202F, 0x202F); (0x205F, 0x205F); (0x3000, 0x3000) ]%N.

(** The lower-case form of a code point; [None] when it has none. Two
    cases are not in the table: U+0130, which becomes two code points, and
    U+03A3, capital sigma, whose form depends on its position in the
    word. *)
Definition lower_code (final_sigma : bool) (cp : N) : option string :=
  if (cp =? 0x130)%N then Some (encode 0x69 +:+ encode 0x307)
  else if (cp =? 0x3A3)%N then Some (encode (if final_sigma then 0x3C2 else 0x3C3))
  else encode <$> lookup_pair cp lower_pairs.

Definition lower_char (final_sigma : bool) (ch : string) : string :=
  match decode ch with
  | Some (cp, rest) =>
      match lower_code final_sigma cp with
      | Some l => l +:+ rest
      | None => ch
      end
  | None => ch
  end.

Definition has_property (ranges : list (N * N)) (ch : string) : bool :=
  match decode ch with
  | Some (cp, _) => in_ranges cp ranges
  | None => false
  end.

Definition is_cased : string -> bool := has_property cased_ranges.
Definition is_case_ignorable : string -> bool := has_property case_ignorable_ranges.

(** Is the next character that is not case-ignorable a cased one? *)
Fixpoint cased_ahead (l : list string) : bool :=
  match l with
  | [] => false
  | ch :: rest => if is_case_ignorable ch then cased_ahead rest else is_cased ch
  end.

(** [after_cased]: the last character before [l] that is not
    case-ignorable is a cased one. A capital sigma that follows a cased
    letter and is followed by none is in final position. *)
Fixpoint lower_chars (after_cased : bool) (l : list string) : list string :=
  match l with
  | [] => []
  | ch :: rest =>
      lower_char (after_cased && negb (cased_ahead rest)) ch
      :: lower_chars (if is_case_ignorable ch then after_cased else is_cased ch) rest
  end.

(** [s.lower()] *)
Definition lower (s : string) : string := cat (lower_chars false (chars s)).

(** [c.isspace()], the characters that [strip] removes *)
Definition isspace (ch : string) : bool :=
  match decode ch with
  | Some (cp, EmptyString) => in_ranges cp space_ranges
  | _ => false
  end.

Fixpoint lstrip_chars (l : list string) : list string :=
  match l with
  | [] => []
  | ch :: rest => if isspace ch then lstrip_chars rest else l
  end.

(** [s.strip()] *)
Definition strip (s : string) : string :=
  cat (rev (lstrip_chars (rev (lstrip_chars (chars s))))).

(** [c.isdigit()] *)
Definition isdigit (ch : string) : bool := has_property digit_ranges ch.

Fixpoint startswith (p s : string) : bool :=
  match p, s with
  | EmptyString, _ => true
  | String _ _, EmptyString => false
  | String a p', String b s' => if Ascii.eqb a b then startswith p' s' else false
  end.

(** [sub in s] *)
Fixpoint contains (sub s : string) : bool :=
  startswith sub s ||
  match s with
  | EmptyString => false
  | String _ s' => contains sub s'
  end.

(** [sep.join(l)] *)
Definition join (sep : string) (l : list string) : string := String.concat sep l.

(** truth value of a string: [if s] *)
Definition truthy (s : string) : bool :=
  match s with EmptyString => false | _ => true end.

(** the double-quote character, for the selectors that contain one *)
Definition dq : string := String (ascii_of_nat 34) EmptyString.
Definition quoted (s : string) : string := dq +:+ s +:+ dq.

End Text.
Import Text.

(** ** Experience level: [_extract_experience_level] *)

Definition senior_words : list string :=
  ["senior"; "lead"; "principal"; "architect"; "5+ lat"; "5+ years"; "starszy"].
Definition junior_words : list string :=
  ["junior"; "intern"; "trainee"; "entry"; "początkuj"; "młodszy"].
Definition mid_words : list string :=
  ["mid"; "regular"; "specjalista"; "2-4 lat"; "2-4 years"].

(** [any(word in text_lower for word in words)] *)
Definition any_word_in (words : list string) (text_lower : string) : bool :=
  existsb (fun word => contains word text_lower) words.

Definition _extract_experience_level (text : string) : string :=
  if negb (truthy text) then "Unknown"
  else
    let text_lower := lower text in
    if any_word_in senior_words text_lower then "Senior"
    else if any_word_in junior_words text_lower then "Junior"
    else if any_word_in mid_words text_lower then "Mid"
    else "Mid".

(** ** Library oracles

    What the Python runtime answers for library calls whose code is not in
    the repository. *)

Record runtime := {
  (** [urlparse(url).netloc], or the exception [urlparse] raises *)
  urlparse_netloc : string -> result string;
  (** [re.findall(pattern, text, re.IGNORECASE | re.MULTILINE | re.DOTALL)]
      for a pattern with one capture group *)
  re_findall : string -> string -> list string;
  (** [re.split(pattern, text)] *)
  re_split : string -> string -> list string;
  (** [list(set(l))]: the elements of [l] in the iteration order of the set *)
  list_of_set : list string -> list string
}.

(** What is known of [list(set(l))]: the same elements, each once. *)
Definition set_semantics (py : runtime) : Prop :=
  forall l : list string,
    NoDup (list_of_set py l) /\ forall x, x ∈ list_of_set py l <-> x ∈ l.

(** *** CPython's [urllib.parse.urlsplit], as far as the authority

    The part of [urlsplit] that computes [netloc]: leading control
    characters and spaces are dropped, tabs and line breaks removed, a
    scheme is split off, and what follows [//] up to the first of [/], [?]
    or [#] is the authority; an unbalanced square bracket in it raises
    [ValueError]. The further validation of a bracketed or non-ASCII host
    is not modelled. *)

Module Urllib.

Definition is_alpha (c : ascii) : bool :=
  let n := nat_of_ascii c in
  ((65 <=? n) && (n <=? 90)) || ((97 <=? n) && (n <=? 122)).

Definition is_digit (c : ascii) : bool :=
  let n := nat_of_ascii c in (48 <=? n) && (n <=? 57).

Definition scheme_char (c : ascii) : bool :=
  is_alpha c || is_digit c || contains (String c EmptyString) "+-.".

Fixpoint all_char (p : ascii -> bool) (s : string) : bool :=
  match s with
  | EmptyString => true
  | String c s' => p c && all_char p s'
  end.

Fixpoint lstrip_c0 (s : string) : string :=
  match s with
  | EmptyString => EmptyString
  | String c s' => if nat_of_ascii c <=? 32 then lstrip_c0 s' else s
  end.

Definition unsafe_byte (c : ascii) : bool :=
  let n := nat_of_ascii c in (n =? 9) || (n =? 10) || (n =? 13).

Fixpoint remove_unsafe (s : string) : string :=
  match s with
  | EmptyString => EmptyString
  | String c s' => if unsafe_byte c then remove_unsafe s' else String c (remove_unsafe s')
  end.

(** [url.find(':')]: the text before and after the first colon *)
Fixpoint split_colon (s : string) : option (string * string) :=
  match s with
  | EmptyString => None
  | String c s' =>
      if Ascii.eqb c ":" then Some (EmptyString, s')
      else match split_colon s' with
           | Some (a, b) => Some (String c a, b)
           | None => None
           end
  end.

Definition drop_scheme (url : string) : string :=
  match split_colon url with
  | Some (String c0 _ as scheme, rest) =>
      if is_alpha c0 && all_char scheme_char scheme then rest else url
  | _ => url
  end.

(** [_splitnetloc(url, 2)], first component *)
Fixpoint splitnetloc (s : string) : string :=
  match s with
  | EmptyString => EmptyString
  | String c s' =>
      if contains (String c EmptyString) "/?#" then EmptyString
      else String c (splitnetloc s')
  end.

Definition urlsplit_netloc (url : string) : result string :=
  let url := drop_scheme (remove_unsafe (lstrip_c0 url)) in
  match url with
  | String "/" (String "/" rest) =>
      let netloc := splitnetloc rest in
      if xorb (contains "[" netloc) (contains "]" netloc)
      then Raise (Exn ValueError "Invalid IPv6 URL")
      else Ok netloc
  | _ => Ok EmptyString
  end.

End Urllib.

(** ** Portal detection: [detect_portal] *)

(** The dict [portals], in insertion order (the order Python iterates it). *)
Definition portals : list (string * string) :=
  [ ("pracuj.pl", "pracuj");
    ("indeed.pl", "indeed");
    ("indeed.com", "indeed");
    ("nofluffjobs.com", "nofluff");
    ("justjoin.it", "justjoin");
    ("theprotocol.it", "protocol");
    ("bulldogjob.pl", "bulldog") ].

(** The [for domain_key, portal in portals.items()] loop and its default. *)
Fixpoint match_portal (table : list (string * string)) (domain : string) : string :=
  match table with
  | [] => "unknown"
  | (domain_key, portal) :: table' =>
      if contains domain_key domain then portal else match_portal table' domain
  end.

Definition detect_portal (py : runtime) (url : string) : result string :=
  netloc ← urlparse_netloc py url;
  mret (match_portal portals (lower netloc)).

(** ** The browser, the network and parsed documents *)

(** A selenium [WebElement]: reading [.text] asks the browser and may raise. *)
Record element := { text : result string }.

Inductive By := CSS_SELECTOR | TAG_NAME.

(** A [BeautifulSoup] document: [select_one(sel)] gives the [.text] of the
    first match or [None]; [get_text()] the text of the page. *)
Record soup := {
  select_one : string -> result (option string);
  get_text : result string
}.

(** Markup handed to [BeautifulSoup(markup, 'html.parser')]. *)
Record document := { html_parser : result soup }.

(** The state of the driver once a page is loaded. *)
Record page := {
  (** [WebDriverWait(driver, 10).until(EC.presence_of_element_located(
      (By.CSS_SELECTOR, sel)))] *)
  wait_until_present : string -> result element;
  find_element : By -> string -> result element;
  find_elements : By -> string -> result (list element);
  page_source : result document;
  current_url : result string
}.

Record webdriver := {
  execute_script : result unit;
  (** [driver.get(url)]: the page the driver is on afterwards *)
  get : string -> result page
}.

(** A [requests] response. *)
Record response := {
  raise_for_status : result unit;
  content : document
}.

(** The fields of an [AdvancedJobScraper] instance that the methods read. *)
Record scraper := {
  use_selenium : bool;
  driver : option webdriver;
  session_get : string -> result response
}.

(** ** Result dicts *)

Inductive value :=
  | VBool (b : bool)
  | VStr (s : string)
  | VList (l : list string).

Abbreviation dict := (gmap string value).

(** [{'success': False, 'error': msg}] *)
Definition failure (msg : string) : dict :=
  <["success" := VBool false]> (<["error" := VStr msg]> ∅).

(** [{'success': False, 'error': msg, 'portal': portal, 'url': url}] *)
Definition failure_at (msg portal url : string) : dict :=
  <["success" := VBool false]> (<["error" := VStr msg]>
  (<["portal" := VStr portal]> (<["url" := VStr url]> ∅))).

(** [result.get('success')] as a truth value *)
Definition get_success (r : dict) : bool :=
  match r !! "success" with
  | Some (VBool b) => b
  | Some (VStr s) => truthy s
  | Some (VList l) => negb (bool_decide (l = []))
  | None => false
  end.

(** The keys that carry extracted content. *)
Definition content_fields : list string :=
  ["title"; "company"; "location"; "salary"; "requirements"; "skills";
   "description"; "experience_level"].

(** ** The extraction engine *)

(** [_get_tech_keywords]: the lexicon *)
Definition _get_tech_keywords : list string :=
  [ "Python"; "Java"; "JavaScript"; "TypeScript"; "C#"; "C++"; "PHP"; "Ruby"; "Go"; "Rust"; "Kotlin";
    "React"; "Angular"; "Vue"; "Django"; "Flask"; "Spring"; "Node.js"; "Express"; "FastAPI";
    "MySQL"; "PostgreSQL"; "MongoDB"; "Redis"; "ElasticSearch"; "SQLite";
    "Docker"; "Kubernetes"; "AWS"; "Azure"; "GCP"; "Jenkins"; "GitLab"; "GitHub";
    "Git"; "CI/CD"; "Linux"; "Ubuntu"; "Nginx"; "Apache";
    "Scrum"; "Agile"; "REST"; "API"; "GraphQL"; "Microservices";
    "HTML"; "CSS"; "SASS"; "Bootstrap"; "Tailwind"; "jQuery"; "Webpack" ].

(** [elem.text.strip()] *)
Definition stripped_text (elem : element) : result string :=
  t ← text elem; mret (strip t).

(** [_try_selectors]: the first selector whose element has text; an
    exception of the lookup or of [.text] moves on to the next selector. *)
Fixpoint _try_selectors (pg : page) (selectors : list string) : option string :=
  match selectors with
  | [] => None
  | selector :: rest =>
      match (element ← find_element pg CSS_SELECTOR selector; stripped_text element) with
      | Ok t => if truthy t then Some t else _try_selectors pg rest
      | Raise _ => _try_selectors pg rest
      end
  end.

(** [for elem in elements: text = elem.text.strip(); if accept: items.append(text)].
    The list is appended to in place, so what was appended before an
    exception stays; the second component is the exception, if any. *)
Fixpoint collect_texts (accept : string -> bool) (elements : list element)
    (items : list string) : list string * option exn :=
  match elements with
  | [] => (items, None)
  | elem :: rest =>
      match stripped_text elem with
      | Raise e => (items, Some e)
      | Ok t => collect_texts accept rest (if accept t then items ++ [t] else items)
      end
  end.

(** The loop over selectors that [_extract_list_items] and [_extract_skills]
    both have: query the selector, collect the accepted texts, [break] as
    soon as the list is not empty, [continue] on an exception. Returns the
    list and the selectors that were queried, in order. *)
Fixpoint selector_loop (accept : string -> bool) (pg : page)
    (selectors : list string) (items : list string) : list string * list string :=
  match selectors with
  | [] => (items, [])
  | selector :: rest =>
      let continue items' :=
        let '(final, queried) := selector_loop accept pg rest items' in
        (final, selector :: queried) in
      match find_elements pg CSS_SELECTOR selector with
      | Raise _ => continue items
      | Ok elements =>
          match collect_texts accept elements items with
          | (items', Some _) => continue items'
          | (items', None) =>
              match items' with
              | [] => continue items'
              | _ :: _ => (items', [selector])
              end
          end
      end
  end.

(** [text and len(text) > 5 and len(text) < 200] *)
Definition list_item_ok (t : string) : bool :=
  truthy t && (5 <? len t) && (len t <? 200).

Definition _extract_list_items_trace (pg : page) (selectors : list string)
    : list string * list string :=
  let '(items, queried) := selector_loop list_item_ok pg selectors [] in
  (take 10 items, queried).

Definition _extract_list_items (pg : page) (selectors : list string) : list string :=
  fst (_extract_list_items_trace pg selectors).

(** [text and len(text) < 50 and not any(char.isdigit() for char in text)] *)
Definition skill_ok (t : string) : bool :=
  truthy t && (len t <? 50) && negb (existsb isdigit (chars t)).

(** [for keyword in tech_keywords: if keyword.lower() in page_text and
    keyword not in skills: skills.append(keyword)] *)
Definition add_keywords (page_text : string) (skills : list string) : list string :=
  fold_left
    (fun skills keyword =>
       if contains (lower keyword) page_text && negb (bool_decide (keyword ∈ skills))
       then skills ++ [keyword] else skills)
    _get_tech_keywords skills.

(** [_extract_requirements_from_text] and its constants *)
Definition requirement_patterns : list string :=
  [ "(?:wymagania|requirements?|must have|essential):?\s*(.+?)(?:\n\n|\n[A-Z]|oferujemy|we offer|benefits)";
    "(?:potrzebne|needed|required):?\s*(.+?)(?:\n\n|\n[A-Z]|oferujemy)";
    "(?:oczekujemy|expect|looking for):?\s*(.+?)(?:\n\n|\n[A-Z]|oferujemy)" ].

Definition requirement_separators : string := "[,;•\-\n]\s*".

(** [req and len(req) > 10 and len(req) < 150] *)
Definition requirement_ok (req : string) : bool :=
  truthy req && (10 <? len req) && (len req <? 150).

(** [_extract_skills_from_text] *)
Definition _extract_skills_from_text (text : string) : list string :=
  if negb (truthy text) then []
  else
    let text_lower := lower text in
    take 15 (List.filter (fun skill => contains (lower skill) text_lower) _get_tech_keywords).

Section Engine.

Context (py : runtime).

Definition _extract_skills (pg : page) (selectors : list string) : result (list string) :=
  let skills := fst (selector_loop skill_ok pg selectors []) in
  body ← find_element pg TAG_NAME "body";
  t ← text body;
  let page_text := lower t in
  let skills := add_keywords page_text skills in
  mret (take 15 (list_of_set py skills)).

Definition _extract_requirements_from_text (text : string) : list string :=
  if negb (truthy text) then []
  else
    let requirements :=
      flat_map (fun pattern =>
        flat_map (fun m =>
          List.filter requirement_ok (map strip (re_split py requirement_separators m)))
          (re_findall py pattern text))
        requirement_patterns in
    take 10 requirements.

(** [_extract_generic_info]: the title loop over [title_tags] *)
Definition title_tags : list string :=
  ["h1"; "[data-test*=" +:+ quoted "title" +:+ "]"; ".job-title"; ".offer-title"].

Fixpoint generic_title (sp : soup) (tags : list string) : result string :=
  match tags with
  | [] => Ok "N/A"
  | tag :: rest =>
      elem ← select_one sp tag;
      match elem with
      | Some t => if truthy (strip t) then Ok (strip t) else generic_title sp rest
      | None => generic_title sp rest
      end
  end.

Definition _extract_generic_info_body (sp : soup) (url portal : string) : result dict :=
  title ← generic_title sp title_tags;
  page_text ← get_text sp;
  let skills := _extract_skills_from_text page_text in
  let requirements := _extract_requirements_from_text page_text in
  let experience := _extract_experience_level (title +:+ " " +:+ prefix 1000 page_text) in
  mret (list_to_map
    [ ("success", VBool true);
      ("portal", VStr portal);
      ("url", VStr url);
      ("title", VStr title);
      ("company", VStr "N/A");
      ("location", VStr "N/A");
      ("salary", VStr "N/A");
      ("requirements", VList requirements);
      ("skills", VList skills);
      ("description", VStr (prefix 1000 page_text));
      ("experience_level", VStr experience);
      ("raw_requirements", VStr (join " " requirements)) ]).

Definition _extract_generic_info (sp : soup) (url portal : string) : dict :=
  match _extract_generic_info_body sp url portal with
  | Ok r => r
  | Raise e => failure_at (str_of e) portal url
  end.

(** [_scrape_pracuj_selenium] and its selector lists *)
Definition pracuj_title_selectors : list string :=
  ["h1"; ".offer-title"; "[data-test*=" +:+ quoted "title" +:+ "]"].
Definition pracuj_company_selectors : list string :=
  [ "[data-test=" +:+ quoted "text-employer" +:+ "]"; ".company-name";
    "[data-test*=" +:+ quoted "company" +:+ "]"; "h2" ].
Definition pracuj_location_selectors : list string :=
  [ "[data-test=" +:+ quoted "text-workingPlace" +:+ "]"; ".location";
    "[data-test*=" +:+ quoted "location" +:+ "]" ].
Definition pracuj_req_selectors : list string :=
  [ "[data-test=" +:+ quoted "section-requirements" +:+ "] li"; ".requirements li";
    ".requirement-item"; "[data-test*=" +:+ quoted "requirement" +:+ "] li" ].
Definition pracuj_skill_selectors : list string :=
  [ "[data-test=" +:+ quoted "chip-item" +:+ "]"; ".skill-tag"; ".technology-tag"; ".badge" ].
Definition pracuj_desc_selectors : list string :=
  [ "[data-test=" +:+ quoted "section-responsibilities" +:+ "]"; ".job-description";
    ".offer-description"; "[data-test*=" +:+ quoted "description" +:+ "]" ].
Definition pracuj_salary_selectors : list string :=
  [ "[data-test*=" +:+ quoted "salary" +:+ "]"; ".salary"; ".wage";
    "[data-test*=" +:+ quoted "wage" +:+ "]" ].

(** The title: the wait for the title element, and on [TimeoutException]
    only, the selectors or "N/A". *)
Definition pracuj_title (pg : page) : result string :=
  match (title_elem ← wait_until_present pg ("[data-test=" +:+ quoted "text-offerTitle" +:+ "], h1");
         stripped_text title_elem) with
  | Ok t => Ok t
  | Raise e =>
      match kind_of e with
      | TimeoutException => Ok (default "N/A" (_try_selectors pg pracuj_title_selectors))
      | _ => Raise e
      end
  end.

Definition _scrape_pracuj_selenium_body (pg : page) : result dict :=
  title ← pracuj_title pg;
  let company := default "N/A" (_try_selectors pg pracuj_company_selectors) in
  let location := default "N/A" (_try_selectors pg pracuj_location_selectors) in
  let requirements := _extract_list_items pg pracuj_req_selectors in
  skills ← _extract_skills pg pracuj_skill_selectors;
  let description := default "" (_try_selectors pg pracuj_desc_selectors) in
  let salary := default "N/A" (_try_selectors pg pracuj_salary_selectors) in
  let experience := _extract_experience_level (title +:+ " " +:+ join " " requirements) in
  url ← current_url pg;
  mret (list_to_map
    [ ("success", VBool true);
      ("portal", VStr "pracuj");
      ("url", VStr url);
      ("title", VStr title);
      ("company", VStr company);
      ("location", VStr location);
      ("salary", VStr salary);
      ("requirements", VList (take 10 requirements));
      ("skills", VList (take 15 skills));
      ("description", VStr (prefix 1500 description));
      ("experience_level", VStr experience);
      ("raw_requirements", VStr (join " " requirements)) ]).

Definition _scrape_pracuj_selenium (pg : page) : dict :=
  match _scrape_pracuj_selenium_body pg with
  | Ok r => r
  | Raise e => failure (str_of e)
  end.

(** [[elem.text.strip() for elem in elements if elem.text.strip()]] *)
Fixpoint nonempty_texts (elements : list element) : result (list string) :=
  match elements with
  | [] => Ok []
  | elem :: rest =>
      t ← stripped_text elem;
      ts ← nonempty_texts rest;
      mret (if truthy t then t :: ts else ts)
  end.

(** [_scrape_nofluff_selenium] *)
Definition _scrape_nofluff_selenium_body (pg : page) : result dict :=
  title_elem ← wait_until_present pg "h1, .posting-details-title";
  title ← stripped_text title_elem;
  company_elem ← find_element pg CSS_SELECTOR ".company-name, .posting-details-company";
  company ← stripped_text company_elem;
  tech_elements ← find_elements pg CSS_SELECTOR ".posting-technologies .technology";
  skills ← nonempty_texts tech_elements;
  req_elements ← find_elements pg CSS_SELECTOR ".posting-requirements li";
  requirements ← nonempty_texts req_elements;
  salary_elem ← find_element pg CSS_SELECTOR ".posting-salary, .salary-range";
  salary ← stripped_text salary_elem;
  let experience := _extract_experience_level title in
  url ← current_url pg;
  mret (list_to_map
    [ ("success", VBool true);
      ("portal", VStr "nofluff");
      ("url", VStr url);
      ("title", VStr title);
      ("company", VStr company);
      ("location", VStr "Remote/Warsaw");
      ("salary", VStr salary);
      ("requirements", VList requirements);
      ("skills", VList skills);
      ("description", VStr (join " " requirements));
      ("experience_level", VStr experience) ]).

Definition _scrape_nofluff_selenium (pg : page) : dict :=
  match _scrape_nofluff_selenium_body pg with
  | Ok r => r
  | Raise e => failure (str_of e)
  end.

(** The class has no method [_scrape_justjoin_selenium]: calling it raises. *)
Definition _scrape_justjoin_selenium : result dict :=
  Raise (Exn AttributeError
    "'AdvancedJobScraper' object has no attribute '_scrape_justjoin_selenium'").

(** [scrape_with_selenium] *)
Definition scrape_with_selenium_body (d : webdriver) (url portal : string) : result dict :=
  pg ← get d url;
  if String.eqb portal "pracuj" then Ok (_scrape_pracuj_selenium pg)
  else if String.eqb portal "nofluff" then Ok (_scrape_nofluff_selenium pg)
  else if String.eqb portal "justjoin" then _scrape_justjoin_selenium
  else
    source ← page_source pg;
    sp ← html_parser source;
    mret (_extract_generic_info sp url portal).

Definition scrape_with_selenium (self : scraper) (url portal : string) : dict :=
  match driver self with
  | None => failure "Selenium not available"
  | Some d =>
      match scrape_with_selenium_body d url portal with
      | Ok r => r
      | Raise e => failure (str_of e)
      end
  end.

(** [_scrape_with_requests] *)
Definition _scrape_with_requests_body (self : scraper) (url portal : string) : result dict :=
  resp ← session_get self url;
  _ ← raise_for_status resp;
  sp ← html_parser (content resp);
  mret (_extract_generic_info sp url portal).

Definition _scrape_with_requests (self : scraper) (url portal : string) : dict :=
  match _scrape_with_requests_body self url portal with
  | Ok r => r
  | Raise e => failure_at (str_of e) portal url
  end.

(** [portal in ['pracuj', 'nofluff', 'justjoin']] *)
Definition rendered_portal (portal : string) : bool :=
  bool_decide (portal ∈ ["pracuj"; "nofluff"; "justjoin"]).

(** [scrape_job]: [detect_portal] is called outside of any [try]. *)
Definition scrape_job (self : scraper) (url : string) : result dict :=
  portal ← detect_portal py url;
  if use_selenium self && rendered_portal portal then
    let r := scrape_with_selenium self url portal in
    if get_success r then Ok r
    else Ok (_scrape_with_requests self url portal)
  else Ok (_scrape_with_requests self url portal).

(** [batch_scrape]: the loop appends to [results]; nothing is caught. *)
Fixpoint batch_loop (self : scraper) (urls : list string) (results : list dict)
    : result (list dict) :=
  match urls with
  | [] => Ok results
  | url :: rest =>
      r ← scrape_job self url;
      batch_loop self rest (results ++ [r])
  end.

Definition batch_scrape (self : scraper) (urls : list string) : result (list dict) :=
  batch_loop self urls [].

End Engine.

(** [__init__] and [_setup_selenium]: [chrome] is what
    [webdriver.Chrome(options=...)] does. *)
Definition _setup_selenium (chrome : result webdriver) (self : scraper) : scraper :=
  match chrome with
  | Raise _ =>
      {| use_selenium := false; driver := driver self; session_get := session_get self |}
  | Ok d =>
      match execute_script d with
      | Ok _ =>
          {| use_selenium := use_selenium self; driver := Some d;
             session_get := session_get self |}
      | Raise _ =>
          {| use_selenium := false; driver := Some d; session_get := session_get self |}
      end
  end.

Definition init (use_selenium : bool) (chrome : result webdriver)
    (session : string -> result response) : scraper :=
  let self := {| use_selenium := use_selenium; driver := None; session_get := session |} in
  if use_selenium then _setup_selenium chrome self else self.

(** ** The batch endpoint of [api.py]: [batch_scrape_jobs]

    [asyncio.gather] returns the outcomes of the tasks in the order of the
    tasks, whatever the order in which they finish, so the tasks are
    modelled as a map over the URLs; the semaphore only bounds how many run
    at once ([max_concurrent] is taken positive). [now] is what
    [datetime.now().isoformat()] returns. *)

Module Api.

Record JobData := {
  success : bool;
  portal : string;
  url : string;
  title : string;
  company : string;
  location : string;
  salary : option string;
  requirements : list string;
  skills : list string;
  description : string;
  experience_level : string;
  scraped_at : string
}.

Definition validation_error {A} (field_name : string) : result A :=
  Raise (Exn OtherException ("1 validation error for JobData: " +:+ field_name)).

(** [scraper_result.get(key, default)] for a field of the given type; a
    value of another type is rejected by the model class (the scraper
    produces none, and pydantic's coercions are not modelled). *)
Definition get_bool (d : dict) (key : string) (default : bool) : result bool :=
  match d !! key with
  | None => Ok default
  | Some (VBool b) => Ok b
  | Some _ => validation_error key
  end.

Definition get_str (d : dict) (key default : string) : result string :=
  match d !! key with
  | None => Ok default
  | Some (VStr s) => Ok s
  | Some _ => validation_error key
  end.

Definition get_opt_str (d : dict) (key : string) : result (option string) :=
  match d !! key with
  | None => Ok None
  | Some (VStr s) => Ok (Some s)
  | Some _ => validation_error key
  end.

Definition get_list (d : dict) (key : string) : result (list string) :=
  match d !! key with
  | None => Ok []
  | Some (VList l) => Ok l
  | Some _ => validation_error key
  end.

(** [create_job_data] *)
Definition create_job_data (now : string) (scraper_result : dict) : result JobData :=
  success ← get_bool scraper_result "success" false;
  portal ← get_str scraper_result "portal" "unknown";
  url ← get_str scraper_result "url" "";
  title ← get_str scraper_result "title" "N/A";
  company ← get_str scraper_result "company" "N/A";
  location ← get_str scraper_result "location" "N/A";
  salary ← get_opt_str scraper_result "salary";
  requirements ← get_list scraper_result "requirements";
  skills ← get_list scraper_result "skills";
  description ← get_str scraper_result "description" "";
  experience_level ← get_str scraper_result "experience_level" "Unknown";
  mret {| success := success; portal := portal; url := url; title := title;
          company := company; location := location; salary := salary;
          requirements := requirements; skills := skills;
          description := description; experience_level := experience_level;
          scraped_at := now |}.

(** What a handler does: return a value or raise [HTTPException]. *)
Inductive http (A : Type) :=
  | Returned (a : A)
  | HTTPException (status_code : nat) (detail : string).
Arguments Returned {A} a.
Arguments HTTPException {A} status_code detail.

(** An entry of [processed_results]: a [JobData] object, or the dict made
    for a task that raised. *)
Inductive entry :=
  | Model (job : JobData)
  | Plain (d : dict).

Record batch_response := {
  total_requested : nat;
  successful : nat;
  failed : nat;
  results : list entry
}.

(** [scrape_single]: the task of one URL. *)
Definition scrape_single (py : runtime) (self : scraper) (now url : string)
    : result JobData :=
  r ← scrape_job py self url;
  create_job_data now r.

(** The loop over [results] that builds [processed_results]. *)
Definition processed (now : string) (url : string) (outcome : result JobData) : entry :=
  match outcome with
  | Raise e =>
      Plain (list_to_map
        [ ("success", VBool false); ("url", VStr url);
          ("error", VStr (str_of e)); ("scraped_at", VStr now) ])
  | Ok job => Model job
  end.

(** [r.get('success', default)] on an entry: [JobData] has no [get]. *)
Definition entry_get_success (default : bool) (r : entry) : result bool :=
  match r with
  | Model _ => Raise (Exn AttributeError "'JobData' object has no attribute 'get'")
  | Plain d =>
      Ok (match d !! "success" with
          | None => default
          | Some (VBool b) => b
          | Some (VStr s) => truthy s
          | Some (VList l) => negb (bool_decide (l = []))
          end)
  end.

(** [sum(1 for r in processed_results if cond(r))] *)
Fixpoint count_if (cond : entry -> result bool) (l : list entry) : result nat :=
  match l with
  | [] => Ok 0
  | r :: rest =>
      b ← cond r;
      n ← count_if cond rest;
      mret (if b : bool then S n else n)
  end.

Definition batch_scrape_jobs_body (py : runtime) (self : scraper) (now : string)
    (urls : list string) : result batch_response :=
  let outcomes := map (scrape_single py self now) urls in
  let processed_results := zip_with (processed now) urls outcomes in
  successful ← count_if (entry_get_success false) processed_results;
  failed ← count_if (fun r => b ← entry_get_success true r; mret (negb b)) processed_results;
  mret {| total_requested := length urls; successful := successful;
          failed := failed; results := processed_results |}.

Definition batch_scrape_jobs (py : runtime) (scraper_instance : option scraper)
    (now : string) (urls : list string) (max_concurrent : positive) : http batch_response :=
  match scraper_instance with
  | None => HTTPException 503 "Scraper not initialized"
  | Some self =>
      if 20 <? length urls then HTTPException 400 "Maximum 20 URLs per batch"
      else
        match batch_scrape_jobs_body py self now urls with
        | Ok resp => Returned resp
        | Raise e => HTTPException 500 (str_of e)
        end
  end.

End Api.

(** ** The other endpoints: [scrape_job] of [api.py] and of [main.py],
    and the skill lists of [analyze_skill_match]

    A handler body either returns, raises an [HTTPException], or raises
    another exception. [http_exception_str status detail] is [str(e)] for
    [e = HTTPException(status, detail)] (it depends on the version of the
    web framework), and [format_value v] is what an f-string prints for a
    value that is not a string. *)

Module Endpoints.

Inductive outcome (A : Type) :=
  | Return (a : A)
  | RaiseHTTP (status_code : nat) (detail : string)
  | RaiseOther (e : exn).
Arguments Return {A} a.
Arguments RaiseHTTP {A} status_code detail.
Arguments RaiseOther {A} e.

Definition of_result {A} (r : result A) : outcome A :=
  match r with
  | Ok a => Return a
  | Raise e => RaiseOther e
  end.

(** [result.get('error', 'Unknown error')] inside an f-string *)
Definition error_text (format_value : value -> string) (r : dict) : string :=
  match r !! "error" with
  | None => "Unknown error"
  | Some (VStr s) => s
  | Some v => format_value v
  end.

Section Handlers.

Context (py : runtime).
Context (http_exception_str : nat -> string -> string).
Context (format_value : value -> string).

(** [api.py], [scrape_job]: the [try] block *)
Definition api_scrape_job_body (self : scraper) (now url : string)
    : outcome Api.JobData :=
  match scrape_job py self url with
  | Raise e => RaiseOther e
  | Ok r =>
      if negb (get_success r)
      then RaiseHTTP 400 ("Scraping failed: " +:+ error_text format_value r)
      else of_result (Api.create_job_data now r)
  end.

(** [api.py], [scrape_job]: [except Exception] also catches the
    [HTTPException] raised in the block. *)
Definition api_scrape_job (scraper_instance : option scraper) (now url : string)
    : Api.http Api.JobData :=
  match scraper_instance with
  | None => Api.HTTPException 503 "Scraper not initialized"
  | Some self =>
      match api_scrape_job_body self now url with
      | Return job => Api.Returned job
      | RaiseHTTP status_code detail =>
          Api.HTTPException 500 (http_exception_str status_code detail)
      | RaiseOther e => Api.HTTPException 500 (str_of e)
      end
  end.

(** [scraper.py], [close]: [quit d] is what [d.quit()] does. *)
Definition close (quit : webdriver -> result unit) (self : scraper) : result unit :=
  match driver self with
  | Some d => quit d
  | None => Ok tt
  end.

(** [main.py], [reinitialize_scraper]: closes the global scraper, if any,
    and builds a new one; [fresh] is what the constructor call
    [AdvancedJobScraper(use_selenium=True, headless=True)] does. Gives the
    new scraper when the function returns [True], and [None] when it
    returns [False]. *)
Definition reinitialize_scraper (quit : webdriver -> result unit) (fresh : result scraper)
    (current : option scraper) : option scraper :=
  match (_ ← (match current with Some self => close quit self | None => Ok tt end);
         fresh) with
  | Ok self => Some self
  | Raise _ => None
  end.

Definition blocked_detail : string :=
  "Website blocked the request. The job portal may have anti-bot protection. Please try a different URL or try again later.".

(** [result.get('error', 'Unknown error')], on which [.lower()] is called *)
Definition error_msg_of (r : dict) : result string :=
  match r !! "error" with
  | None => Ok "Unknown error"
  | Some (VStr s) => Ok s
  | Some (VBool _) => Raise (Exn AttributeError "'bool' object has no attribute 'lower'")
  | Some (VList _) => Raise (Exn AttributeError "'list' object has no attribute 'lower'")
  end.

(** The two [raise HTTPException(status_code=400, ...)] that end the
    failure branch. *)
Definition report_failure {A} (error_msg : string) : outcome A :=
  if contains "403" error_msg then RaiseHTTP 400 blocked_detail
  else RaiseHTTP 400 ("Scraping failed: " +:+ error_msg).

(** [main.py], [scrape_job]: the [try] block, run with the global scraper
    [self]. *)
Definition main_scrape_job_body (quit : webdriver -> result unit) (fresh : result scraper)
    (self : scraper) (now url : string) : outcome Api.JobData :=
  match scrape_job py self url with
  | Raise e => RaiseOther e
  | Ok r =>
      if negb (get_success r) then
        match error_msg_of r with
        | Raise e => RaiseOther e
        | Ok error_msg =>
            if contains "invalid session id" (lower error_msg) then
              match reinitialize_scraper quit fresh (Some self) with
              | Some self' =>
                  match scrape_job py self' url with
                  | Raise e => RaiseOther e
                  | Ok r' =>
                      if get_success r' then of_result (Api.create_job_data now r')
                      else report_failure error_msg
                  end
              | None => report_failure error_msg
              end
            else report_failure error_msg
        end
      else of_result (Api.create_job_data now r)
  end.

(** [main.py], [scrape_job]: an [HTTPException] of the block is raised
    again as it is; any other exception becomes status 500. The value of
    the global after the call is not part of the model. *)
Definition main_scrape_job (quit : webdriver -> result unit) (fresh : result scraper)
    (scraper_global : option scraper) (now url : string) : Api.http Api.JobData :=
  let run self :=
    match main_scrape_job_body quit fresh self now url with
    | Return job => Api.Returned job
    | RaiseHTTP status_code detail => Api.HTTPException status_code detail
    | RaiseOther e =>
        Api.HTTPException 500 ("Internal scraping error: " +:+ str_of e)
    end in
  match scraper_global with
  | Some self => run self
  | None =>
      match reinitialize_scraper quit fresh None with
      | Some self => run self
      | None => Api.HTTPException 503 "Scraper service unavailable"
      end
  end.

(** [api.py], [analyze_skill_match]: the list [matching_skills] that the
    loops build, and the list returned under 'missing_skills'. (The score
    is a floating-point number and is not modelled.) *)
Definition matching_skills (job_skills user_skills : list string) : list string :=
  let job_skills_lower := map lower job_skills in
  let user_skills_lower := map lower user_skills in
  List.filter
    (fun user_skill =>
       existsb (fun job_skill =>
                  contains user_skill job_skill || contains job_skill user_skill)
               job_skills_lower)
    user_skills_lower.

Definition missing_skills (job_skills user_skills : list string) : list string :=
  let user_skills_lower := map lower user_skills in
  take 10 (List.filter
             (fun skill => negb (bool_decide (lower skill ∈ user_skills_lower)))
             job_skills).

End Handlers.

End Endpoints.

(** What [create_job_data] keeps of a dict that has the fields. *)
Definition carried_over (r : dict) (job : Api.JobData) : Prop :=
  r !! "success" = Some (VBool (Api.success job))
  /\ r !! "title" = Some (VStr (Api.title job))
  /\ r !! "company" = Some (VStr (Api.company job))
  /\ r !! "location" = Some (VStr (Api.location job))
  /\ r !! "salary" = VStr <$> Api.salary job
  /\ r !! "requirements" = Some (VList (Api.requirements job))
  /\ r !! "skills" = Some (VList (Api.skills job))
  /\ r !! "description" = Some (VStr (Api.description job))
  /\ r !! "experience_level" = Some (VStr (Api.experience_level job)).

(** ** Vocabulary of the statements *)

(** The stripped texts of all the elements, when each [.text] can be read. *)
Fixpoint all_texts (elements : list element) : result (list string) :=
  match elements with
  | [] => Ok []
  | elem :: rest =>
      t ← stripped_text elem;
      ts ← all_texts rest;
      mret (t :: ts)
  end.

(** A selector that leaves the list empty: its lookup raises, or none of
    its elements (up to the first whose text cannot be read) is accepted. *)
Definition barren (accept : string -> bool) (pg : page) (selector : string) : Prop :=
  match find_elements pg CSS_SELECTOR selector with
  | Raise _ => True
  | Ok elements => (collect_texts accept elements []).1 = []
  end.

(** The results that the stages of the pipeline return: the two portal
    strategies, the generic extractor, the selenium stage and the requests
    stage. *)
Inductive stage_output (py : runtime) : dict -> Prop :=
  | out_pracuj pg : stage_output py (_scrape_pracuj_selenium py pg)
  | out_nofluff pg : stage_output py (_scrape_nofluff_selenium pg)
  | out_generic sp url portal : stage_output py (_extract_generic_info py sp url portal)
  | out_selenium self url portal : stage_output py (scrape_with_selenium py self url portal)
  | out_requests self url portal : stage_output py (_scrape_with_requests py self url portal).

(** A call of a stage. *)
Inductive stage_call :=
  | CallPracuj (pg : page)
  | CallNofluff (pg : page)
  | CallGeneric (sp : soup) (url portal : string)
  | CallSelenium (self : scraper) (url portal : string)
  | CallRequests (self : scraper) (url portal : string).

(** What the call returns. *)
Definition run_stage (py : runtime) (c : stage_call) : dict :=
  match c with
  | CallPracuj pg => _scrape_pracuj_selenium py pg
  | CallNofluff pg => _scrape_nofluff_selenium pg
  | CallGeneric sp url portal => _extract_generic_info py sp url portal
  | CallSelenium self url portal => scrape_with_selenium py self url portal
  | CallRequests self url portal => _scrape_with_requests py self url portal
  end.

Definition raised {A} (r : result A) : option exn :=
  match r with
  | Ok _ => None
  | Raise e => Some e
  end.

(** The exception that the [try] block of the call itself raises, which
    its [except] branch catches. *)
Definition caught_own (py : runtime) (c : stage_call) : option exn :=
  match c with
  | CallPracuj pg => raised (_scrape_pracuj_selenium_body py pg)
  | CallNofluff pg => raised (_scrape_nofluff_selenium_body pg)
  | CallGeneric sp url portal => raised (_extract_generic_info_body py sp url portal)
  | CallSelenium self url portal =>
      match driver self with
      | Some d => raised (scrape_with_selenium_body py d url portal)
      | None => None
      end
  | CallRequests self url portal => raised (_scrape_with_requests_body py self url portal)
  end.

(** The strategy or the extractor that the selenium stage and the requests
    stage call and whose result they pass on, when they get that far. *)
Definition inner_call (c : stage_call) : option stage_call :=
  match c with
  | CallSelenium self url portal =>
      match driver self with
      | None => None
      | Some d =>
          match get d url with
          | Raise _ => None
          | Ok pg =>
              if String.eqb portal "pracuj" then Some (CallPracuj pg)
              else if String.eqb portal "nofluff" then Some (CallNofluff pg)
              else if String.eqb portal "justjoin" then None
              else
                match page_source pg with
                | Raise _ => None
                | Ok source =>
                    match html_parser source with
                    | Raise _ => None
                    | Ok sp => Some (CallGeneric sp url portal)
                    end
                end
          end
      end
  | CallRequests self url portal =>
      match session_get self url with
      | Raise _ => None
      | Ok resp =>
          match raise_for_status resp with
          | Raise _ => None
          | Ok _ =>
              match html_parser (content resp) with
              | Raise _ => None
              | Ok sp => Some (CallGeneric sp url portal)
              end
          end
      end
  | _ => None
  end.

(** The exception that was caught during the call: by the call itself, or
    else by the strategy or extractor that it called. *)
Definition caught_in (py : runtime) (c : stage_call) : option exn :=
  match caught_own py c with
  | Some e => Some e
  | None =>
      match inner_call c with
      | Some inner => caught_own py inner
      | None => None
      end
  end.

(** What a failed result looks like. *)
Definition failed_with (r : dict) (msg : string) : Prop :=
  r = failure msg \/ exists portal url, r = failure_at msg portal url.

(** The field [key] of the dict that a call returned. *)
Definition field (key : string) (r : result dict) : option value :=
  match r with
  | Ok d => d !! key
  | Raise _ => None
  end.

(** A boolean check that a list has no duplicate. *)
Fixpoint nodupb (l : list string) : bool :=
  match l with
  | [] => true
  | x :: l' => negb (existsb (String.eqb x) l') && nodupb l'
  end.

(** ** Vocabulary of the text lemmas *)


Fixpoint all_bytes (p : ascii -> bool) (s : string) : bool :=
  match s with
  | EmptyString => true
  | String c s' => p c && all_bytes p s'
  end.

Definition is_ascii (c : ascii) : bool := (byte c <? 0x80)%N.

(** a word of ASCII characters, not empty *)
Definition ascii_word (w : string) : bool := truthy w && all_bytes is_ascii w.

(** [s] with every byte outside ASCII replaced by one and the same byte *)
Fixpoint mask (s : string) : string :=
  match s with
  | EmptyString => EmptyString
  | String c s' => String (if is_ascii c then c else ascii_of_nat 255) (mask s')
  end.

(** [l] with [h] appended to its last element *)
Fixpoint app_last (l : list string) (h : string) : list string :=
  match l with
  | [] => []
  | [x] => [x +:+ h]
  | x :: rest => x :: app_last rest h
  end.

(** a character that [lower] leaves as it is, alone or before
    continuation bytes *)
Definition fixedb (ch : string) : bool :=
  match decode ch with
  | Some (cp, EmptyString) =>
      match lower_code true cp, lower_code false cp with
      | None, None => true
      | _, _ => false
      end
  | _ => false
  end.

(** a text made of such characters, which starts with one *)
Definition goodb (l : string) : bool :=
  truthy l && negb (starts_with_cont l) && forallb fixedb (chars l).

(** [lower] without the rule of the final sigma *)
Definition lower_plain (s : string) : string := cat (map (lower_char false) (chars s)).

(** code points in increasing order *)
Fixpoint increasing (l : list N) : bool :=
  match l with
  | x :: (y :: _) as rest => (x <? y)%N && increasing rest
  | _ => true
  end.

(** the bounds of a table of ranges, one after the other *)
Definition bounds (ranges : list (N * N)) : list N :=
  flat_map (fun r : N * N => [r.1; (r.2 + 1)%N]) ranges.

(** A character as [chars] gives them: a byte and continuation bytes. *)
Definition segment (ch : string) : Prop :=
  exists c h, ch = String c h /\ all_bytes is_cont h = true.

(** A text that starts a character of its own. *)
Definition headed (ch : string) : Prop :=
  exists c h, ch = String c h /\ is_cont c = false.

(** ** Concrete environments, for the examples *)

Module Examples.

(** A runtime: the [urlsplit] model above; regular expressions that find no
    match (the example texts hold none of the trigger phrases) and split
    nothing; a set that iterates in order of first insertion. *)
Definition py_plain : runtime := {|
  urlparse_netloc := Urllib.urlsplit_netloc;
  re_findall := fun _ _ => [];
  re_split := fun _ s => [s];
  list_of_set := remove_dups
|}.

(** The same with a set that iterates in the opposite order. *)
Definition py_reversed : runtime := {|
  urlparse_netloc := Urllib.urlsplit_netloc;
  re_findall := fun _ _ => [];
  re_split := fun _ s => [s];
  list_of_set := fun l => rev (remove_dups l)
|}.

Definition elem (s : string) : element := {| text := Ok s |}.

Definition no_such_element {A} : result A :=
  Raise (Exn NoSuchElementException "Message: no such element: Unable to locate element").

Definition timed_out {A} : result A := Raise (Exn TimeoutException "Message: ").

(** A static document with a heading and some text. *)
Definition soup_h1 (heading body : string) : soup := {|
  select_one := fun sel => if String.eqb sel "h1" then Ok (Some heading) else Ok None;
  get_text := Ok body
|}.

Definition doc_h1 (heading body : string) : document :=
  {| html_parser := Ok (soup_h1 heading body) |}.

(** A rendered page on which no selector finds anything and the wait for
    the title times out. *)
Definition page_blank : page := {|
  wait_until_present := fun _ => timed_out;
  find_element := fun by_ _ =>
    match by_ with TAG_NAME => Ok (elem "") | CSS_SELECTOR => no_such_element end;
  find_elements := fun _ _ => Ok [];
  page_source := Ok (doc_h1 "" "");
  current_url := Ok "https://www.pracuj.pl/praca/oferta"
|}.

(** A rendered page whose list selectors all match the elements [items]. *)
Definition page_with (title : string) (items : list string) : page := {|
  wait_until_present := fun _ => Ok (elem title);
  find_element := fun by_ _ =>
    match by_ with TAG_NAME => Ok (elem "") | CSS_SELECTOR => no_such_element end;
  find_elements := fun _ _ => Ok (map elem items);
  page_source := Ok (doc_h1 title "");
  current_url := Ok "https://www.pracuj.pl/praca/oferta"
|}.

(** A rendered page whose list selectors are answered by [lists]. *)
Definition page_lists (title : string) (lists : string -> result (list element)) : page := {|
  wait_until_present := fun _ => Ok (elem title);
  find_element := fun _ _ => Ok (elem "Firma");
  find_elements := fun _ sel => lists sel;
  page_source := Ok (doc_h1 title "");
  current_url := Ok "https://nofluffjobs.com/job/oferta"
|}.

(** A browser that shows [pg] whatever the URL. *)
Definition browser (pg : page) : webdriver :=
  {| execute_script := Ok tt; get := fun _ => Ok pg |}.

(** A network that serves [doc] with status 200 whatever the URL. *)
Definition serves (doc : document) : string -> result response :=
  fun _ => Ok {| raise_for_status := Ok tt; content := doc |}.

(** A network on which every request raises [e]. *)
Definition unreachable (e : exn) : string -> result response := fun _ => Raise e.

(** A batch of five URLs whose fourth is not a URL that [urlparse] accepts. *)
Definition batch_of_five : list string :=
  [ "https://www.pracuj.pl/praca/python,oferta,1004294341";
    "https://nofluffjobs.com/job/python-developer-xyz";
    "https://example.org/jobs/1";
    "http://[";
    "https://justjoin.it/offers/python-developer" ].

(** The text of a posting with a list of requirements. *)
Definition posting_text : string :=
  "Requirements: 5+ years of Python, Docker, knowledge of AWS services

We offer: remote work".

(** A runtime whose regular expressions answer for [posting_text] as
    Python's [re] does: the first pattern finds the list, which splits at
    the commas; the other patterns find nothing. *)
Definition py_requirements : runtime := {|
  urlparse_netloc := Urllib.urlsplit_netloc;
  re_findall := fun pattern text =>
    match requirement_patterns with
    | first :: _ =>
        if String.eqb pattern first && String.eqb text posting_text
        then ["5+ years of Python, Docker, knowledge of AWS services"]
        else []
    | [] => []
    end;
  re_split := fun _ s =>
    if String.eqb s "5+ years of Python, Docker, knowledge of AWS services"
    then ["5+ years of Python"; "Docker"; "knowledge of AWS services"]
    else [s];
  list_of_set := remove_dups
|}.

(** [s * n] *)
Fixpoint times (n : nat) (s : string) : string :=
  match n with
  | 0 => EmptyString
  | S n' => s +:+ times n' s
  end.

(** A pracuj page with a title, on which the selector [.job-description]
    finds an element with the text [description]. *)
Definition page_described (description : string) : page := {|
  wait_until_present := fun _ => Ok (elem "Dev");
  find_element := fun by_ sel =>
    match by_ with
    | TAG_NAME => Ok (elem "")
    | CSS_SELECTOR =>
        if String.eqb sel ".job-description" then Ok (elem description)
        else no_such_element
    end;
  find_elements := fun _ _ => Ok [];
  page_source := Ok (doc_h1 "Dev" "");
  current_url := Ok "https://www.pracuj.pl/praca/oferta"
|}.

End Examples.
Import Examples.

(** * Properties *)

(** Unfolds the monad operations of [result] and reduces the matches that
    have become decidable. *)
Ltac result_simpl :=
  unfold mbind, result_bind, mret, result_ret in *; cbn beta iota in *.

(** ** Text and URL primitives on examples *)

Example strip_example : strip "  Senior Python Developer
 " = "Senior Python Developer".
Proof. reflexivity. Qed.

(** [lower] folds the capital letters of every alphabet; a capital sigma
    at the end of a word becomes a final sigma, and a capital I with dot
    becomes two code points. *)
Example lower_examples :
  lower "Zażółć GĘŚLĄ Jaźń" = "zażółć gęślą jaźń"
  /\ lower "ΌΣΟΣ ΚΌΣΜΟΣ" = "όσος κόσμος"
  /\ lower "İstanbul" = "i̇stanbul"
  /\ lower "СТАРШИЙ Разработчик" = "старший разработчик".
Proof. repeat split; vm_compute; reflexivity. Qed.

(** [len] and slices count characters; [strip] knows the white space of
    Unicode (here an ideographic space). *)
Example len_examples :
  len "żółć" = 4 /\ prefix 2 "żółć" = "żó" /\ prefix 9 "żółć" = "żółć"
  /\ strip " 　Zażółć 　" = "Zażółć".
Proof. repeat split; vm_compute; reflexivity. Qed.

(** The tables are sorted, as the lookups take them to be. *)
Lemma tables_sorted :
  increasing (map fst lower_pairs) = true
  /\ increasing (bounds cased_ranges) = true
  /\ increasing (bounds case_ignorable_ranges) = true
  /\ increasing (bounds digit_ranges) = true
  /\ increasing (bounds space_ranges) = true.
Proof. repeat split; vm_compute; reflexivity. Qed.

Example contains_example :
  contains "junior" (lower "Junior Java developer") = true
  /\ contains "senior" (lower "Junior Java developer") = false.
Proof. split; reflexivity. Qed.

Example netloc_pracuj :
  Urllib.urlsplit_netloc "https://www.pracuj.pl/praca/python,oferta,1004294341?s=1"
  = Ok "www.pracuj.pl".
Proof. reflexivity. Qed.

Example netloc_no_scheme : Urllib.urlsplit_netloc "pracuj.pl/praca" = Ok "".
Proof. reflexivity. Qed.

Example netloc_bracket :
  Urllib.urlsplit_netloc "http://[" = Raise (Exn ValueError "Invalid IPv6 URL").
Proof. reflexivity. Qed.

Lemma truthy_true (s : string) : truthy s = true <-> s <> "".
Proof. destruct s; simpl; split; congruence. Qed.

Lemma truthy_false (s : string) : truthy s = false <-> s = "".
Proof. destruct s; simpl; split; congruence. Qed.

(** ** Text: characters, lower case, slices *)

Lemma append_cons c (s t : string) : String c s +:+ t = String c (s +:+ t).
Proof. reflexivity. Qed.

Lemma append_nil_l (s : string) : "" +:+ s = s.
Proof. reflexivity. Qed.

Lemma append_nil_r (s : string) : s +:+ "" = s.
Proof. induction s as [|c s IH]; [done|]. by rewrite append_cons, IH. Qed.

Lemma append_assoc (s t u : string) : (s +:+ t) +:+ u = s +:+ (t +:+ u).
Proof. induction s as [|c s IH]; [done|]. by rewrite !append_cons, IH. Qed.

Lemma cat_cons x l : cat (x :: l) = x +:+ cat l.
Proof. reflexivity. Qed.

Lemma cat_app l1 l2 : cat (l1 ++ l2) = cat l1 +:+ cat l2.
Proof.
  induction l1 as [|x l1 IH]; [done|].
  by rewrite <- app_comm_cons, !cat_cons, IH, append_assoc.
Qed.

(** ** Characters *)

Lemma chars_cons c s :
  chars (String c s) =
    if starts_with_cont s then
      match chars s with
      | ch :: rest => String c ch :: rest
      | [] => [String c ""]
      end
    else String c "" :: chars s.
Proof. reflexivity. Qed.

Lemma chars_nil s : chars s = [] -> s = "".
Proof.
  destruct s as [|c s]; [done|]. rewrite chars_cons.
  destruct (starts_with_cont s); [destruct (chars s)|]; discriminate.
Qed.

Lemma cat_chars s : cat (chars s) = s.
Proof.
  induction s as [|c s IH]; [done|]. rewrite chars_cons.
  destruct (starts_with_cont s).
  - destruct (chars s) as [|ch rest] eqn:E.
    + apply chars_nil in E as ->. reflexivity.
    + rewrite cat_cons, append_cons. rewrite cat_cons in IH. by rewrite IH.
  - rewrite cat_cons, append_cons, append_nil_l. by rewrite IH.
Qed.

Lemma starts_with_cont_app x y :
  x <> "" -> starts_with_cont (x +:+ y) = starts_with_cont x.
Proof. by destruct x. Qed.

(** Appending a text that starts a character of its own. *)
Lemma chars_app x y :
  starts_with_cont y = false -> chars (x +:+ y) = chars x ++ chars y.
Proof.
  intros Hy. induction x as [|c x IH]; [done|].
  rewrite append_cons, !chars_cons, IH.
  destruct x as [|d x].
  - rewrite append_nil_l, Hy. reflexivity.
  - rewrite starts_with_cont_app by done.
    destruct (starts_with_cont (String d x)); [|done].
    destruct (chars (String d x)) as [|ch rest] eqn:E; [|done].
    by apply chars_nil in E.
Qed.

(** One character: a byte and continuation bytes. *)
Lemma chars_segment c h : all_bytes is_cont h = true -> chars (String c h) = [String c h].
Proof.
  revert c. induction h as [|d h IH]; intros c Hh; [done|].
  simpl in Hh. apply andb_true_iff in Hh as [Hd Hh].
  rewrite chars_cons. cbn [starts_with_cont]. rewrite Hd. by rewrite (IH d Hh).
Qed.

Lemma all_bytes_app p x y :
  all_bytes p (x +:+ y) = all_bytes p x && all_bytes p y.
Proof.
  induction x as [|c x IH]; [done|].
  rewrite append_cons. simpl. by rewrite IH, andb_assoc.
Qed.

(** Appending continuation bytes: they join the last character. *)
Lemma chars_app_conts x h :
  x <> "" -> all_bytes is_cont h = true -> chars (x +:+ h) = app_last (chars x) h.
Proof.
  intros Hx Hh. induction x as [|c x IH]; [done|]. clear Hx.
  rewrite append_cons, !chars_cons.
  destruct x as [|d x].
  - rewrite append_nil_l. cbn [starts_with_cont chars app_last].
    destruct h as [|e h]; [done|].
    simpl in Hh. apply andb_true_iff in Hh as [He Hh].
    cbn [starts_with_cont]. rewrite He.
    rewrite chars_segment by done. reflexivity.
  - rewrite starts_with_cont_app by done. rewrite IH by done.
    destruct (chars (String d x)) as [|ch rest] eqn:E; [by apply chars_nil in E|].
    destruct (starts_with_cont (String d x)).
    + destruct rest; reflexivity.
    + reflexivity.
Qed.

(** What the characters of a text look like. *)
Lemma chars_segments s : Forall segment (chars s).
Proof.
  induction s as [|c s IH]; [constructor|]. rewrite chars_cons.
  destruct (starts_with_cont s) eqn:Hs.
  - destruct (chars s) as [|ch rest] eqn:E.
    + constructor; [|constructor]. by exists c, "".
    + apply Forall_cons in IH as [(d & h & -> & Hh) IH]. constructor; [|done].
      exists c, (String d h). split; [done|]. simpl. rewrite Hh, andb_true_r.
      assert (String d h +:+ cat rest = s) as Hs'.
      { rewrite <- cat_cons, <- E. apply cat_chars. }
      rewrite <- Hs' in Hs. exact Hs.
  - constructor; [|done]. by exists c, "".
Qed.

Lemma chars_tail_headed s :
  match chars s with
  | [] => True
  | ch :: rest => Forall headed rest /\ (starts_with_cont s = false -> headed ch)
  end.
Proof.
  induction s as [|c s IH]; [done|]. rewrite chars_cons.
  destruct (starts_with_cont s) eqn:Hs.
  - destruct (chars s) as [|ch rest] eqn:E.
    + split; [constructor|]. intros Hc. by exists c, "".
    + destruct IH as [IH _]. split; [done|]. intros Hc. by exists c, ch.
  - split.
    + destruct (chars s) as [|ch rest] eqn:E; [constructor|].
      destruct IH as [IH1 IH2]. constructor; [by apply IH2 | done].
    + intros Hc. by exists c, "".
Qed.

Lemma cat_headed M x :
  Forall headed M -> chars (x +:+ cat M) = chars x ++ concat (map chars M).
Proof.
  intros HM. revert x. induction HM as [|m M (c & h & -> & Hc) _ IH]; intros x.
  - cbn. by rewrite append_nil_r, app_nil_r.
  - rewrite cat_cons. rewrite chars_app by (by rewrite append_cons).
    rewrite IH. reflexivity.
Qed.

(** ** Decoding *)

Lemma decode_app ch x cp r :
  decode ch = Some (cp, r) -> decode (ch +:+ x) = Some (cp, r +:+ x).
Proof.
  unfold decode. destruct ch as [|a ch]; [done|]. rewrite append_cons.
  cbv zeta.
  destruct (byte a <? 0x80)%N; [by intros [= <- <-]|].
  destruct (byte a <? 0xC0)%N; [done|].
  destruct (byte a <? 0xE0)%N.
  { destruct ch as [|b ch]; [done|]. rewrite append_cons.
    destruct (_ && _); [by intros [= <- <-] | done]. }
  destruct (byte a <? 0xF0)%N.
  { destruct ch as [|b [|c ch]]; [done..|]. rewrite !append_cons.
    destruct (_ && _); [by intros [= <- <-] | done]. }
  destruct (byte a <? 0xF8)%N; [|done].
  destruct ch as [|b [|c [|d ch]]]; [done..|]. rewrite !append_cons.
  destruct (_ && _); [by intros [= <- <-] | done].
Qed.

Lemma all_bytes_tail p c s : all_bytes p (String c s) = true -> all_bytes p s = true.
Proof. simpl. by intros [_ ?]%andb_true_iff. Qed.

(** What is left of a character after its code point is continuation
    bytes. *)
Lemma decode_rest ch cp r :
  segment ch -> decode ch = Some (cp, r) -> all_bytes is_cont r = true.
Proof.
  intros (a & h & -> & Hh). unfold decode. cbv zeta.
  destruct (byte a <? 0x80)%N; [by intros [= <- <-]|].
  destruct (byte a <? 0xC0)%N; [done|].
  destruct (byte a <? 0xE0)%N.
  { destruct h as [|b h]; [done|].
    destruct (_ && _); [intros [= <- <-] | done]. by apply all_bytes_tail in Hh. }
  destruct (byte a <? 0xF0)%N.
  { destruct h as [|b [|c h]]; [done..|].
    destruct (_ && _); [intros [= <- <-] | done]. by do 2 apply all_bytes_tail in Hh. }
  destruct (byte a <? 0xF8)%N; [|done].
  destruct h as [|b [|c [|d h]]]; [done..|].
  destruct (_ && _); [intros [= <- <-] | done]. by do 3 apply all_bytes_tail in Hh.
Qed.

(** A byte outside ASCII that starts no code point. *)
Lemma decode_none_ascii c h : decode (String c h) = None -> is_ascii c = false.
Proof. unfold decode, is_ascii. cbv zeta. by destruct (byte c <? 0x80)%N. Qed.

Lemma decode_cont c h : is_cont c = true -> decode (String c h) = None.
Proof.
  unfold decode, is_cont. cbv zeta. intros [H1 H2]%andb_true_iff.
  apply N.leb_le in H1. apply N.ltb_lt in H2.
  destruct (N.ltb_spec (byte c) 0x80); [lia|].
  destruct (N.ltb_spec (byte c) 0xC0); [done | lia].
Qed.

Lemma is_cont_not_ascii c : is_cont c = true -> is_ascii c = false.
Proof.
  unfold is_cont, is_ascii. intros [H1 _]%andb_true_iff.
  apply N.leb_le in H1. apply N.ltb_ge. done.
Qed.

(** ** Lower case *)

Lemma lookup_pair_In cp pairs v : lookup_pair cp pairs = Some v -> In (cp, v) pairs.
Proof.
  induction pairs as [|[k w] pairs IH]; [done|]. simpl.
  destruct (cp <? k)%N; [done|].
  destruct (N.eqb_spec cp k) as [->|_]; [intros [= ->]; by left | right; auto].
Qed.

Lemma lower_pairs_good :
  forallb (fun kv => goodb (encode kv.2)) lower_pairs = true.
Proof. vm_compute. reflexivity. Qed.

(** The lower-case form of a code point is made of characters that
    [lower] leaves alone. *)
Lemma lower_code_good f cp l : lower_code f cp = Some l -> goodb l = true.
Proof.
  unfold lower_code.
  destruct (cp =? 0x130)%N; [intros [= <-]; vm_compute; reflexivity|].
  destruct (cp =? 0x3A3)%N; [intros [= <-]; destruct f; vm_compute; reflexivity|].
  destruct (lookup_pair cp lower_pairs) as [v|] eqn:E; [|done].
  intros [= <-]. apply lookup_pair_In in E.
  pose proof lower_pairs_good as H. rewrite forallb_forall in H.
  apply (H (cp, v) E).
Qed.

Lemma lower_code_none f f' cp : lower_code f cp = None -> lower_code f' cp = None.
Proof.
  unfold lower_code.
  destruct (cp =? 0x130)%N; [done|]. destruct (cp =? 0x3A3)%N; done.
Qed.

Lemma goodb_headed l : goodb l = true -> headed l.
Proof.
  unfold goodb. intros [[H1 H2]%andb_true_iff _]%andb_true_iff.
  destruct l as [|c l]; [done|]. exists c, l. split; [done|].
  simpl in H2. by apply negb_true_iff in H2.
Qed.

Lemma lower_char_headed f ch : headed ch -> headed (lower_char f ch).
Proof.
  intros Hch. unfold lower_char.
  destruct (decode ch) as [[cp r]|]; [|done].
  destruct (lower_code f cp) as [l|] eqn:E; [|done].
  apply lower_code_good, goodb_headed in E as (c & h & -> & Hc).
  exists c, (h +:+ r). by rewrite append_cons.
Qed.

Lemma headed_nonempty ch : headed ch -> ch <> "".
Proof. by intros (c & h & -> & _). Qed.

Lemma lower_char_nonempty f ch : ch <> "" -> lower_char f ch <> "".
Proof.
  intros Hch. unfold lower_char.
  destruct (decode ch) as [[cp r]|]; [|done].
  destruct (lower_code f cp) as [l|] eqn:E; [|done].
  apply lower_code_good, goodb_headed in E as (c & h & -> & Hc). by rewrite append_cons.
Qed.

Lemma fixedb_fixed f g x : fixedb g = true -> lower_char f (g +:+ x) = g +:+ x.
Proof.
  unfold fixedb, lower_char. destruct (decode g) as [[cp r]|] eqn:E; [|done].
  destruct r; [|done]. rewrite (decode_app _ x _ _ E).
  destruct (lower_code true cp) eqn:E1; [done|].
  by rewrite (lower_code_none true f cp E1).
Qed.

Lemma app_last_snoc l x h : app_last (l ++ [x]) h = l ++ [x +:+ h].
Proof.
  induction l as [|y l IH]; [done|]. rewrite <- !app_comm_cons.
  cbn [app_last]. rewrite IH. destruct l; reflexivity.
Qed.

Lemma exists_last_str (l : list string) : l <> [] -> exists l' x, l = l' ++ [x].
Proof.
  intros H. destruct (exists_last H) as (l' & x & ->). by exists l', x.
Qed.

(** Every character of what [lower_char] returns is left alone by
    [lower_char]. *)
Lemma lower_char_fixed f ch :
  segment ch -> Forall (fun g => forall f', lower_char f' g = g) (chars (lower_char f ch)).
Proof.
  intros Hseg. pose proof Hseg as (c & h & -> & Hh).
  unfold lower_char at 2.
  destruct (decode (String c h)) as [[cp r]|] eqn:E.
  - destruct (lower_code f cp) as [l|] eqn:El.
    + pose proof (decode_rest _ _ _ Hseg E) as Hr.
      pose proof (lower_code_good _ _ _ El) as Hg.
      pose proof (goodb_headed _ Hg) as Hl%headed_nonempty.
      rewrite (chars_app_conts l r Hl Hr).
      unfold goodb in Hg. apply andb_true_iff in Hg as [_ Hfix].
      rewrite forallb_forall in Hfix.
      destruct (exists_last_str (chars l)) as (init & lst & Hc).
      { intros Hn. by apply chars_nil in Hn. }
      rewrite Hc in *. rewrite app_last_snoc.
      apply Forall_app. split.
      * apply Forall_forall. intros g Hg f'.
        rewrite <- (append_nil_r g) at 1. rewrite fixedb_fixed; [apply append_nil_r|].
        apply Hfix, in_or_app. left. by apply list_elem_of_In.
      * constructor; [|constructor]. intros f'. apply fixedb_fixed.
        apply Hfix, in_or_app. right. by left.
    + rewrite chars_segment by done. constructor; [|constructor].
      intros f'. unfold lower_char. rewrite E.
      by rewrite (lower_code_none f f' cp El).
  - rewrite chars_segment by done. constructor; [|constructor].
    intros f'. unfold lower_char. by rewrite E.
Qed.

Lemma lower_chars_fixed p M :
  Forall (fun g => forall f, lower_char f g = g) M -> lower_chars p M = M.
Proof.
  intros H. revert p. induction H as [|g M Hg _ IH]; intros p; [done|].
  cbn [lower_chars]. by rewrite Hg, IH.
Qed.

Lemma lower_chars_headed p M : Forall headed M -> Forall headed (lower_chars p M).
Proof.
  intros H. revert p. induction H as [|g M Hg _ IH]; intros p; [constructor|].
  cbn [lower_chars]. constructor; [by apply lower_char_headed | apply IH].
Qed.

Lemma lower_chars_all_fixed p M :
  Forall segment M ->
  Forall (fun g => forall f, lower_char f g = g) (concat (map chars (lower_chars p M))).
Proof.
  intros H. revert p. induction H as [|g M Hg _ IH]; intros p; [constructor|].
  cbn [lower_chars map concat]. apply Forall_app. split; [by apply lower_char_fixed | apply IH].
Qed.

Lemma cat_concat_chars M : cat (concat (map chars M)) = cat M.
Proof.
  induction M as [|m M IH]; [done|].
  cbn [map concat]. by rewrite cat_app, cat_chars, IH.
Qed.

(** [lower] changes nothing in a text it has produced. *)
Lemma lower_idemp (s : string) : lower (lower s) = lower s.
Proof.
  unfold lower.
  pose proof (chars_segments s) as Hseg. pose proof (chars_tail_headed s) as Hhd.
  destruct (chars s) as [|ch rest]; [done|]. destruct Hhd as [Hhd _].
  cbn [lower_chars]. rewrite cat_cons.
  set (p := if is_case_ignorable ch then false else is_cased ch).
  set (f := false && negb (cased_ahead rest)).
  rewrite (cat_headed _ _ (lower_chars_headed p rest Hhd)).
  pose proof (lower_chars_all_fixed false (ch :: rest) Hseg) as Hfix.
  cbn [lower_chars map concat] in Hfix. fold p f in Hfix.
  rewrite (lower_chars_fixed _ _ Hfix).
  rewrite cat_app, cat_chars, cat_concat_chars. reflexivity.
Qed.

Lemma truthy_lower (s : string) : truthy (lower s) = truthy s.
Proof.
  destruct s as [|c s]; [done|]. cbn [truthy]. apply truthy_true.
  unfold lower.
  destruct (chars (String c s)) as [|ch rest] eqn:E; [by apply chars_nil in E|].
  cbn [lower_chars]. rewrite cat_cons.
  pose proof (chars_segments (String c s)) as Hseg. rewrite E in Hseg.
  apply Forall_cons in Hseg as [(d & h & -> & _) _].
  pose proof (lower_char_nonempty (false && negb (cased_ahead rest)) (String d h)) as Hne.
  destruct (lower_char _ (String d h)) as [|e l]; [by exfalso; apply Hne | done].
Qed.

(** ** ASCII words in a lower-cased text *)

Lemma mask_app x y : mask (x +:+ y) = mask x +:+ mask y.
Proof. induction x as [|c x IH]; [done|]. rewrite append_cons. simpl. by rewrite IH. Qed.

Lemma is_ascii_255 : is_ascii (ascii_of_nat 255) = false.
Proof. reflexivity. Qed.

Lemma startswith_mask w s :
  all_bytes is_ascii w = true -> startswith w (mask s) = startswith w s.
Proof.
  revert s. induction w as [|a w IH]; intros s Hw; [by destruct s|].
  simpl in Hw. apply andb_true_iff in Hw as [Ha Hw].
  destruct s as [|b s]; [done|]. simpl.
  destruct (is_ascii b) eqn:Hb; [by rewrite IH|].
  destruct (Ascii.eqb_spec a (ascii_of_nat 255)) as [->|_]; [by rewrite is_ascii_255 in Ha|].
  destruct (Ascii.eqb_spec a b) as [->|_]; [congruence | done].
Qed.

Lemma contains_mask w s :
  all_bytes is_ascii w = true -> contains w (mask s) = contains w s.
Proof.
  intros Hw. induction s as [|b s IH]; [by destruct w|].
  cbn [contains]. rewrite <- IH.
  change (mask (String b s)) with (String (if is_ascii b then b else ascii_of_nat 255) (mask s)).
  cbn [contains]. f_equal.
  apply (startswith_mask w (String b s) Hw).
Qed.

Lemma mask_lower_char f f' ch : mask (lower_char f ch) = mask (lower_char f' ch).
Proof.
  unfold lower_char. destruct (decode ch) as [[cp r]|]; [|done].
  unfold lower_code.
  destruct (cp =? 0x130)%N; [done|].
  destruct (cp =? 0x3A3)%N; [|done].
  rewrite !mask_app. by destruct f, f'.
Qed.

(** [lower] without the rule of the final sigma *)
Lemma mask_lower_chars p l :
  mask (cat (lower_chars p l)) = mask (cat (map (lower_char false) l)).
Proof.
  revert p. induction l as [|ch l IH]; intros p; [done|].
  cbn [lower_chars map]. rewrite !cat_cons, !mask_app, IH.
  f_equal. apply mask_lower_char.
Qed.

Lemma contains_lower w s :
  all_bytes is_ascii w = true -> contains w (lower s) = contains w (lower_plain s).
Proof.
  intros Hw. unfold lower, lower_plain.
  by rewrite <- (contains_mask w (cat (lower_chars _ _))), mask_lower_chars, contains_mask.
Qed.

Lemma startswith_spec (p s : string) :
  startswith p s = true <-> exists b, s = p +:+ b.
Proof.
  revert s. induction p as [|a p IH]; intros s; simpl.
  - split; [eauto | done].
  - destruct s as [|c s]; [split; [done | by intros [b ?]]|].
    destruct (Ascii.eqb_spec a c) as [->|Hne].
    + rewrite IH. split; intros [b Hb]; exists b.
      * by rewrite append_cons, Hb.
      * rewrite append_cons in Hb. by injection Hb.
    + split; [done | intros [b Hb]; rewrite append_cons in Hb; injection Hb; congruence].
Qed.

Lemma contains_spec (sub s : string) :
  contains sub s = true <-> exists a b, s = a +:+ sub +:+ b.
Proof.
  induction s as [|c s IH].
  - cbn [contains]. rewrite orb_false_r, startswith_spec. split.
    + intros [b Hb]. by exists "", b.
    + intros (a & b & Hab). destruct a; [by exists b | by rewrite append_cons in Hab].
  - cbn [contains]. rewrite orb_true_iff, startswith_spec, IH. split.
    + intros [[b Hb] | (a & b & Hab)].
      * by exists "", b.
      * exists (String c a), b. by rewrite append_cons, Hab.
    + intros (a & b & Hab). destruct a as [|c' a].
      * left. by exists b.
      * right. rewrite append_cons in Hab. injection Hab as _ Hab. eauto.
Qed.

Lemma contains_app_l (sub s t : string) :
  contains sub s = true -> contains sub (s +:+ t) = true.
Proof.
  rewrite !contains_spec. intros (a & b & ->). exists a, (b +:+ t).
  by rewrite !append_assoc.
Qed.

Lemma contains_app_r (sub s t : string) :
  contains sub s = true -> contains sub (t +:+ s) = true.
Proof.
  rewrite !contains_spec. intros (a & b & ->). exists (t +:+ a), b.
  by rewrite !append_assoc.
Qed.

(** An ASCII word does not reach into bytes that are not ASCII. *)
Lemma startswith_ascii_l w p z :
  all_bytes is_ascii w = true -> all_bytes (fun c => negb (is_ascii c)) z = true ->
  startswith w (p +:+ z) = true -> startswith w p = true.
Proof.
  intros Hw Hz. revert p. induction w as [|a w IH]; intros p; [by destruct p|].
  simpl in Hw. apply andb_true_iff in Hw as [Ha Hw].
  destruct p as [|c p].
  - rewrite append_nil_l. destruct z as [|b z]; [done|]. simpl.
    simpl in Hz. apply andb_true_iff in Hz as [Hb _]. apply negb_true_iff in Hb.
    destruct (Ascii.eqb_spec a b) as [->|_]; [congruence | done].
  - rewrite append_cons. simpl. destruct (Ascii.eqb a c); [by apply IH | done].
Qed.

Lemma contains_ascii_none w z :
  ascii_word w = true -> all_bytes (fun c => negb (is_ascii c)) z = true ->
  contains w z = false.
Proof.
  unfold ascii_word. intros [Hne Hw]%andb_true_iff Hz.
  destruct w as [|a w]; [done|]. simpl in Hw. apply andb_true_iff in Hw as [Ha _].
  induction z as [|b z IH]; [done|].
  simpl in Hz. apply andb_true_iff in Hz as [Hb Hz]. apply negb_true_iff in Hb.
  cbn [contains startswith]. rewrite (IH Hz), orb_false_r.
  destruct (Ascii.eqb_spec a b) as [->|_]; [congruence | done].
Qed.

Lemma contains_ascii_l w p z :
  ascii_word w = true -> all_bytes (fun c => negb (is_ascii c)) z = true ->
  contains w (p +:+ z) = true -> contains w p = true.
Proof.
  intros Hw Hz. pose proof Hw as [_ Hw']%andb_true_iff.
  induction p as [|c p IH].
  - rewrite append_nil_l. by rewrite (contains_ascii_none w z Hw Hz).
  - rewrite append_cons. cbn [contains]. rewrite !orb_true_iff. intros [H|H].
    + left. rewrite <- append_cons in H. by apply (startswith_ascii_l w _ z).
    + right. by apply IH.
Qed.

Lemma contains_ascii_r w z y :
  ascii_word w = true -> all_bytes (fun c => negb (is_ascii c)) z = true ->
  contains w (z +:+ y) = true -> contains w y = true.
Proof.
  intros Hw Hz. pose proof Hw as [Hne Hw']%andb_true_iff.
  induction z as [|b z IH]; [done|].
  simpl in Hz. apply andb_true_iff in Hz as [Hb Hz]. apply negb_true_iff in Hb.
  rewrite append_cons. cbn [contains]. rewrite orb_true_iff. intros [H|H]; [|by apply IH].
  destruct w as [|a w]; [done|]. simpl in Hw'. apply andb_true_iff in Hw' as [Ha _].
  simpl in H. destruct (Ascii.eqb_spec a b) as [->|_]; [congruence | done].
Qed.

Lemma conts_not_ascii h :
  all_bytes is_cont h = true -> all_bytes (fun c => negb (is_ascii c)) h = true.
Proof.
  induction h as [|c h IH]; [done|]. simpl. intros [Hc Hh]%andb_true_iff.
  by rewrite (is_cont_not_ascii c Hc), IH.
Qed.

(** A text is continuation bytes, then a text that starts a character. *)
Lemma split_conts s :
  exists h s1, s = h +:+ s1 /\ all_bytes is_cont h = true /\ starts_with_cont s1 = false.
Proof.
  induction s as [|c s (h & s1 & -> & Hh & Hs1)]; [by exists "", ""|].
  destruct (is_cont c) eqn:Hc.
  - exists (String c h), s1. rewrite append_cons. simpl. by rewrite Hc, Hh.
  - by exists "", (String c (h +:+ s1)).
Qed.

Lemma lower_plain_app x y :
  starts_with_cont y = false -> lower_plain (x +:+ y) = lower_plain x +:+ lower_plain y.
Proof. intros Hy. unfold lower_plain. by rewrite chars_app, map_app, cat_app. Qed.

Lemma lower_plain_conts h : all_bytes is_cont h = true -> lower_plain h = h.
Proof.
  intros Hh. unfold lower_plain. destruct h as [|c h]; [done|].
  simpl in Hh. apply andb_true_iff in Hh as [Hc Hh].
  rewrite chars_segment by done. cbn [map]. rewrite cat_cons.
  unfold lower_char. rewrite (decode_cont c h Hc). apply append_nil_r.
Qed.

Lemma lower_char_app f ch h cp r :
  decode ch = Some (cp, r) -> lower_char f (ch +:+ h) = lower_char f ch +:+ h.
Proof.
  intros E. unfold lower_char. rewrite (decode_app _ h _ _ E), E.
  destruct (lower_code f cp); [by rewrite append_assoc | done].
Qed.

Lemma lower_char_none f ch : decode ch = None -> lower_char f ch = ch.
Proof. intros E. unfold lower_char. by rewrite E. Qed.

Lemma lower_plain_app_conts w x h :
  ascii_word w = true -> all_bytes is_cont h = true ->
  contains w (lower_plain x) = true -> contains w (lower_plain (x +:+ h)) = true.
Proof.
  intros Hw Hh. unfold lower_plain. destruct x as [|c x]; [by destruct w|].
  rewrite (chars_app_conts (String c x) h) by done.
  pose proof (chars_segments (String c x)) as Hseg.
  destruct (exists_last_str (chars (String c x))) as (init & lst & Hc).
  { intros Hn. by apply chars_nil in Hn. }
  rewrite Hc in *. rewrite app_last_snoc, !map_app, !cat_app. cbn [map].
  rewrite !cat_cons, !append_nil_r.
  apply Forall_app in Hseg as [_ Hseg]. apply Forall_cons in Hseg as [(d & k & -> & Hk) _].
  destruct (decode (String d k)) as [[cp r]|] eqn:E.
  - rewrite (lower_char_app _ _ h _ _ E). intros H.
    rewrite <- append_assoc. by apply contains_app_l.
  - rewrite (lower_char_none _ _ E). intros H. apply contains_app_l.
    apply (contains_ascii_l w _ (String d k) Hw); [|done].
    simpl. rewrite (decode_none_ascii d k E). simpl. by apply conts_not_ascii.
Qed.

(** An ASCII word found in the lower-cased text is found in the
    lower-cased form of any text that contains the text. *)
Lemma lower_sticky (w before text after : string) :
  ascii_word w = true ->
  contains w (lower text) = true ->
  contains w (lower (before +:+ text +:+ after)) = true.
Proof.
  intros Hw. pose proof Hw as [_ Hw']%andb_true_iff.
  rewrite !contains_lower by done.
  destruct (split_conts text) as (h & t1 & -> & Hh & Ht1).
  destruct (split_conts after) as (ha & a1 & -> & Hha & Ha1).
  rewrite (lower_plain_app h t1 Ht1), (lower_plain_conts h Hh).
  intros H%(contains_ascii_r w h _ Hw (conts_not_ascii h Hh)).
  destruct t1 as [|c t1]; [by destruct w|].
  replace (before +:+ (h +:+ String c t1) +:+ ha +:+ a1)
    with ((before +:+ h) +:+ (String c t1 +:+ ha) +:+ a1)
    by (by rewrite !append_assoc).
  rewrite lower_plain_app by (by rewrite !append_cons).
  apply contains_app_r. rewrite lower_plain_app by done.
  apply contains_app_l. by apply lower_plain_app_conts.
Qed.

(** ** Length and slices *)

Lemma len_prefix (n : nat) (s : string) : len (prefix n s) = min n (len s).
Proof.
  revert n. induction s as [|c s IH]; intros n; [by destruct n|].
  cbn [prefix len]. destruct (is_cont c) eqn:Hc.
  - cbn [len]. rewrite Hc. apply IH.
  - destruct n as [|n]; [done|]. cbn [len]. rewrite Hc, IH. reflexivity.
Qed.

Lemma length_prefix (n : nat) (s : string) : len (prefix n s) <= n.
Proof. rewrite len_prefix. lia. Qed.

Lemma prefix_all (n : nat) (s : string) : len s <= n -> prefix n s = s.
Proof.
  revert n. induction s as [|c s IH]; intros n; [done|].
  cbn [prefix len]. destruct (is_cont c).
  - intros H. by rewrite IH.
  - destruct n as [|n]; [lia|]. intros H. rewrite IH; [done | lia].
Qed.

Lemma prefix_is_prefix (n : nat) (s : string) : exists rest, s = prefix n s +:+ rest.
Proof.
  revert n. induction s as [|c s IH]; intros n; [by exists ""|].
  cbn [prefix]. destruct (is_cont c).
  - destruct (IH n) as [rest Hr]. exists rest. by rewrite append_cons, <- Hr.
  - destruct n as [|n]; [by exists (String c s)|].
    destruct (IH n) as [rest Hr]. exists rest. by rewrite append_cons, <- Hr.
Qed.

(** ** Experience level *)

Example level_senior_junior :
  _extract_experience_level "Senior or Junior Developer" = "Senior".
Proof. reflexivity. Qed.

Example level_junior :
  _extract_experience_level "junior Java developer, no experience required" = "Junior".
Proof. reflexivity. Qed.

Example level_unicode :
  _extract_experience_level "młodszy programista" = "Junior".
Proof. reflexivity. Qed.

(** A text that contains a keyword is not empty. *)
Lemma any_word_in_nonempty (words : list string) (text : string) :
  Forall (fun w => w <> "") words ->
  any_word_in words (lower text) = true -> text <> "".
Proof.
  intros Hne Hany ->. simpl in Hany.
  unfold any_word_in in Hany. apply existsb_exists in Hany as (w & Hw & Hc).
  rewrite Forall_forall in Hne. specialize (Hne w).
  destruct w as [|c w]; [apply Hne; [by apply list_elem_of_In | done] | discriminate Hc].
Qed.

Lemma senior_words_nonempty : Forall (fun w => w <> "") senior_words.
Proof. repeat constructor; discriminate. Qed.

(** Whatever else the text holds, a Senior term decides. *)
Lemma level_senior (text : string) :
  any_word_in senior_words (lower text) = true ->
  _extract_experience_level text = "Senior".
Proof.
  intros Hs. unfold _extract_experience_level.
  pose proof (any_word_in_nonempty _ _ senior_words_nonempty Hs) as Hne.
  apply truthy_true in Hne. rewrite Hne. cbn [negb]. by rewrite Hs.
Qed.

(** C3, as the specification words it, fails on the empty text: no keyword
    occurs in it, and the classifier answers "Unknown", not "Mid". *)
Lemma C3_empty_text_is_unknown :
  any_word_in senior_words (lower "") = false
  /\ any_word_in junior_words (lower "") = false
  /\ any_word_in mid_words (lower "") = false
  /\ _extract_experience_level "" = "Unknown"
  /\ _extract_experience_level "" <> "Mid".
Proof. repeat split; try reflexivity. discriminate. Qed.

(** Junior wins over Mid when no Senior term occurs. *)
Lemma level_junior_over_mid (text : string) :
  any_word_in senior_words (lower text) = false ->
  any_word_in junior_words (lower text) = true ->
  _extract_experience_level text = "Junior".
Proof.
  intros Hs Hj. unfold _extract_experience_level.
  destruct text as [|c text]; [discriminate Hj|].
  cbn [truthy negb]. by rewrite Hs, Hj.
Qed.

(** The terms are looked for in the lower-cased text: capital letters of
    any alphabet are folded. *)
Example level_polish_capitals :
  lower "MŁODSZY PROGRAMISTA" = "młodszy programista"
  /\ _extract_experience_level "MŁODSZY PROGRAMISTA" = "Junior"
  /\ _extract_experience_level "POCZĄTKUJĄCY TESTER" = "Junior".
Proof. repeat split; vm_compute; reflexivity. Qed.

(** C3 (amended): the classifier is a function of the text with strict
    priority Senior > Junior > Mid, the terms being looked for in
    [text.lower()]. A text with a Senior term is "Senior", also when it has
    a Junior term; a text with a Junior term and no Senior term is
    "Junior"; every other text that is not empty, with a Mid term or with
    no term of the three keyword sets, is "Mid"; the empty text is
    "Unknown". *)
Theorem C3_experience_level_priority (text : string) :
  (any_word_in senior_words (lower text) = true ->
   any_word_in junior_words (lower text) = true ->
   _extract_experience_level text = "Senior")
  /\ (any_word_in senior_words (lower text) = true ->
      _extract_experience_level text = "Senior")
  /\ (any_word_in senior_words (lower text) = false ->
      any_word_in junior_words (lower text) = true ->
      _extract_experience_level text = "Junior")
  /\ (text <> "" ->
      any_word_in senior_words (lower text) = false ->
      any_word_in junior_words (lower text) = false ->
      _extract_experience_level text = "Mid")
  /\ (text <> "" ->
      any_word_in senior_words (lower text) = false ->
      any_word_in junior_words (lower text) = false ->
      any_word_in mid_words (lower text) = false ->
      _extract_experience_level text = "Mid")
  /\ (text = "" -> _extract_experience_level text = "Unknown").
Proof.
  assert (Hmid : text <> "" ->
    any_word_in senior_words (lower text) = false ->
    any_word_in junior_words (lower text) = false ->
    _extract_experience_level text = "Mid").
  { intros Hne Hs Hj. unfold _extract_experience_level.
    apply truthy_true in Hne. rewrite Hne. cbn [negb]. rewrite Hs, Hj.
    by destruct (any_word_in mid_words (lower text)). }
  split; [|split; [|split; [|split; [|split]]]].
  - intros Hs _. by apply level_senior.
  - apply level_senior.
  - apply level_junior_over_mid.
  - exact Hmid.
  - intros Hne Hs Hj _. by apply Hmid.
  - by intros ->.
Qed.

Lemma C3_experience_level_priority_witness :
  _extract_experience_level "Senior developer, junior mentor" = "Senior"
  /\ _extract_experience_level "MŁODSZY PROGRAMISTA (regular)" = "Junior"
  /\ _extract_experience_level "Regular Java Developer" = "Mid"
  /\ _extract_experience_level "Python developer" = "Mid"
  /\ _extract_experience_level "" = "Unknown".
Proof.
  split; [|split; [|split; [|split]]].
  - apply (proj1 (C3_experience_level_priority "Senior developer, junior mentor"));
      vm_compute; reflexivity.
  - apply (proj1 (proj2 (proj2 (C3_experience_level_priority "MŁODSZY PROGRAMISTA (regular)"))));
      vm_compute; reflexivity.
  - apply (proj1 (proj2 (proj2 (proj2 (C3_experience_level_priority "Regular Java Developer")))));
      [discriminate | vm_compute; reflexivity | vm_compute; reflexivity].
  - apply (proj1 (proj2 (proj2 (proj2 (proj2 (C3_experience_level_priority "Python developer"))))));
      [discriminate | vm_compute; reflexivity | vm_compute; reflexivity | vm_compute; reflexivity].
  - apply (C3_experience_level_priority ""); reflexivity.
Defined.

(** ** Portal detection *)

Example portal_pracuj :
  detect_portal py_plain "https://www.pracuj.pl/praca/python,oferta,1004294341" = Ok "pracuj".
Proof. reflexivity. Qed.

Example portal_upper_case :
  detect_portal py_plain "https://NoFluffJobs.com/job/python-developer-xyz" = Ok "nofluff".
Proof. reflexivity. Qed.

Example portal_unlisted : detect_portal py_plain "https://example.org/jobs/1" = Ok "unknown".
Proof. reflexivity. Qed.

(** No authority at all (no [//] after the scheme): unknown. *)
Example portal_no_host : detect_portal py_plain "pracuj.pl/praca" = Ok "unknown".
Proof. reflexivity. Qed.

(** Two keys in one authority: the first of the table decides. *)
Example portal_two_keys :
  detect_portal py_plain "https://justjoin.it.pracuj.pl/x" = Ok "pracuj".
Proof. reflexivity. Qed.

(** The keys are looked for in the whole authority, [netloc], of which the
    host is a part: a key in the user name or in the port decides as well. *)
Example portal_userinfo :
  Urllib.urlsplit_netloc "https://pracuj.pl@example.org/jobs/1" = Ok "pracuj.pl@example.org"
  /\ detect_portal py_plain "https://pracuj.pl@example.org/jobs/1" = Ok "pracuj".
Proof. split; reflexivity. Qed.

(** The loop returns the portal of the first key of the table found in the
    domain. *)
Lemma match_portal_first (pre post : list (string * string)) key portal domain :
  Forall (fun kp => contains kp.1 domain = false) pre ->
  contains key domain = true ->
  match_portal (pre ++ (key, portal) :: post) domain = portal.
Proof.
  induction 1 as [|[k p] pre Hk _ IH]; intros Hkey; simpl.
  - by rewrite Hkey.
  - simpl in Hk. rewrite Hk. by apply IH.
Qed.

Lemma match_portal_none (table : list (string * string)) domain :
  Forall (fun kp => contains kp.1 domain = false) table ->
  match_portal table domain = "unknown".
Proof.
  induction 1 as [|[k p] table Hk _ IH]; simpl; [done|].
  simpl in Hk. by rewrite Hk.
Qed.

(** The result is always "unknown" or the portal of a key that occurs in
    the domain. *)
Lemma match_portal_sound (table : list (string * string)) domain :
  match_portal table domain = "unknown"
  \/ exists key, (key, match_portal table domain) ∈ table /\ contains key domain = true.
Proof.
  induction table as [|[k p] table IH]; simpl; [by left|].
  destruct (contains k domain) eqn:Hk.
  - right. exists k. split; [left | done].
  - destruct IH as [IH | (key & Hin & Hc)]; [by left|].
    right. exists key. split; [by right | done].
Qed.

(** C4, as the specification words it, fails on a URL that [urlparse]
    rejects: the classifier has no handler and the [ValueError] escapes. *)
Lemma C4_malformed_url_raises :
  detect_portal py_plain "http://[" = Raise (Exn ValueError "Invalid IPv6 URL")
  /\ detect_portal py_plain "http://[" <> Ok "unknown".
Proof. split; [reflexivity | discriminate]. Qed.

(** C4 (amended): the portal classifier is a function of the URL. When
    [urlparse] returns, the result is the portal of the first key of the
    table that occurs in the lower-cased [netloc] (the authority of the
    URL: user information, host and port), and "unknown" when no key occurs
    in it (so also for a URL without authority); when [urlparse] raises,
    the classifier raises that exception. *)
Theorem C4_detect_portal (py : runtime) (url : string) :
  (forall netloc pre key portal post,
     urlparse_netloc py url = Ok netloc ->
     portals = pre ++ (key, portal) :: post ->
     Forall (fun kp => contains kp.1 (lower netloc) = false) pre ->
     contains key (lower netloc) = true ->
     detect_portal py url = Ok portal)
  /\ (forall netloc,
        urlparse_netloc py url = Ok netloc ->
        Forall (fun kp => contains kp.1 (lower netloc) = false) portals ->
        detect_portal py url = Ok "unknown")
  /\ (forall e, urlparse_netloc py url = Raise e -> detect_portal py url = Raise e).
Proof.
  unfold detect_portal. split; [|split].
  - intros netloc pre key portal post -> -> Hpre Hkey. result_simpl.
    f_equal. by apply match_portal_first.
  - intros netloc -> Hnone. result_simpl. f_equal. by apply match_portal_none.
  - by intros e ->.
Qed.

Lemma C4_detect_portal_witness :
  detect_portal py_plain "https://nofluffjobs.com/job/python-developer-xyz" = Ok "nofluff"
  /\ detect_portal py_plain "https://example.org/jobs/1" = Ok "unknown"
  /\ detect_portal py_plain "http://[" = Raise (Exn ValueError "Invalid IPv6 URL").
Proof.
  split; [|split].
  - apply (proj1 (C4_detect_portal py_plain _) "nofluffjobs.com"
             [("pracuj.pl", "pracuj"); ("indeed.pl", "indeed"); ("indeed.com", "indeed")]
             "nofluffjobs.com" "nofluff"
             [("justjoin.it", "justjoin"); ("theprotocol.it", "protocol");
              ("bulldogjob.pl", "bulldog")]);
      [reflexivity | reflexivity | repeat constructor | reflexivity].
  - apply (proj1 (proj2 (C4_detect_portal py_plain _)) "example.org");
      [reflexivity | repeat constructor].
  - apply (proj2 (proj2 (C4_detect_portal py_plain _))). reflexivity.
Defined.

(** The classifier never invents a portal: its answer is "unknown" or the
    portal of a key found in the authority. *)
Lemma detect_portal_sound (py : runtime) (url portal : string) :
  detect_portal py url = Ok portal ->
  portal = "unknown"
  \/ exists netloc key,
       urlparse_netloc py url = Ok netloc
       /\ (key, portal) ∈ portals /\ contains key (lower netloc) = true.
Proof.
  unfold detect_portal. destruct (urlparse_netloc py url) as [netloc|e] eqn:Hn; [|done].
  result_simpl. intros [= <-].
  destruct (match_portal_sound portals (lower netloc)) as [H | (key & Hin & Hc)];
    [by left | right; eauto].
Qed.

(** ** List fields: the loop over selectors *)

Example list_items_first_group :
  _extract_list_items_trace (page_with "Dev" ["Min. 4 lata Python"; "SQL"; "Znajomość Django"])
    [".requirements li"; ".requirement-item"]
  = (["Min. 4 lata Python"; "Znajomość Django"], [".requirements li"]).
Proof. reflexivity. Qed.

Lemma list_item_ok_bounds (t : string) :
  list_item_ok t = true <-> t <> "" /\ 5 < len t < 200.
Proof.
  unfold list_item_ok. rewrite !andb_true_iff, truthy_true, !Nat.ltb_lt. tauto.
Qed.

(** The bounds count characters, not bytes. *)
Example list_item_counts_characters :
  len "żółć" = 4 /\ list_item_ok "żółć" = false
  /\ len "Zażółć" = 6 /\ list_item_ok "Zażółć" = true.
Proof. repeat split; vm_compute; reflexivity. Qed.

(** The inner loop only appends, and only accepted texts. *)
Lemma collect_texts_appends accept elements items :
  exists new,
    (collect_texts accept elements items).1 = items ++ new
    /\ Forall (fun t => accept t = true) new.
Proof.
  revert items. induction elements as [|elem rest IH]; intros items; simpl.
  - exists []. by rewrite app_nil_r.
  - destruct (stripped_text elem) as [t|e]; simpl.
    + destruct (accept t) eqn:Ht.
      * destruct (IH (items ++ [t])) as (new & -> & Hnew).
        exists (t :: new). split; [by rewrite <- app_assoc | by constructor].
      * apply IH.
    + exists []. by rewrite app_nil_r.
Qed.

(** When every text can be read, the inner loop appends the accepted ones,
    in the order of the elements. *)
Lemma collect_texts_all accept elements ts items :
  all_texts elements = Ok ts ->
  collect_texts accept elements items = (items ++ List.filter accept ts, None).
Proof.
  revert ts items. induction elements as [|elem rest IH]; intros ts items; simpl.
  - intros [= <-]. by rewrite app_nil_r.
  - destruct (stripped_text elem) as [t|e]; result_simpl; [|done].
    destruct (all_texts rest) as [ts'|e]; result_simpl; [|done].
    intros [= <-]. rewrite (IH ts' _ eq_refl). simpl.
    destruct (accept t); [by rewrite <- app_assoc | done].
Qed.

(** The loop over selectors only appends accepted texts, and queries a
    prefix of the selectors. *)
Lemma selector_loop_appends accept pg selectors items :
  exists new,
    (selector_loop accept pg selectors items).1 = items ++ new
    /\ Forall (fun t => accept t = true) new.
Proof.
  revert items. induction selectors as [|sel rest IH]; intros items; simpl.
  - exists []. by rewrite app_nil_r.
  - destruct (find_elements pg CSS_SELECTOR sel) as [elements|e].
    + pose proof (collect_texts_appends accept elements items) as (new & Hnew & Hok).
      destruct (collect_texts accept elements items) as [items' o]. simpl in Hnew. subst items'.
      assert (Hcont : exists new',
        (let '(final, queried) := selector_loop accept pg rest (items ++ new) in
         (final, sel :: queried)).1 = items ++ new'
        /\ Forall (fun t => accept t = true) new').
      { destruct (IH (items ++ new)) as (new' & Hnew' & Hok').
        destruct (selector_loop accept pg rest (items ++ new)) as [final queried].
        simpl in *. subst final. exists (new ++ new').
        split; [by rewrite app_assoc | by apply Forall_app]. }
      destruct o; [exact Hcont|].
      destruct (items ++ new) eqn:Heq; [rewrite <- Heq in *; exact Hcont|].
      simpl. rewrite <- Heq. eauto.
    + destruct (IH items) as (new & Hnew & Hok).
      destruct (selector_loop accept pg rest items) as [final queried].
      simpl in *. eauto.
Qed.

Lemma selector_loop_queried_prefix accept pg selectors items :
  (selector_loop accept pg selectors items).2 `prefix_of` selectors.
Proof.
  revert items. induction selectors as [|sel rest IH]; intros items; simpl; [done|].
  assert (Hcont : forall items',
    (let '(final, queried) := selector_loop accept pg rest items' in
     (final, sel :: queried)).2 `prefix_of` sel :: rest).
  { intros items'. specialize (IH items').
    destruct (selector_loop accept pg rest items') as [final queried].
    simpl in *. by apply prefix_cons. }
  destruct (find_elements pg CSS_SELECTOR sel) as [elements|e]; [|apply Hcont].
  destruct (collect_texts accept elements items) as [items' [e|]]; [apply Hcont|].
  destruct items'; [apply Hcont|]. simpl. apply prefix_cons, prefix_nil.
Qed.

(** Selectors that leave the list empty are passed over. *)
Lemma selector_loop_barren accept pg pre rest :
  Forall (barren accept pg) pre ->
  selector_loop accept pg (pre ++ rest) []
  = ((selector_loop accept pg rest []).1, pre ++ (selector_loop accept pg rest []).2).
Proof.
  induction 1 as [|sel pre Hsel _ IH]; simpl.
  - by destruct (selector_loop accept pg rest []).
  - unfold barren in Hsel.
    destruct (find_elements pg CSS_SELECTOR sel) as [elements|e].
    + destruct (collect_texts accept elements []) as [items' o]. simpl in Hsel. subst items'.
      rewrite IH. by destruct o.
    + by rewrite IH.
Qed.

(** The first selector that yields ends the loop. *)
Lemma selector_loop_yield accept pg sel post elements ts :
  find_elements pg CSS_SELECTOR sel = Ok elements ->
  all_texts elements = Ok ts ->
  List.filter accept ts <> [] ->
  selector_loop accept pg (sel :: post) [] = (List.filter accept ts, [sel]).
Proof.
  intros Hfind Hts Hne. simpl. rewrite Hfind.
  rewrite (collect_texts_all _ _ _ _ Hts). simpl.
  by destruct (List.filter accept ts).
Qed.

(** C9, as the specification words it, fails on a short bullet: a text of
    six characters is accepted although it is shorter than ten. *)
Lemma C9_six_characters_accepted :
  _extract_list_items (page_with "Dev" ["Python"]) [".requirements li"] = ["Python"]
  /\ len "Python" < 10.
Proof. split; [reflexivity | vm_compute; lia]. Qed.

(** C9 (amended): list-field extraction accepts a stripped element text
    when it has more than 5 and fewer than 200 characters, and returns at
    most 10 texts. When the selectors before one leave the list empty, and
    that one matches elements whose texts can all be read and of which at
    least one is accepted, the result is the accepted texts of that
    selector, in element order, cut to 10, and no later selector is
    queried. *)
Theorem C9_list_items_first_yield (pg : page) (selectors : list string) :
  length (_extract_list_items pg selectors) <= 10
  /\ Forall (fun t => 5 < len t < 200) (_extract_list_items pg selectors)
  /\ (forall pre sel post elements ts,
        selectors = pre ++ sel :: post ->
        Forall (barren list_item_ok pg) pre ->
        find_elements pg CSS_SELECTOR sel = Ok elements ->
        all_texts elements = Ok ts ->
        List.filter list_item_ok ts <> [] ->
        _extract_list_items_trace pg selectors
        = (take 10 (List.filter list_item_ok ts), pre ++ [sel])).
Proof.
  unfold _extract_list_items, _extract_list_items_trace. split; [|split].
  - destruct (selector_loop list_item_ok pg selectors []) as [items queried]. simpl.
    rewrite length_take. lia.
  - destruct (selector_loop_appends list_item_ok pg selectors []) as (new & Hnew & Hok).
    destruct (selector_loop list_item_ok pg selectors []) as [items queried].
    simpl in *. subst items. apply Forall_take.
    eapply Forall_impl; [exact Hok|]. intros t Ht. by apply list_item_ok_bounds in Ht as [_ ?].
  - intros pre sel post elements ts -> Hpre Hfind Hts Hne.
    rewrite (selector_loop_barren _ _ _ _ Hpre).
    by rewrite (selector_loop_yield _ _ _ post _ _ Hfind Hts Hne).
Qed.

Lemma C9_list_items_first_yield_witness :
  let pg := page_lists "Dev" (fun sel =>
    if String.eqb sel ".requirements li" then no_such_element
    else if String.eqb sel ".requirement-item" then Ok (map elem ["SQL"; "  "])
    else Ok (map elem ["Min. 4 lata Python"; "SQL"; " Znajomość Django "])) in
  _extract_list_items_trace pg [".requirements li"; ".requirement-item"; "ul li"; "ol li"]
  = (["Min. 4 lata Python"; "Znajomość Django"],
     [".requirements li"; ".requirement-item"; "ul li"]).
Proof.
  intros pg.
  apply (proj2 (proj2 (C9_list_items_first_yield pg
           [".requirements li"; ".requirement-item"; "ul li"; "ol li"]))
         [".requirements li"; ".requirement-item"] "ul li" ["ol li"]
         (map elem ["Min. 4 lata Python"; "SQL"; " Znajomość Django "])
         ["Min. 4 lata Python"; "SQL"; "Znajomość Django"]);
    [reflexivity | repeat constructor | reflexivity | reflexivity | discriminate].
Defined.

(** Texts appended before an element fails stay in the list, and the next
    selector adds to them. *)
Example list_items_after_stale_element :
  _extract_list_items_trace
    (page_lists "Dev" (fun sel =>
       if String.eqb sel ".a"
       then Ok [elem "Znajomość Django"; {| text := Raise (Exn WebDriverException "stale") |}]
       else Ok [elem "Min. 4 lata Python"]))
    [".a"; ".b"; ".c"]
  = (["Znajomość Django"; "Min. 4 lata Python"], [".a"; ".b"]).
Proof. reflexivity. Qed.

(** ** Caps and duplicates of the list fields *)

Lemma nodupb_NoDup (l : list string) : nodupb l = true -> NoDup l.
Proof.
  induction l as [|x l IH]; simpl; [constructor|].
  rewrite andb_true_iff, negb_true_iff. intros [Hx Hl]. constructor; [|by apply IH].
  intros Hin. apply not_true_iff_false in Hx. apply Hx, existsb_exists.
  exists x. split; [by apply list_elem_of_In | apply String.eqb_refl].
Qed.

Lemma tech_keywords_NoDup : NoDup _get_tech_keywords.
Proof. apply nodupb_NoDup. vm_compute. reflexivity. Qed.

Lemma filter_sublist {A} (f : A -> bool) (l : list A) : List.filter f l `sublist_of` l.
Proof.
  induction l as [|x l IH]; simpl; [constructor|].
  destruct (f x); by constructor.
Qed.

(** [_extract_skills_from_text]: lexicon order, no duplicate, at most 15. *)
Lemma skills_from_text_sublist (text : string) :
  _extract_skills_from_text text `sublist_of` _get_tech_keywords.
Proof.
  unfold _extract_skills_from_text. destruct (negb (truthy text)).
  - apply sublist_nil_l.
  - etrans; [apply sublist_take | apply filter_sublist].
Qed.

Lemma skills_from_text_length (text : string) :
  length (_extract_skills_from_text text) <= 15.
Proof.
  unfold _extract_skills_from_text.
  destruct (negb (truthy text)); [simpl; lia | rewrite length_take; lia].
Qed.

Lemma requirements_from_text_length (py : runtime) (text : string) :
  length (_extract_requirements_from_text py text) <= 10.
Proof.
  unfold _extract_requirements_from_text.
  destruct (negb (truthy text)); [simpl; lia | rewrite length_take; lia].
Qed.

(** The keyword loop adds lexicon entries only. *)
Lemma keyword_loop_elem (page_text : string) (kws acc : list string) (s : string) :
  s ∈ fold_left
        (fun skills keyword =>
           if contains (lower keyword) page_text && negb (bool_decide (keyword ∈ skills))
           then skills ++ [keyword] else skills) kws acc ->
  s ∈ acc \/ s ∈ kws.
Proof.
  revert acc. induction kws as [|k kws IH]; intros acc; simpl; [by left|].
  intros Hs. apply IH in Hs as [Hs|Hs].
  - destruct (_ && _); [|by left].
    apply elem_of_app in Hs as [Hs|Hs]; [by left|].
    apply list_elem_of_singleton in Hs as ->. right. by left.
  - right. by right.
Qed.

Lemma add_keywords_elem (page_text : string) (skills : list string) (s : string) :
  s ∈ add_keywords page_text skills -> s ∈ skills \/ s ∈ _get_tech_keywords.
Proof. apply keyword_loop_elem. Qed.

(** [_extract_skills]: what the set gives, cut to 15. *)
Lemma extract_skills_spec (py : runtime) pg selectors skills :
  set_semantics py ->
  _extract_skills py pg selectors = Ok skills ->
  length skills <= 15 /\ NoDup skills
  /\ Forall (fun s => skill_ok s = true \/ s ∈ _get_tech_keywords) skills.
Proof.
  intros Hset. unfold _extract_skills.
  destruct (find_element pg TAG_NAME "body") as [body|e]; result_simpl; [|done].
  destruct (text body) as [t|e]; result_simpl; [|done].
  intros [= <-].
  set (found := (selector_loop skill_ok pg selectors []).1).
  destruct (Hset (add_keywords (lower t) found)) as [Hnd Hin].
  split; [rewrite length_take; lia|].
  split; [eapply sublist_NoDup; [exact Hnd | apply sublist_take]|].
  apply Forall_take, Forall_forall. intros s Hs.
  apply Hin, add_keywords_elem in Hs as [Hs|Hs]; [left | by right].
  destruct (selector_loop_appends skill_ok pg selectors []) as (new & Hnew & Hok).
  fold found in Hnew. rewrite Hnew in Hs. simpl in Hs.
  by apply (proj1 (Forall_forall _ _) Hok).
Qed.

Lemma py_plain_set_semantics : set_semantics py_plain.
Proof.
  intros l. split; [apply NoDup_remove_dups | intros x; apply elem_of_remove_dups].
Qed.

Lemma py_reversed_set_semantics : set_semantics py_reversed.
Proof.
  intros l. simpl. split.
  - apply NoDup_ListNoDup, List.NoDup_rev, NoDup_ListNoDup, NoDup_remove_dups.
  - intros x. rewrite list_elem_of_In, <- in_rev, <- list_elem_of_In.
    apply elem_of_remove_dups.
Qed.

(** The fields of a result dict, per stage. *)
Lemma failure_fields (msg : string) :
  failure msg !! "success" = Some (VBool false)
  /\ failure msg !! "error" = Some (VStr msg)
  /\ Forall (fun k => failure msg !! k = None) content_fields.
Proof. repeat split. repeat constructor. Qed.

Lemma failure_at_fields (msg portal url : string) :
  failure_at msg portal url !! "success" = Some (VBool false)
  /\ failure_at msg portal url !! "error" = Some (VStr msg)
  /\ Forall (fun k => failure_at msg portal url !! k = None) content_fields.
Proof. repeat split. repeat constructor. Qed.

Lemma pracuj_ok_fields (py : runtime) (pg : page) (r : dict) :
  _scrape_pracuj_selenium_body py pg = Ok r ->
  exists title skills,
    pracuj_title pg = Ok title
    /\ _extract_skills py pg pracuj_skill_selectors = Ok skills
    /\ r !! "success" = Some (VBool true)
    /\ r !! "error" = None
    /\ r !! "title" = Some (VStr title)
    /\ r !! "skills" = Some (VList (take 15 skills))
    /\ r !! "requirements"
       = Some (VList (take 10 (_extract_list_items pg pracuj_req_selectors))).
Proof.
  unfold _scrape_pracuj_selenium_body.
  destruct (pracuj_title pg) as [title|e]; result_simpl; [|done].
  destruct (_extract_skills py pg pracuj_skill_selectors) as [skills|e]; result_simpl; [|done].
  destruct (current_url pg) as [url|e]; result_simpl; [|done].
  intros [= <-]. exists title, skills. repeat split.
Qed.

Lemma generic_ok_fields (py : runtime) (sp : soup) (url portal : string) (r : dict) :
  _extract_generic_info_body py sp url portal = Ok r ->
  exists title page_text,
    generic_title sp title_tags = Ok title
    /\ get_text sp = Ok page_text
    /\ r !! "success" = Some (VBool true)
    /\ r !! "error" = None
    /\ r !! "title" = Some (VStr title)
    /\ r !! "skills" = Some (VList (_extract_skills_from_text page_text))
    /\ r !! "requirements" = Some (VList (_extract_requirements_from_text py page_text)).
Proof.
  unfold _extract_generic_info_body.
  destruct (generic_title sp title_tags) as [title|e]; result_simpl; [|done].
  destruct (get_text sp) as [page_text|e]; result_simpl; [|done].
  intros [= <-]. exists title, page_text. repeat split.
Qed.

Lemma nofluff_ok_fields (pg : page) (r : dict) :
  _scrape_nofluff_selenium_body pg = Ok r ->
  exists title_elem title tech_elements skills,
    wait_until_present pg "h1, .posting-details-title" = Ok title_elem
    /\ stripped_text title_elem = Ok title
    /\ find_elements pg CSS_SELECTOR ".posting-technologies .technology" = Ok tech_elements
    /\ nonempty_texts tech_elements = Ok skills
    /\ r !! "success" = Some (VBool true)
    /\ r !! "error" = None
    /\ r !! "title" = Some (VStr title)
    /\ r !! "skills" = Some (VList skills).
Proof.
  unfold _scrape_nofluff_selenium_body.
  destruct (wait_until_present pg _) as [title_elem|e]; result_simpl; [|done].
  destruct (stripped_text title_elem) as [title|e] eqn:Htitle; result_simpl; [|done].
  destruct (find_element pg CSS_SELECTOR ".company-name, .posting-details-company")
    as [company_elem|e]; result_simpl; [|done].
  destruct (stripped_text company_elem) as [company|e]; result_simpl; [|done].
  destruct (find_elements pg CSS_SELECTOR ".posting-technologies .technology")
    as [tech_elements|e]; result_simpl; [|done].
  destruct (nonempty_texts tech_elements) as [skills|e] eqn:Hskills; result_simpl; [|done].
  destruct (find_elements pg CSS_SELECTOR ".posting-requirements li")
    as [req_elements|e]; result_simpl; [|done].
  destruct (nonempty_texts req_elements) as [requirements|e]; result_simpl; [|done].
  destruct (find_element pg CSS_SELECTOR ".posting-salary, .salary-range")
    as [salary_elem|e]; result_simpl; [|done].
  destruct (stripped_text salary_elem) as [salary|e]; result_simpl; [|done].
  destruct (current_url pg) as [url|e]; result_simpl; [|done].
  intros [= <-]. exists title_elem, title, tech_elements, skills. by repeat split.
Qed.

(** C2, as the specification words it, fails on a pracuj page with the same
    requirement bullet twice: the requirements are cut to 10 and never
    deduplicated. *)
Lemma C2_duplicate_requirement :
  _scrape_pracuj_selenium py_plain
    (page_with "Dev" ["Znajomość Django"; "Znajomość Django"]) !! "requirements"
  = Some (VList ["Znajomość Django"; "Znajomość Django"])
  /\ ~ NoDup ["Znajomość Django"; "Znajomość Django"].
Proof.
  split; [reflexivity|].
  intros Hnd. apply NoDup_cons in Hnd as [Hnotin _]. apply Hnotin. by left.
Qed.

(** The nofluff strategy returns what it found, uncut. *)
Example nofluff_skills_uncapped :
  _scrape_nofluff_selenium
    (page_lists "Dev" (fun _ => Ok (map elem
       ["a"; "b"; "c"; "d"; "e"; "f"; "g"; "h"; "i"; "j"; "k"; "l"; "m"; "n"; "o"; "p"])))
    !! "skills"
  = Some (VList ["a"; "b"; "c"; "d"; "e"; "f"; "g"; "h"; "i"; "j"; "k"; "l"; "m"; "n"; "o"; "p"]).
Proof. reflexivity. Qed.

(** The pracuj strategy returns its skills in the iteration order of the
    set, which need not be the order of discovery. *)
Example pracuj_skills_in_set_order :
  _scrape_pracuj_selenium py_plain (page_with "Dev" ["Django"; "Flask"]) !! "skills"
  = Some (VList ["Django"; "Flask"])
  /\ _scrape_pracuj_selenium py_reversed (page_with "Dev" ["Django"; "Flask"]) !! "skills"
     = Some (VList ["Flask"; "Django"]).
Proof. split; reflexivity. Qed.

(** C2 (amended): in a result of the pracuj strategy and in a result of the
    generic extractor, the skills list has at most 15 entries and no
    duplicate, and the requirements list has at most 10 entries (in
    extraction order, not deduplicated). The skills of the generic
    extractor come in lexicon order; the skills of the pracuj strategy are
    accepted tag texts and lexicon entries, in the order in which the set
    that removes the duplicates iterates. *)
Theorem C2_list_caps (py : runtime) :
  set_semantics py ->
  (forall pg skills requirements,
     _scrape_pracuj_selenium py pg !! "skills" = Some (VList skills) ->
     _scrape_pracuj_selenium py pg !! "requirements" = Some (VList requirements) ->
     length skills <= 15 /\ NoDup skills
     /\ Forall (fun s => skill_ok s = true \/ s ∈ _get_tech_keywords) skills
     /\ length requirements <= 10
     /\ requirements = _extract_list_items pg pracuj_req_selectors)
  /\ (forall sp url portal skills requirements,
        _extract_generic_info py sp url portal !! "skills" = Some (VList skills) ->
        _extract_generic_info py sp url portal !! "requirements" = Some (VList requirements) ->
        length skills <= 15 /\ NoDup skills
        /\ skills `sublist_of` _get_tech_keywords
        /\ length requirements <= 10).
Proof.
  intros Hset. split.
  - intros pg skills requirements. unfold _scrape_pracuj_selenium.
    destruct (_scrape_pracuj_selenium_body py pg) as [r|e] eqn:Hbody; [|done].
    apply pracuj_ok_fields in Hbody
      as (title & sk & _ & Hsk & _ & _ & _ & Hskills & Hreqs).
    rewrite Hskills, Hreqs. intros [= <-] [= <-].
    destruct (extract_skills_spec _ _ _ _ Hset Hsk) as (Hlen & Hnd & Hall).
    split; [rewrite length_take; lia|].
    split; [eapply sublist_NoDup; [exact Hnd | apply sublist_take]|].
    split; [by apply Forall_take|].
    split; [rewrite length_take; lia|].
    apply take_ge. unfold _extract_list_items, _extract_list_items_trace.
    destruct (selector_loop list_item_ok pg pracuj_req_selectors []) as [items queried].
    simpl. rewrite length_take. lia.
  - intros sp url portal skills requirements. unfold _extract_generic_info.
    destruct (_extract_generic_info_body py sp url portal) as [r|e] eqn:Hbody; [|done].
    apply generic_ok_fields in Hbody
      as (title & page_text & _ & _ & _ & _ & _ & Hskills & Hreqs).
    rewrite Hskills, Hreqs. intros [= <-] [= <-].
    split; [apply skills_from_text_length|].
    split; [eapply sublist_NoDup; [apply tech_keywords_NoDup | apply skills_from_text_sublist]|].
    split; [apply skills_from_text_sublist | apply requirements_from_text_length].
Qed.

Lemma C2_list_caps_witness :
  let pg := page_lists "Dev" (fun sel =>
    if String.eqb sel ".requirements li"
    then Ok (map elem ["Znajomość Django"; "Znajomość Flask"])
    else if String.eqb sel ".skill-tag" then Ok (map elem ["Django"; "Flask"])
    else Ok []) in
  (length ["Django"; "Flask"] <= 15 /\ NoDup ["Django"; "Flask"]
   /\ Forall (fun s => skill_ok s = true \/ s ∈ _get_tech_keywords) ["Django"; "Flask"]
   /\ length ["Znajomość Django"; "Znajomość Flask"] <= 10
   /\ ["Znajomość Django"; "Znajomość Flask"] = _extract_list_items pg pracuj_req_selectors)
  /\ (length ["Python"; "Docker"; "AWS"] <= 15 /\ NoDup ["Python"; "Docker"; "AWS"]
      /\ ["Python"; "Docker"; "AWS"] `sublist_of` _get_tech_keywords
      /\ length (@nil string) <= 10).
Proof.
  intros pg. split.
  - apply (proj1 (C2_list_caps py_plain py_plain_set_semantics) pg); reflexivity.
  - apply (proj2 (C2_list_caps py_plain py_plain_set_semantics)
             (soup_h1 "Senior Python Developer" "Senior Python Developer. Docker, AWS")
             "https://example.org/jobs/1" "unknown"); reflexivity.
Defined.

(** ** Failed results *)

Lemma get_success_true (r : dict) : r !! "success" = Some (VBool true) -> get_success r = true.
Proof. unfold get_success. by intros ->. Qed.

Lemma get_success_failure (msg : string) : get_success (failure msg) = false.
Proof. reflexivity. Qed.

Lemma get_success_failure_at (msg portal url : string) :
  get_success (failure_at msg portal url) = false.
Proof. reflexivity. Qed.

(** A result that the requests stage passes on comes from the generic
    extractor. *)
Lemma requests_ok_generic py self url portal r :
  _scrape_with_requests_body py self url portal = Ok r ->
  exists sp, r = _extract_generic_info py sp url portal.
Proof.
  unfold _scrape_with_requests_body.
  destruct (session_get self url) as [resp|e]; result_simpl; [|done].
  destruct (raise_for_status resp) as [[]|e]; result_simpl; [|done].
  destruct (html_parser (content resp)) as [sp|e]; result_simpl; [|done].
  intros [= <-]. by exists sp.
Qed.

(** A result that the selenium stage passes on comes from a strategy or
    from the generic extractor. *)
Lemma selenium_ok_inner py d url portal r :
  scrape_with_selenium_body py d url portal = Ok r ->
  (exists pg, r = _scrape_pracuj_selenium py pg)
  \/ (exists pg, r = _scrape_nofluff_selenium pg)
  \/ (exists sp, r = _extract_generic_info py sp url portal).
Proof.
  unfold scrape_with_selenium_body, _scrape_justjoin_selenium.
  destruct (get d url) as [pg|e]; result_simpl; [|done].
  destruct (String.eqb portal "pracuj"); [intros [= <-]; eauto|].
  destruct (String.eqb portal "nofluff"); [intros [= <-]; eauto|].
  destruct (String.eqb portal "justjoin"); [done|].
  destruct (page_source pg) as [source|e]; result_simpl; [|done].
  destruct (html_parser source) as [sp|e]; result_simpl; [|done].
  intros [= <-]. eauto.
Qed.

(** A strategy or the extractor fails when its [try] block raises, and
    with the text of that exception. *)
Lemma strategy_failed py c :
  inner_call c = None ->
  (forall self url portal, c <> CallSelenium self url portal) ->
  (forall self url portal, c <> CallRequests self url portal) ->
  get_success (run_stage py c) = false ->
  exists e, caught_own py c = Some e /\ failed_with (run_stage py c) (str_of e).
Proof.
  intros _ Hsel Hreq Hfail.
  destruct c as [pg|pg|sp url portal|self url portal|self url portal];
    [| | |by destruct (Hsel self url portal)|by destruct (Hreq self url portal)];
    cbn [run_stage caught_own] in *.
  - unfold _scrape_pracuj_selenium in *.
    destruct (_scrape_pracuj_selenium_body py pg) as [r|e] eqn:Hbody.
    + apply pracuj_ok_fields in Hbody as (? & ? & _ & _ & Hs & _).
      apply get_success_true in Hs. congruence.
    + exists e. split; [done | by left].
  - unfold _scrape_nofluff_selenium in *.
    destruct (_scrape_nofluff_selenium_body pg) as [r|e] eqn:Hbody.
    + apply nofluff_ok_fields in Hbody as (? & ? & ? & ? & _ & _ & _ & _ & Hs & _).
      apply get_success_true in Hs. congruence.
    + exists e. split; [done | by left].
  - unfold _extract_generic_info in *.
    destruct (_extract_generic_info_body py sp url portal) as [r|e] eqn:Hbody.
    + apply generic_ok_fields in Hbody as (? & ? & _ & _ & Hs & _).
      apply get_success_true in Hs. congruence.
    + exists e. split; [done | right; by exists portal, url].
Qed.

(** What the selenium stage passes on is the result of the strategy or
    extractor that it called. *)
Lemma selenium_inner_call py self d url portal r :
  driver self = Some d ->
  scrape_with_selenium_body py d url portal = Ok r ->
  exists inner,
    inner_call (CallSelenium self url portal) = Some inner
    /\ r = run_stage py inner /\ inner_call inner = None
    /\ (forall self url portal, inner <> CallSelenium self url portal)
    /\ (forall self url portal, inner <> CallRequests self url portal).
Proof.
  intros Hd. cbn [inner_call]. rewrite Hd.
  unfold scrape_with_selenium_body, _scrape_justjoin_selenium.
  destruct (get d url) as [pg|e]; result_simpl; [|done].
  destruct (String.eqb portal "pracuj"); [intros [= <-]; eexists; by repeat split|].
  destruct (String.eqb portal "nofluff"); [intros [= <-]; eexists; by repeat split|].
  destruct (String.eqb portal "justjoin"); [done|].
  destruct (page_source pg) as [source|e]; result_simpl; [|done].
  destruct (html_parser source) as [sp|e]; result_simpl; [|done].
  intros [= <-]. eexists. by repeat split.
Qed.

Lemma requests_inner_call py self url portal r :
  _scrape_with_requests_body py self url portal = Ok r ->
  exists inner,
    inner_call (CallRequests self url portal) = Some inner
    /\ r = run_stage py inner /\ inner_call inner = None
    /\ (forall self url portal, inner <> CallSelenium self url portal)
    /\ (forall self url portal, inner <> CallRequests self url portal).
Proof.
  cbn [inner_call]. unfold _scrape_with_requests_body.
  destruct (session_get self url) as [resp|e]; result_simpl; [|done].
  destruct (raise_for_status resp) as [[]|e]; result_simpl; [|done].
  destruct (html_parser (content resp)) as [sp|e]; result_simpl; [|done].
  intros [= <-]. eexists. by repeat split.
Qed.

(** A failed call: the shape of its result and the origin of the
    message. *)
Lemma call_failed (py : runtime) (c : stage_call) :
  get_success (run_stage py c) = false ->
  exists msg,
    failed_with (run_stage py c) msg
    /\ match caught_in py c with
       | Some e => msg = str_of e
       | None =>
           msg = "Selenium not available"
           /\ exists self url portal, c = CallSelenium self url portal /\ driver self = None
       end.
Proof.
  intros Hfail.
  destruct c as [pg|pg|sp url portal|self url portal|self url portal].
  - destruct (strategy_failed py (CallPracuj pg)) as (e & He & Hr); [done..|].
    exists (str_of e). split; [done|]. unfold caught_in. by rewrite He.
  - destruct (strategy_failed py (CallNofluff pg)) as (e & He & Hr); [done..|].
    exists (str_of e). split; [done|]. unfold caught_in. by rewrite He.
  - destruct (strategy_failed py (CallGeneric sp url portal)) as (e & He & Hr); [done..|].
    exists (str_of e). split; [done|]. unfold caught_in. by rewrite He.
  - unfold caught_in. cbn [run_stage caught_own] in *. unfold scrape_with_selenium in *.
    destruct (driver self) as [d|] eqn:Hd.
    + destruct (scrape_with_selenium_body py d url portal) as [r|e] eqn:Hbody.
      * destruct (selenium_inner_call py self d url portal r Hd Hbody)
          as (inner & -> & -> & Hin & Hs & Hq).
        destruct (strategy_failed py inner Hin Hs Hq Hfail) as (e & -> & Hr).
        by exists (str_of e).
      * exists (str_of e). split; [by left | done].
    + exists "Selenium not available". split; [by left|].
      cbn [inner_call]. rewrite Hd. split; [done|]. by exists self, url, portal.
  - unfold caught_in. cbn [run_stage caught_own] in *. unfold _scrape_with_requests in *.
    destruct (_scrape_with_requests_body py self url portal) as [r|e] eqn:Hbody.
    + destruct (requests_inner_call py self url portal r Hbody)
        as (inner & -> & -> & Hin & Hs & Hq).
      destruct (strategy_failed py inner Hin Hs Hq Hfail) as (e & -> & Hr).
      by exists (str_of e).
    + exists (str_of e). split; [right; by exists portal, url | done].
Qed.

Lemma stage_output_call (py : runtime) (r : dict) :
  stage_output py r <-> exists c, r = run_stage py c.
Proof.
  split.
  - intros [pg|pg|sp url portal|self url portal|self url portal].
    + by exists (CallPracuj pg).
    + by exists (CallNofluff pg).
    + by exists (CallGeneric sp url portal).
    + by exists (CallSelenium self url portal).
    + by exists (CallRequests self url portal).
  - intros [[pg|pg|sp url portal|self url portal|self url portal] ->]; constructor.
Qed.

Lemma stage_failed (py : runtime) (r : dict) :
  stage_output py r -> get_success r = false -> exists msg, failed_with r msg.
Proof.
  intros [c ->]%stage_output_call Hfail.
  destruct (call_failed py c Hfail) as (msg & Hr & _). by exists msg.
Qed.

(** A call of a stage succeeds exactly when no exception was caught during
    it (and, for the selenium stage, there is a driver). *)
Lemma call_succeeds_iff (py : runtime) (c : stage_call) :
  get_success (run_stage py c) = true
  <-> caught_in py c = None
      /\ (forall self url portal, c = CallSelenium self url portal -> driver self <> None).
Proof.
  destruct (get_success (run_stage py c)) eqn:Hs.
  - split; [intros _ | done].
    assert (Hbase : forall c', inner_call c' = None ->
              (forall self url portal, c' <> CallSelenium self url portal) ->
              (forall self url portal, c' <> CallRequests self url portal) ->
              get_success (run_stage py c') = true -> caught_own py c' = None).
    { intros c' _ Hsel Hreq Hok.
      destruct c' as [pg|pg|sp url portal|self url portal|self url portal];
        [| | |by destruct (Hsel self url portal)|by destruct (Hreq self url portal)];
        cbn [run_stage caught_own] in *.
      - unfold _scrape_pracuj_selenium in Hok.
        by destruct (_scrape_pracuj_selenium_body py pg).
      - unfold _scrape_nofluff_selenium in Hok.
        by destruct (_scrape_nofluff_selenium_body pg).
      - unfold _extract_generic_info in Hok.
        by destruct (_extract_generic_info_body py sp url portal). }
    destruct c as [pg|pg|sp url portal|self url portal|self url portal].
    + unfold caught_in. by rewrite (Hbase (CallPracuj pg)).
    + unfold caught_in. by rewrite (Hbase (CallNofluff pg)).
    + unfold caught_in. by rewrite (Hbase (CallGeneric sp url portal)).
    + unfold caught_in. cbn [run_stage caught_own] in *. unfold scrape_with_selenium in Hs.
      destruct (driver self) as [d|] eqn:Hd; [|done].
      destruct (scrape_with_selenium_body py d url portal) as [r|e] eqn:Hbody; [|done].
      destruct (selenium_inner_call py self d url portal r Hd Hbody)
        as (inner & -> & -> & Hin & Hsel & Hq).
      cbn [raised]. rewrite (Hbase inner Hin Hsel Hq Hs).
      split; [done|]. intros ? ? ? [= -> _ _]. congruence.
    + unfold caught_in. cbn [run_stage caught_own] in *. unfold _scrape_with_requests in Hs.
      destruct (_scrape_with_requests_body py self url portal) as [r|e] eqn:Hbody; [|done].
      destruct (requests_inner_call py self url portal r Hbody)
        as (inner & -> & -> & Hin & Hsel & Hq).
      cbn [raised]. by rewrite (Hbase inner Hin Hsel Hq Hs).
  - split; [done|]. intros [Hnone Hdrv].
    destruct (call_failed py c Hs) as (msg & _ & Horigin). rewrite Hnone in Horigin.
    destruct Horigin as (_ & self & url & portal & -> & Hd). by destruct (Hdrv self url portal).
Qed.

(** C1, as the specification words it, fails when the exception that a
    stage catches has an empty text, as [MemoryError()] has when the parser
    runs out of memory on a fetched document: [str(e)] is stored as it is. *)
Lemma C1_empty_error_text :
  let too_large := {| html_parser := Raise (Exn MemoryError "") |} in
  let self := {| use_selenium := false; driver := None; session_get := serves too_large |} in
  let r := _scrape_with_requests py_plain self "https://example.org/jobs/1" "unknown" in
  get_success r = false /\ r !! "error" = Some (VStr "").
Proof. split; reflexivity. Qed.

(** C1 (amended): when a call of a stage of the pipeline (a portal
    strategy, the generic extractor, the selenium stage, the requests
    stage) returns a result with success=false, the result has an error
    field; it holds [str(e)] of the exception [e] that was caught during
    this call, by the stage itself or by the strategy or extractor that it
    called, and so is non-empty exactly when that text is; when no
    exception was caught, the call is one of the selenium stage without a
    driver and the field holds "Selenium not available". None of the
    content fields is present. *)
Theorem C1_failed_result (py : runtime) (c : stage_call) :
  get_success (run_stage py c) = false ->
  (exists msg,
     run_stage py c !! "error" = Some (VStr msg)
     /\ match caught_in py c with
        | Some e => msg = str_of e
        | None =>
            msg = "Selenium not available"
            /\ exists self url portal, c = CallSelenium self url portal /\ driver self = None
        end)
  /\ Forall (fun k => run_stage py c !! k = None) content_fields.
Proof.
  intros Hfail.
  destruct (call_failed py c Hfail) as (msg & [Hr | (portal & url & Hr)] & Horigin);
    rewrite Hr.
  - destruct (failure_fields msg) as (_ & Herr & Hnone). eauto.
  - destruct (failure_at_fields msg portal url) as (_ & Herr & Hnone). eauto.
Qed.

Lemma C1_failed_result_witness :
  let self := {| use_selenium := false; driver := None;
                 session_get := unreachable (Exn HTTPError "403 Client Error: Forbidden") |} in
  let c := CallRequests self "https://example.org/jobs/1" "unknown" in
  caught_in py_plain c = Some (Exn HTTPError "403 Client Error: Forbidden")
  /\ (exists msg,
        run_stage py_plain c !! "error" = Some (VStr msg)
        /\ match caught_in py_plain c with
           | Some e => msg = str_of e
           | None =>
               msg = "Selenium not available"
               /\ exists self url portal, c = CallSelenium self url portal /\ driver self = None
           end)
  /\ Forall (fun k => run_stage py_plain c !! k = None) content_fields.
Proof.
  intros self c. split; [reflexivity|].
  apply (C1_failed_result py_plain c). reflexivity.
Defined.

(** The exception may be one that the strategy caught, which the selenium
    stage passes on: here the nofluff strategy, whose wait for the title
    timed out. *)
Example failed_result_of_inner_strategy :
  let self := {| use_selenium := true; driver := Some (browser page_blank);
                 session_get := unreachable (Exn HTTPError "403 Client Error: Forbidden") |} in
  let c := CallSelenium self "https://nofluffjobs.com/job/x" "nofluff" in
  caught_own py_plain c = None
  /\ caught_in py_plain c = Some (Exn TimeoutException "Message: ")
  /\ run_stage py_plain c = failure "Message: ".
Proof. repeat split. Qed.

(** ** Success of a strategy and the title *)

Lemma generic_title_none (sp : soup) (tags : list string) :
  Forall (fun tag => select_one sp tag = Ok None) tags ->
  generic_title sp tags = Ok "N/A".
Proof.
  induction 1 as [|tag tags Htag _ IH]; simpl; [done|].
  rewrite Htag. by result_simpl.
Qed.

(** An [h1] with text is the title, whatever the other selectors give. *)
Lemma generic_title_h1 (sp : soup) (t : string) :
  select_one sp "h1" = Ok (Some t) -> strip t <> "" ->
  generic_title sp title_tags = Ok (strip t).
Proof.
  intros Hh1 Hne. unfold title_tags. cbn [generic_title]. rewrite Hh1. result_simpl.
  apply truthy_true in Hne. by rewrite Hne.
Qed.

Lemma generic_success py sp url portal title page_text :
  generic_title sp title_tags = Ok title ->
  get_text sp = Ok page_text ->
  _extract_generic_info py sp url portal !! "success" = Some (VBool true)
  /\ _extract_generic_info py sp url portal !! "title" = Some (VStr title).
Proof.
  intros Ht Hp. unfold _extract_generic_info, _extract_generic_info_body.
  rewrite Ht, Hp. result_simpl. by split.
Qed.

(** C7, as the specification words it, fails on a pracuj page where the
    wait for the title times out and no selector finds one: the strategy
    reports success with the title "N/A". *)
Lemma C7_success_without_title :
  _scrape_pracuj_selenium py_plain page_blank !! "success" = Some (VBool true)
  /\ _scrape_pracuj_selenium py_plain page_blank !! "title" = Some (VStr "N/A").
Proof. split; reflexivity. Qed.

(** The generic extractor does the same on a document without a title. *)
Example generic_success_without_title :
  _extract_generic_info py_plain
    {| select_one := fun _ => Ok None; get_text := Ok "" |}
    "https://example.org/jobs/1" "unknown" !! "title" = Some (VStr "N/A")
  /\ get_success (_extract_generic_info py_plain
       {| select_one := fun _ => Ok None; get_text := Ok "" |}
       "https://example.org/jobs/1" "unknown") = true.
Proof. split; reflexivity. Qed.

(** The nofluff strategy reports success with an empty title when the
    awaited element has no text. *)
Example nofluff_success_with_empty_title :
  _scrape_nofluff_selenium (page_lists "  " (fun _ => Ok [])) !! "success" = Some (VBool true)
  /\ _scrape_nofluff_selenium (page_lists "  " (fun _ => Ok [])) !! "title" = Some (VStr "").
Proof. split; reflexivity. Qed.

(** The skills step of the pracuj strategy raises only when the body of
    the page cannot be found or read. *)
Lemma extract_skills_ok_iff (py : runtime) (pg : page) (selectors : list string) :
  (exists skills, _extract_skills py pg selectors = Ok skills)
  <-> exists body t, find_element pg TAG_NAME "body" = Ok body /\ text body = Ok t.
Proof.
  unfold _extract_skills.
  destruct (find_element pg TAG_NAME "body") as [body|e]; result_simpl.
  - destruct (text body) as [t|e] eqn:Ht; result_simpl.
    + split; [intros _; by exists body, t | intros _; eauto].
    + split; [by intros [? ?] | intros (body' & t & [= <-] & Ht'); congruence].
  - split; [by intros [? ?] | by intros (? & ? & ? & _)].
Qed.

(** The title step of the pracuj strategy. *)
Lemma pracuj_title_spec (pg : page) (title : string) :
  let awaited :=
    title_elem ← wait_until_present pg ("[data-test=" +:+ quoted "text-offerTitle" +:+ "], h1");
    stripped_text title_elem in
  pracuj_title pg = Ok title
  <-> awaited = Ok title
      \/ exists e, awaited = Raise e /\ kind_of e = TimeoutException
                   /\ title = default "N/A" (_try_selectors pg pracuj_title_selectors).
Proof.
  intros awaited. unfold pracuj_title. fold awaited.
  destruct awaited as [t|e].
  - split; [by left | intros [H | (e & H & _)]; [done | discriminate H]].
  - destruct (kind_of e) eqn:Hk;
      (split; [intros H; try discriminate H | intros [H | (e' & [= <-] & Hk' & ->)]; try done;
               congruence]).
    injection H as <-. right. by exists e.
Qed.

Lemma pracuj_success_iff (py : runtime) (pg : page) :
  get_success (_scrape_pracuj_selenium py pg) = true
  <-> (exists title, pracuj_title pg = Ok title)
      /\ (exists body t, find_element pg TAG_NAME "body" = Ok body /\ text body = Ok t)
      /\ (exists url, current_url pg = Ok url).
Proof.
  rewrite <- (extract_skills_ok_iff py pg pracuj_skill_selectors).
  unfold _scrape_pracuj_selenium, _scrape_pracuj_selenium_body.
  destruct (pracuj_title pg) as [title|e]; result_simpl;
    [|split; [done | by intros [[? ?] _]]].
  destruct (_extract_skills py pg pracuj_skill_selectors) as [skills|e]; result_simpl;
    [|split; [done | by intros (_ & [? ?] & _)]].
  destruct (current_url pg) as [url|e]; result_simpl;
    [|split; [done | by intros (_ & _ & [? ?])]].
  split; [intros _; repeat split; eauto | done].
Qed.

Lemma generic_success_iff (py : runtime) (sp : soup) (url portal : string) :
  get_success (_extract_generic_info py sp url portal) = true
  <-> (exists title, generic_title sp title_tags = Ok title)
      /\ (exists page_text, get_text sp = Ok page_text).
Proof.
  unfold _extract_generic_info, _extract_generic_info_body.
  destruct (generic_title sp title_tags) as [title|e]; result_simpl;
    [|split; [done | by intros [[? ?] _]]].
  destruct (get_text sp) as [page_text|e]; result_simpl;
    [|split; [done | by intros (_ & [? ?])]].
  split; [intros _; repeat split; eauto | done].
Qed.

(** No title tag has text: none is found, or what is found is white
    space. *)
Lemma generic_title_blank (sp : soup) (tags : list string) :
  Forall (fun tag => select_one sp tag = Ok None
                     \/ exists t, select_one sp tag = Ok (Some t) /\ strip t = "") tags ->
  generic_title sp tags = Ok "N/A".
Proof.
  induction 1 as [|tag tags Htag _ IH]; simpl; [done|].
  destruct Htag as [-> | (t & -> & Ht)]; result_simpl; [done|]. by rewrite Ht.
Qed.

(** C7 (amended): no strategy tests the title before it reports success.
    - The pracuj strategy returns success=true exactly when its title step
      does not raise, the body of the page can be found and read, and
      [current_url] can be read. The title step gives the stripped text of
      the awaited element, or, when waiting for it or reading it raises
      [TimeoutException], the text of the first title selector that has
      one, or else "N/A"; any other exception escapes it. The title of a
      successful result is what the title step gave: so when the wait times
      out, no title selector has text, and the body and the URL can be
      read, the result is success=true with the title "N/A".
    - The generic extractor returns success=true exactly when neither its
      loop over the title tags nor [get_text] raises, with the title that
      the loop gave: "N/A" when no title tag has text.
    - The nofluff strategy returns success=false with [str(e)] as error
      when the wait for its title element raises [e]; the title of a
      successful result is the stripped text of the awaited element (which
      may be empty). *)
Theorem C7_strategy_success (py : runtime) :
  (forall pg : page,
     (get_success (_scrape_pracuj_selenium py pg) = true
      <-> (exists title, pracuj_title pg = Ok title)
          /\ (exists body t, find_element pg TAG_NAME "body" = Ok body /\ text body = Ok t)
          /\ (exists url, current_url pg = Ok url))
     /\ (forall title,
           let awaited :=
             title_elem ← wait_until_present pg
                            ("[data-test=" +:+ quoted "text-offerTitle" +:+ "], h1");
             stripped_text title_elem in
           pracuj_title pg = Ok title
           <-> awaited = Ok title
               \/ exists e, awaited = Raise e /\ kind_of e = TimeoutException
                            /\ title = default "N/A" (_try_selectors pg pracuj_title_selectors))
     /\ (forall title,
           get_success (_scrape_pracuj_selenium py pg) = true ->
           pracuj_title pg = Ok title ->
           _scrape_pracuj_selenium py pg !! "title" = Some (VStr title))
     /\ (forall e body t url,
           wait_until_present pg ("[data-test=" +:+ quoted "text-offerTitle" +:+ "], h1")
           = Raise e ->
           kind_of e = TimeoutException ->
           _try_selectors pg pracuj_title_selectors = None ->
           find_element pg TAG_NAME "body" = Ok body ->
           text body = Ok t ->
           current_url pg = Ok url ->
           _scrape_pracuj_selenium py pg !! "success" = Some (VBool true)
           /\ _scrape_pracuj_selenium py pg !! "title" = Some (VStr "N/A")))
  /\ (forall (sp : soup) (url portal : string),
        (get_success (_extract_generic_info py sp url portal) = true
         <-> (exists title, generic_title sp title_tags = Ok title)
             /\ (exists page_text, get_text sp = Ok page_text))
        /\ (forall title,
              get_success (_extract_generic_info py sp url portal) = true ->
              generic_title sp title_tags = Ok title ->
              _extract_generic_info py sp url portal !! "title" = Some (VStr title))
        /\ (forall page_text,
              Forall (fun tag => select_one sp tag = Ok None
                                 \/ exists t, select_one sp tag = Ok (Some t) /\ strip t = "")
                     title_tags ->
              get_text sp = Ok page_text ->
              _extract_generic_info py sp url portal !! "success" = Some (VBool true)
              /\ _extract_generic_info py sp url portal !! "title" = Some (VStr "N/A")))
  /\ (forall pg : page,
        (forall e,
           wait_until_present pg "h1, .posting-details-title" = Raise e ->
           _scrape_nofluff_selenium pg = failure (str_of e))
        /\ (get_success (_scrape_nofluff_selenium pg) = true ->
            exists title_elem title,
              wait_until_present pg "h1, .posting-details-title" = Ok title_elem
              /\ stripped_text title_elem = Ok title
              /\ _scrape_nofluff_selenium pg !! "title" = Some (VStr title))).
Proof.
  split; [|split].
  - intros pg. split; [apply pracuj_success_iff|]. split; [apply pracuj_title_spec|]. split.
    + intros title. unfold _scrape_pracuj_selenium.
      destruct (_scrape_pracuj_selenium_body py pg) as [r|e] eqn:Hbody; [|done].
      intros _ Ht. apply pracuj_ok_fields in Hbody as (title' & ? & Ht' & _ & _ & _ & Htitle & _).
      congruence.
    + intros e body t url Hwait Hkind Hsel Hbody Htext Hurl.
      assert (Ht : pracuj_title pg = Ok "N/A").
      { unfold pracuj_title. rewrite Hwait. result_simpl. by rewrite Hkind, Hsel. }
      unfold _scrape_pracuj_selenium, _scrape_pracuj_selenium_body, _extract_skills.
      rewrite Ht, Hbody. result_simpl. rewrite Htext. result_simpl. rewrite Hurl.
      result_simpl. by split.
  - intros sp url portal. split; [apply generic_success_iff|]. split.
    + intros title. unfold _extract_generic_info.
      destruct (_extract_generic_info_body py sp url portal) as [r|e] eqn:Hbody; [|done].
      intros _ Ht. apply generic_ok_fields in Hbody as (title' & ? & Ht' & _ & _ & _ & Htitle & _).
      congruence.
    + intros page_text Hblank Htext.
      apply (generic_success py sp url portal "N/A" page_text);
        [by apply generic_title_blank | done].
  - intros pg. split.
    + intros e Hwait. unfold _scrape_nofluff_selenium, _scrape_nofluff_selenium_body.
      rewrite Hwait. by result_simpl.
    + unfold _scrape_nofluff_selenium.
      destruct (_scrape_nofluff_selenium_body pg) as [r|e] eqn:Hbody; [|done].
      intros _. apply nofluff_ok_fields in Hbody
        as (title_elem & title & ? & ? & Hw & Ht & _ & _ & _ & _ & Htitle & _).
      by exists title_elem, title.
Qed.

Lemma C7_strategy_success_witness :
  (_scrape_pracuj_selenium py_plain page_blank !! "success" = Some (VBool true)
   /\ _scrape_pracuj_selenium py_plain page_blank !! "title" = Some (VStr "N/A"))
  /\ (let sp := {| select_one := fun sel => if String.eqb sel "h1" then Ok (Some "  ") else Ok None;
                   get_text := Ok "Python" |} in
      _extract_generic_info py_plain sp "https://example.org/jobs/1" "unknown" !! "success"
      = Some (VBool true)
      /\ _extract_generic_info py_plain sp "https://example.org/jobs/1" "unknown" !! "title"
         = Some (VStr "N/A"))
  /\ _scrape_nofluff_selenium page_blank = failure "Message: "
  /\ (let pg := page_lists "  " (fun _ => Ok []) in
      exists title_elem title,
        wait_until_present pg "h1, .posting-details-title" = Ok title_elem
        /\ stripped_text title_elem = Ok title
        /\ _scrape_nofluff_selenium pg !! "title" = Some (VStr title)).
Proof.
  split; [|split; [|split]].
  - apply (proj2 (proj2 (proj2 (proj1 (C7_strategy_success py_plain) page_blank)))
             (Exn TimeoutException "Message: ") (elem "") ""
             "https://www.pracuj.pl/praca/oferta"); reflexivity.
  - intros sp.
    apply (proj2 (proj2 (proj1 (proj2 (C7_strategy_success py_plain)) sp
                           "https://example.org/jobs/1" "unknown")) "Python");
      [|reflexivity].
    constructor; [right; by exists "  "|]. repeat (constructor; [by left|]). constructor.
  - apply (proj1 (proj2 (proj2 (C7_strategy_success py_plain)) page_blank)
             (Exn TimeoutException "Message: ")). reflexivity.
  - intros pg.
    apply (proj2 (proj2 (proj2 (C7_strategy_success py_plain)) pg)). reflexivity.
Defined.

(** ** The pipeline: [scrape_job] *)

(** The scenario of the specification: a page of an unlisted domain. *)
Example scrape_job_static_page :
  let r := scrape_job py_plain
    (init false timed_out (serves (doc_h1 "Senior Python Developer"
                                     "Senior Python Developer. 5+ years Python, Docker, AWS")))
    "https://example.org/jobs/1" in
  field "success" r = Some (VBool true)
  /\ field "portal" r = Some (VStr "unknown")
  /\ field "title" r = Some (VStr "Senior Python Developer")
  /\ field "skills" r = Some (VList ["Python"; "Docker"; "AWS"])
  /\ field "experience_level" r = Some (VStr "Senior").
Proof. repeat split. Qed.

(** Once the portal is known, [scrape_job] returns a result dict. *)
Lemma scrape_job_returns (py : runtime) (self : scraper) (url portal : string) :
  detect_portal py url = Ok portal ->
  exists r, scrape_job py self url = Ok r
    /\ (r = scrape_with_selenium py self url portal
        \/ r = _scrape_with_requests py self url portal).
Proof.
  intros Hp. unfold scrape_job. rewrite Hp. result_simpl.
  destruct (use_selenium self && rendered_portal portal); [|eauto].
  destruct (get_success _); eauto.
Qed.

(** Without selenium, [scrape_job] is the requests path. *)
Lemma scrape_job_no_selenium (py : runtime) (self : scraper) (url portal : string) :
  use_selenium self = false ->
  detect_portal py url = Ok portal ->
  scrape_job py self url = Ok (_scrape_with_requests py self url portal).
Proof. intros Hs Hp. unfold scrape_job. rewrite Hp, Hs. by result_simpl. Qed.

(** An exception of [detect_portal] leaves [scrape_job]. *)
Lemma scrape_job_raises (py : runtime) (self : scraper) (url : string) (e : exn) :
  urlparse_netloc py url = Raise e -> scrape_job py self url = Raise e.
Proof. intros He. unfold scrape_job, detect_portal. rewrite He. by result_simpl. Qed.

(** C6: the code does not do what the claim says. On a URL that [urlparse]
    rejects, here one with an unbalanced bracket, [scrape_job] raises
    [ValueError], whatever the scraper: [detect_portal] is called outside of
    the [try] blocks that turn every other error into a result. *)
Theorem C6_scrape_job_raises_on_bad_url (self : scraper) :
  scrape_job py_plain self "http://[" = Raise (Exn ValueError "Invalid IPv6 URL").
Proof. by apply scrape_job_raises. Qed.

(** ** The justjoin portal *)

Lemma selenium_justjoin_fails (py : runtime) (self : scraper) (url : string) :
  exists msg, scrape_with_selenium py self url "justjoin" = failure msg.
Proof.
  unfold scrape_with_selenium. destruct (driver self) as [d|]; [|eauto].
  unfold scrape_with_selenium_body.
  destruct (get d url) as [pg|e]; result_simpl; eauto.
Qed.

(** C10: for a URL classified as justjoin, with rendering enabled, the
    selenium stage returns a success=false result (when the page loads, its
    error is the [AttributeError] of the missing method
    [_scrape_justjoin_selenium]), and [scrape_job] returns the result of the
    requests path. *)
Theorem C10_justjoin_uses_requests (py : runtime) (self : scraper) (url : string) :
  use_selenium self = true ->
  detect_portal py url = Ok "justjoin" ->
  get_success (scrape_with_selenium py self url "justjoin") = false
  /\ (forall d pg,
        driver self = Some d -> get d url = Ok pg ->
        scrape_with_selenium py self url "justjoin"
        = failure "'AdvancedJobScraper' object has no attribute '_scrape_justjoin_selenium'")
  /\ scrape_job py self url = Ok (_scrape_with_requests py self url "justjoin").
Proof.
  intros Hsel Hp. split; [|split].
  - destruct (selenium_justjoin_fails py self url) as [msg ->]. apply get_success_failure.
  - intros d pg Hd Hget. unfold scrape_with_selenium, scrape_with_selenium_body.
    rewrite Hd, Hget. by result_simpl.
  - unfold scrape_job. rewrite Hp, Hsel. result_simpl.
    destruct (selenium_justjoin_fails py self url) as [msg ->].
    by rewrite get_success_failure.
Qed.

Lemma C10_justjoin_uses_requests_witness :
  let self := init true (Ok (browser page_blank))
                (serves (doc_h1 "Python Developer" "Python Developer. Django")) in
  let url := "https://justjoin.it/offers/python-developer" in
  get_success (scrape_with_selenium py_plain self url "justjoin") = false
  /\ (forall d pg,
        driver self = Some d -> get d url = Ok pg ->
        scrape_with_selenium py_plain self url "justjoin"
        = failure "'AdvancedJobScraper' object has no attribute '_scrape_justjoin_selenium'")
  /\ scrape_job py_plain self url = Ok (_scrape_with_requests py_plain self url "justjoin").
Proof.
  intros self url. apply (C10_justjoin_uses_requests py_plain self url); reflexivity.
Defined.

(** ** No rendering session *)

(** When [webdriver.Chrome] raises, the constructor still returns a
    scraper, with selenium switched off and no driver. *)
Lemma init_without_driver (e : exn) (session : string -> result response) :
  use_selenium (init true (Raise e) session) = false
  /\ driver (init true (Raise e) session) = None
  /\ session_get (init true (Raise e) session) = session.
Proof. by repeat split. Qed.

(** C8: when the driver cannot be created although rendering was asked
    for, the scraper is still built, with selenium off; [scrape_job] then
    goes through the requests path and the generic extractor, and when the
    fetched document parses and yields a title and its text, the result has
    success=true and that title. *)
Theorem C8_degrades_to_requests (py : runtime) (chrome_error : exn)
    (session : string -> result response) (url portal : string)
    (resp : response) (sp : soup) (title page_text : string) :
  let self := init true (Raise chrome_error) session in
  detect_portal py url = Ok portal ->
  session url = Ok resp ->
  raise_for_status resp = Ok tt ->
  html_parser (content resp) = Ok sp ->
  generic_title sp title_tags = Ok title ->
  get_text sp = Ok page_text ->
  use_selenium self = false
  /\ driver self = None
  /\ scrape_job py self url = Ok (_scrape_with_requests py self url portal)
  /\ _scrape_with_requests py self url portal = _extract_generic_info py sp url portal
  /\ _scrape_with_requests py self url portal !! "success" = Some (VBool true)
  /\ _scrape_with_requests py self url portal !! "title" = Some (VStr title).
Proof.
  intros self Hp Hget Hstatus Hparse Htitle Htext.
  assert (Hreq : _scrape_with_requests py self url portal
                 = _extract_generic_info py sp url portal).
  { unfold _scrape_with_requests, _scrape_with_requests_body. simpl.
    rewrite Hget. result_simpl. rewrite Hstatus. result_simpl.
    rewrite Hparse. result_simpl.
    unfold _extract_generic_info. by destruct (_extract_generic_info_body py sp url portal). }
  split; [done|]. split; [done|].
  split; [by apply scrape_job_no_selenium|].
  split; [done|]. rewrite Hreq. by apply (generic_success _ _ _ _ _ page_text).
Qed.

Lemma C8_degrades_to_requests_witness :
  let self := init true timed_out
                (serves (doc_h1 "Senior Python Developer" "Senior Python Developer. Docker")) in
  let url := "https://www.pracuj.pl/praca/python,oferta,1004294341" in
  use_selenium self = false
  /\ driver self = None
  /\ scrape_job py_plain self url = Ok (_scrape_with_requests py_plain self url "pracuj")
  /\ _scrape_with_requests py_plain self url "pracuj"
     = _extract_generic_info py_plain
         (soup_h1 "Senior Python Developer" "Senior Python Developer. Docker") url "pracuj"
  /\ _scrape_with_requests py_plain self url "pracuj" !! "success" = Some (VBool true)
  /\ _scrape_with_requests py_plain self url "pracuj" !! "title"
     = Some (VStr "Senior Python Developer").
Proof.
  intros self url.
  apply (C8_degrades_to_requests py_plain (Exn TimeoutException "Message: ")
           (serves (doc_h1 "Senior Python Developer" "Senior Python Developer. Docker"))
           url "pracuj"
           {| raise_for_status := Ok tt;
              content := doc_h1 "Senior Python Developer" "Senior Python Developer. Docker" |}
           (soup_h1 "Senior Python Developer" "Senior Python Developer. Docker")
           "Senior Python Developer" "Senior Python Developer. Docker"); reflexivity.
Defined.

(** ** Batches *)

(** The loop of [batch_scrape] stops at the first URL on which
    [scrape_job] raises, and otherwise appends one result per URL. *)
Lemma batch_loop_all (py : runtime) (self : scraper) (urls : list string)
    (results : list dict) :
  Forall (fun url => exists portal, detect_portal py url = Ok portal) urls ->
  exists rs,
    batch_loop py self urls results = Ok (results ++ rs)
    /\ Forall2 (fun url r => scrape_job py self url = Ok r) urls rs.
Proof.
  intros Hall. revert results.
  induction Hall as [|url urls [portal Hp] _ IH]; intros results; simpl.
  - exists []. by rewrite app_nil_r.
  - destruct (scrape_job_returns py self url portal Hp) as (r & Hr & _).
    rewrite Hr. result_simpl.
    destruct (IH (results ++ [r])) as (rs & -> & Hrs).
    exists (r :: rs). split; [by rewrite <- app_assoc | by constructor].
Qed.

(** When every URL has a portal, the batch has one result per URL, at the
    index of the URL, equal to what [scrape_job] returns for it. *)
Lemma batch_scrape_all (py : runtime) (self : scraper) (urls : list string) :
  Forall (fun url => exists portal, detect_portal py url = Ok portal) urls ->
  exists rs,
    batch_scrape py self urls = Ok rs
    /\ length rs = length urls
    /\ forall i url, urls !! i = Some url ->
         exists r, rs !! i = Some r /\ scrape_job py self url = Ok r.
Proof.
  intros Hall. destruct (batch_loop_all py self urls [] Hall) as (rs & Hrs & Hall2).
  exists rs. split; [exact Hrs|]. split; [symmetry; by eapply Forall2_length|].
  intros i url Hi. destruct (Forall2_lookup_l _ _ _ _ _ Hall2 Hi) as (r & ? & ?). eauto.
Qed.

(** One URL that [urlparse] rejects aborts the batch: the results of the
    URLs before it are lost and the URLs after it are never tried. *)
Lemma batch_scrape_aborts (py : runtime) (self : scraper)
    (pre post : list string) (url : string) (e : exn) :
  Forall (fun url => exists portal, detect_portal py url = Ok portal) pre ->
  urlparse_netloc py url = Raise e ->
  batch_scrape py self (pre ++ url :: post) = Raise e.
Proof.
  intros Hpre He. unfold batch_scrape. generalize (@nil dict).
  induction Hpre as [|u pre [portal Hp] _ IH]; intros results; simpl.
  - rewrite (scrape_job_raises py self url e He). by result_simpl.
  - destruct (scrape_job_returns py self u portal Hp) as (r & Hr & _).
    rewrite Hr. result_simpl. apply IH.
Qed.

(** *** The endpoint [batch_scrape_jobs] *)

(** A task that raised becomes a success=false entry at its index. *)
Lemma processed_failure (now url : string) (e : exn) :
  exists d, Api.processed now url (Raise e) = Api.Plain d
    /\ d !! "success" = Some (VBool false)
    /\ d !! "url" = Some (VStr url)
    /\ d !! "error" = Some (VStr (str_of e)).
Proof. eexists. repeat split. Qed.

(** Counting the successes raises as soon as one entry is a [JobData]. *)
Lemma count_if_model (default : bool) (l : list Api.entry) :
  (exists job, Api.Model job ∈ l) ->
  Api.count_if (Api.entry_get_success default) l
  = Raise (Exn AttributeError "'JobData' object has no attribute 'get'").
Proof.
  induction l as [|r rest IH]; intros [job Hin].
  - by apply elem_of_nil in Hin.
  - simpl. destruct r as [job'|d]; result_simpl; [done|].
    apply elem_of_cons in Hin as [Hin|Hin]; [done|].
    rewrite IH; [done | eauto].
Qed.

(** As soon as one task of the batch returns, the endpoint answers with
    status 500: the summary calls [get] on a [JobData] object. *)
Lemma batch_scrape_jobs_500 (py : runtime) (self : scraper) (now : string)
    (urls : list string) (max_concurrent : positive) (i : nat) (url : string)
    (job : Api.JobData) :
  length urls <= 20 ->
  urls !! i = Some url ->
  Api.scrape_single py self now url = Ok job ->
  Api.batch_scrape_jobs py (Some self) now urls max_concurrent
  = Api.HTTPException 500 "'JobData' object has no attribute 'get'".
Proof.
  intros Hlen Hi Hjob. unfold Api.batch_scrape_jobs, Api.batch_scrape_jobs_body.
  destruct (20 <? length urls) eqn:Hlt; [apply Nat.ltb_lt in Hlt; lia|].
  rewrite (count_if_model false); [by result_simpl|].
  exists job. apply list_elem_of_lookup. exists i.
  rewrite lookup_zip_with, Hi. simpl. rewrite list_lookup_fmap, Hi. simpl.
  by rewrite Hjob.
Qed.

Example batch_scrape_jobs_single_url :
  Api.batch_scrape_jobs py_plain
    (Some (init false timed_out (serves (doc_h1 "Python Developer" "Python Developer"))))
    "2025-08-25T12:00:00" ["https://example.org/jobs/1"] 3
  = Api.HTTPException 500 "'JobData' object has no attribute 'get'".
Proof. reflexivity. Qed.

(** [create_job_data] accepts every dict that a stage returns. *)
Lemma create_job_data_stage (py : runtime) (now : string) (r : dict) :
  stage_output py r -> exists job, Api.create_job_data now r = Ok job.
Proof.
  assert (Hf : forall msg, exists job, Api.create_job_data now (failure msg) = Ok job)
    by (intros; eexists; reflexivity).
  assert (Hfa : forall msg portal url,
            exists job, Api.create_job_data now (failure_at msg portal url) = Ok job)
    by (intros; eexists; reflexivity).
  assert (Hpracuj : forall pg, exists job,
            Api.create_job_data now (_scrape_pracuj_selenium py pg) = Ok job).
  { intros pg. unfold _scrape_pracuj_selenium, _scrape_pracuj_selenium_body.
    destruct (pracuj_title pg); result_simpl; [|apply Hf].
    destruct (_extract_skills py pg pracuj_skill_selectors); result_simpl; [|apply Hf].
    destruct (current_url pg); result_simpl; [|apply Hf].
    eexists. reflexivity. }
  assert (Hnofluff : forall pg, exists job,
            Api.create_job_data now (_scrape_nofluff_selenium pg) = Ok job).
  { intros pg. unfold _scrape_nofluff_selenium, _scrape_nofluff_selenium_body.
    destruct (wait_until_present pg _) as [title_elem|e]; result_simpl; [|apply Hf].
    destruct (stripped_text title_elem); result_simpl; [|apply Hf].
    destruct (find_element pg CSS_SELECTOR ".company-name, .posting-details-company")
      as [company_elem|e]; result_simpl; [|apply Hf].
    destruct (stripped_text company_elem); result_simpl; [|apply Hf].
    destruct (find_elements pg CSS_SELECTOR ".posting-technologies .technology")
      as [tech_elements|e]; result_simpl; [|apply Hf].
    destruct (nonempty_texts tech_elements); result_simpl; [|apply Hf].
    destruct (find_elements pg CSS_SELECTOR ".posting-requirements li")
      as [req_elements|e]; result_simpl; [|apply Hf].
    destruct (nonempty_texts req_elements); result_simpl; [|apply Hf].
    destruct (find_element pg CSS_SELECTOR ".posting-salary, .salary-range")
      as [salary_elem|e]; result_simpl; [|apply Hf].
    destruct (stripped_text salary_elem); result_simpl; [|apply Hf].
    destruct (current_url pg); result_simpl; [|apply Hf].
    eexists. reflexivity. }
  assert (Hgeneric : forall sp url portal, exists job,
            Api.create_job_data now (_extract_generic_info py sp url portal) = Ok job).
  { intros sp url portal. unfold _extract_generic_info, _extract_generic_info_body.
    destruct (generic_title sp title_tags); result_simpl; [|apply Hfa].
    destruct (get_text sp); result_simpl; [|apply Hfa].
    eexists. reflexivity. }
  intros [pg|pg|sp url portal|self url portal|self url portal]; [done..| |].
  - unfold scrape_with_selenium. destruct (driver self) as [d|]; [|apply Hf].
    destruct (scrape_with_selenium_body py d url portal) as [r'|e] eqn:Hbody; [|apply Hf].
    apply selenium_ok_inner in Hbody as [[pg ->]|[[pg ->]|[sp ->]]]; done.
  - unfold _scrape_with_requests.
    destruct (_scrape_with_requests_body py self url portal) as [r'|e] eqn:Hbody; [|apply Hfa].
    apply requests_ok_generic in Hbody as [sp ->]. done.
Qed.

(** With at most 20 URLs of which one at least is accepted by [urlparse],
    the endpoint answers with status 500, whatever the scraper. *)
Lemma batch_scrape_jobs_fails (py : runtime) (self : scraper) (now : string)
    (urls : list string) (max_concurrent : positive) (i : nat) (url portal : string) :
  length urls <= 20 ->
  urls !! i = Some url ->
  detect_portal py url = Ok portal ->
  Api.batch_scrape_jobs py (Some self) now urls max_concurrent
  = Api.HTTPException 500 "'JobData' object has no attribute 'get'".
Proof.
  intros Hlen Hi Hp.
  destruct (scrape_job_returns py self url portal Hp) as (r & Hr & Hstage).
  assert (Hout : stage_output py r) by (destruct Hstage as [-> | ->]; constructor).
  destruct (create_job_data_stage py now r Hout) as [job Hjob].
  apply (batch_scrape_jobs_500 py self now urls max_concurrent i url job Hlen Hi).
  unfold Api.scrape_single. rewrite Hr. by result_simpl.
Qed.

(** C5: the code does not do what the claim says. In a batch of five URLs
    whose fourth is rejected by [urlparse], [batch_scrape] raises
    [ValueError] and returns no list at all; the endpoint
    [batch_scrape_jobs], which does turn the exception of a task into a
    success=false entry, fails on the same batch with status 500 while it
    counts the successes. Both whatever the scraper. *)
Theorem C5_batch_is_not_isolated (self : scraper) (now : string) (max_concurrent : positive) :
  batch_scrape py_plain self batch_of_five = Raise (Exn ValueError "Invalid IPv6 URL")
  /\ Api.batch_scrape_jobs py_plain (Some self) now batch_of_five max_concurrent
     = Api.HTTPException 500 "'JobData' object has no attribute 'get'".
Proof.
  split.
  - apply (batch_scrape_aborts py_plain self
             [ "https://www.pracuj.pl/praca/python,oferta,1004294341";
               "https://nofluffjobs.com/job/python-developer-xyz";
               "https://example.org/jobs/1" ]
             [ "https://justjoin.it/offers/python-developer" ] "http://[").
    + constructor; [by exists "pracuj"|].
      constructor; [by exists "nofluff"|].
      constructor; [by exists "unknown" | constructor].
    + reflexivity.
  - apply (batch_scrape_jobs_fails py_plain self now batch_of_five max_concurrent
             0 "https://www.pracuj.pl/praca/python,oferta,1004294341" "pracuj").
    + simpl. lia.
    + reflexivity.
    + reflexivity.
Qed.

(** * Further properties of the engine *)

(** ** Substrings *)

Lemma contains_trans (a b c : string) :
  contains a b = true -> contains b c = true -> contains a c = true.
Proof.
  rewrite !contains_spec. intros (x & y & ->) (u & v & ->).
  exists (u +:+ x), (y +:+ v). by rewrite !append_assoc.
Qed.

(** ** Experience level, further *)

(** Membership in a list that is written out. *)
Ltac elem_solve := repeat first [apply list_elem_of_here | apply list_elem_of_further].


Lemma level_senior_iff (text : string) :
  _extract_experience_level text = "Senior"
  <-> any_word_in senior_words (lower text) = true.
Proof.
  split; [|apply level_senior].
  unfold _extract_experience_level.
  destruct (negb (truthy text)); [done|].
  destruct (any_word_in senior_words (lower text)); [done|].
  destruct (any_word_in junior_words (lower text)); [done|].
  by destruct (any_word_in mid_words (lower text)).
Qed.

(** X1: the classifier answers "Unknown" for the empty text and for no
    other text; every other text is "Senior", "Junior" or "Mid". *)
Theorem level_unknown_iff_empty (text : string) :
  (_extract_experience_level text = "Unknown" <-> text = "")
  /\ _extract_experience_level text ∈ ["Senior"; "Junior"; "Mid"; "Unknown"].
Proof.
  unfold _extract_experience_level. destruct text as [|c text].
  - split; [done | elem_solve].
  - cbn [truthy negb].
    destruct (any_word_in senior_words _); [split; [done | elem_solve]|].
    destruct (any_word_in junior_words _); [split; [done | elem_solve]|].
    destruct (any_word_in mid_words _); split; try done; elem_solve.
Qed.

(** X2: the classification ignores the case of the text. *)
Theorem level_ignores_case (text : string) :
  _extract_experience_level (lower text) = _extract_experience_level text.
Proof.
  unfold _extract_experience_level. by rewrite truthy_lower, lower_idemp.
Qed.

(** X3: text added before or after a text classified "Senior" never
    changes the classification. *)
Theorem level_senior_sticky (text before after : string) :
  _extract_experience_level text = "Senior" ->
  _extract_experience_level (before +:+ text +:+ after) = "Senior".
Proof.
  rewrite !level_senior_iff. unfold any_word_in. rewrite !existsb_exists.
  intros (w & Hw & Hc). exists w. split; [done|].
  apply lower_sticky; [|done].
  assert (Hall : forallb ascii_word senior_words = true) by (vm_compute; reflexivity).
  by apply (proj1 (forallb_forall _ _) Hall).
Qed.

Lemma level_senior_sticky_witness :
  _extract_experience_level ("Junior or " +:+ "Senior Developer" +:+ " (trainee welcome)")
  = "Senior".
Proof. apply level_senior_sticky. reflexivity. Defined.

(** ** Portal detection, further *)

Lemma match_portal_found (table : list (string * string)) (domain key portal : string) :
  (key, portal) ∈ table -> contains key domain = true ->
  exists key', (key', match_portal table domain) ∈ table /\ contains key' domain = true.
Proof.
  induction table as [|[k p] table IH]; intros Hin Hc; [by apply elem_of_nil in Hin|].
  simpl. destruct (contains k domain) eqn:Hk.
  - exists k. split; [left | done].
  - apply elem_of_cons in Hin as [[= -> ->] | Hin]; [congruence|].
    destruct (IH Hin Hc) as (key' & Hin' & Hc'). exists key'. split; [by right | done].
Qed.

Lemma portals_identifiers :
  Forall (fun kp : string * string =>
            kp.2 ∈ ["pracuj"; "indeed"; "nofluff"; "justjoin"; "protocol"; "bulldog"]
            /\ kp.2 <> "unknown") portals.
Proof. unfold portals. repeat (constructor; [split; [elem_solve | done]|]). constructor. Qed.

(** X4: the classifier answers with one of seven identifiers, and a host
    that contains a key of the table, in any letter case and at any
    place, is never "unknown". *)
Theorem detect_portal_range (py : runtime) (url netloc : string) :
  urlparse_netloc py url = Ok netloc ->
  (exists portal,
     detect_portal py url = Ok portal
     /\ portal ∈ ["pracuj"; "indeed"; "nofluff"; "justjoin"; "protocol"; "bulldog"; "unknown"])
  /\ (forall key portal before after,
        (key, portal) ∈ portals ->
        lower netloc = before +:+ key +:+ after ->
        detect_portal py url <> Ok "unknown").
Proof.
  intros Hn. unfold detect_portal. rewrite Hn. result_simpl. split.
  - eexists. split; [done|].
    destruct (match_portal_sound portals (lower netloc)) as [-> | (key & Hin & _)].
    + elem_solve.
    + apply (proj1 (Forall_forall _ _) portals_identifiers) in Hin as [Hin _].
      simpl in Hin. rewrite !elem_of_cons in *. tauto.
  - intros key portal before after Hin Heq.
    assert (Hc : contains key (lower netloc) = true) by (apply contains_spec; eauto).
    destruct (match_portal_found portals (lower netloc) key portal Hin Hc)
      as (key' & Hin' & _).
    apply (proj1 (Forall_forall _ _) portals_identifiers) in Hin' as [_ Hne].
    intros [= Heq']. by apply Hne.
Qed.

Lemma detect_portal_range_witness :
  (exists portal,
     detect_portal py_plain "https://Praca.Pracuj.PL:443/oferta" = Ok portal
     /\ portal ∈ ["pracuj"; "indeed"; "nofluff"; "justjoin"; "protocol"; "bulldog"; "unknown"])
  /\ detect_portal py_plain "https://Praca.Pracuj.PL:443/oferta" <> Ok "unknown".
Proof.
  destruct (detect_portal_range py_plain "https://Praca.Pracuj.PL:443/oferta"
              "Praca.Pracuj.PL:443" eq_refl) as [Hrange Hknown].
  split; [exact Hrange|].
  apply (Hknown "pracuj.pl" "pracuj" "praca." ":443"); [by left | reflexivity].
Defined.

(** ** Scalar fields: [_try_selectors] *)

(** X5: [_try_selectors] gives the stripped text of the first selector
    whose element can be found and read and has text: what it returns is
    never empty, and it returns nothing exactly when no selector has text. *)
Theorem try_selectors_first_text (pg : page) (selectors : list string) :
  (forall t, _try_selectors pg selectors = Some t ->
     t <> ""
     /\ exists pre sel post elem,
          selectors = pre ++ sel :: post
          /\ _try_selectors pg pre = None
          /\ find_element pg CSS_SELECTOR sel = Ok elem
          /\ stripped_text elem = Ok t)
  /\ (_try_selectors pg selectors = None <->
      forall sel elem t,
        sel ∈ selectors ->
        find_element pg CSS_SELECTOR sel = Ok elem ->
        stripped_text elem = Ok t -> t = "").
Proof.
  induction selectors as [|sel rest [IHsome IHnone]].
  - split; [done|]. split; [intros _ sel elem t Hin; by apply elem_of_nil in Hin | done].
  - cbn [_try_selectors].
    destruct (find_element pg CSS_SELECTOR sel) as [elem|e] eqn:Hfind; result_simpl.
    + destruct (stripped_text elem) as [t|e] eqn:Htext.
      * destruct (truthy t) eqn:Ht.
        -- split.
           ++ intros t' [= <-]. split; [by apply truthy_true|].
              by exists [], sel, rest, elem.
           ++ split; [done|]. intros Hall.
              apply truthy_true in Ht. destruct Ht.
              apply (Hall sel elem t); [left | done | done].
        -- apply truthy_false in Ht as ->. split.
           ++ intros t' Hsome. destruct (IHsome t' Hsome)
                as (Hne & pre & sel' & post & elem' & -> & Hpre & Hf & Hs).
              split; [done|]. exists (sel :: pre), sel', post, elem'.
              split; [done|]. split; [|done].
              cbn [_try_selectors]. rewrite Hfind. result_simpl. by rewrite Htext.
           ++ rewrite IHnone. split.
              ** intros Hall sel' elem' t' Hin Hf Hs.
                 apply elem_of_cons in Hin as [->|Hin]; [congruence | eauto].
              ** intros Hall sel' elem' t' Hin. apply Hall. by right.
      * split.
        -- intros t' Hsome. destruct (IHsome t' Hsome)
             as (Hne & pre & sel' & post & elem' & -> & Hpre & Hf & Hs).
           split; [done|]. exists (sel :: pre), sel', post, elem'.
           split; [done|]. split; [|done].
           cbn [_try_selectors]. rewrite Hfind. result_simpl. by rewrite Htext.
        -- rewrite IHnone. split.
           ++ intros Hall sel' elem' t' Hin Hf Hs.
              apply elem_of_cons in Hin as [->|Hin]; [congruence | eauto].
           ++ intros Hall sel' elem' t' Hin. apply Hall. by right.
    + split.
      * intros t' Hsome. destruct (IHsome t' Hsome)
          as (Hne & pre & sel' & post & elem' & -> & Hpre & Hf & Hs).
        split; [done|]. exists (sel :: pre), sel', post, elem'.
        split; [done|]. split; [|done].
        cbn [_try_selectors]. rewrite Hfind. by result_simpl.
      * rewrite IHnone. split.
        -- intros Hall sel' elem' t' Hin Hf Hs.
           apply elem_of_cons in Hin as [->|Hin]; [congruence | eauto].
        -- intros Hall sel' elem' t' Hin. apply Hall. by right.
Qed.

Lemma try_selectors_first_text_witness :
  let pg := {|
    wait_until_present := fun _ => timed_out;
    find_element := fun _ sel =>
      if String.eqb sel ".company-name" then Ok (elem "   ")
      else if String.eqb sel "h2" then Ok (elem " Tech Company Sp. z o.o. ")
      else no_such_element;
    find_elements := fun _ _ => Ok [];
    page_source := Ok (doc_h1 "" "");
    current_url := Ok "https://www.pracuj.pl/praca/oferta" |} in
  "Tech Company Sp. z o.o." <> ""
  /\ exists pre sel post elem,
       pracuj_company_selectors = pre ++ sel :: post
       /\ _try_selectors pg pre = None
       /\ find_element pg CSS_SELECTOR sel = Ok elem
       /\ stripped_text elem = Ok "Tech Company Sp. z o.o.".
Proof.
  intros pg.
  apply (proj1 (try_selectors_first_text pg pracuj_company_selectors)). reflexivity.
Defined.

(** ** List fields, further *)

Lemma selector_loop_empty accept pg selectors items :
  (selector_loop accept pg selectors items).1 = [] ->
  (selector_loop accept pg selectors items).2 = selectors.
Proof.
  revert items. induction selectors as [|sel rest IH]; intros items; simpl; [done|].
  assert (Hcont : forall items',
    (let '(final, queried) := selector_loop accept pg rest items' in
     (final, sel :: queried)).1 = [] ->
    (let '(final, queried) := selector_loop accept pg rest items' in
     (final, sel :: queried)).2 = sel :: rest).
  { intros items'. specialize (IH items').
    destruct (selector_loop accept pg rest items') as [final queried].
    simpl in *. intros Hf. by rewrite IH. }
  destruct (find_elements pg CSS_SELECTOR sel) as [elements|e]; [|apply Hcont].
  destruct (collect_texts accept elements items) as [items' [e|]]; [apply Hcont|].
  destruct items'; [apply Hcont | done].
Qed.

(** X6: [_extract_list_items] queries the selectors in their order,
    without skipping one, and gives up only after the last: the selectors
    queried are a prefix of the list, and when the result is empty all of
    them were queried. *)
Theorem list_items_queries_in_order (pg : page) (selectors : list string) :
  (_extract_list_items_trace pg selectors).2 `prefix_of` selectors
  /\ (_extract_list_items pg selectors = [] ->
      (_extract_list_items_trace pg selectors).2 = selectors).
Proof.
  unfold _extract_list_items, _extract_list_items_trace.
  pose proof (selector_loop_queried_prefix list_item_ok pg selectors []) as Hpre.
  pose proof (selector_loop_empty list_item_ok pg selectors []) as Hall.
  destruct (selector_loop list_item_ok pg selectors []) as [items queried].
  simpl in *. split; [done|]. intros Hnil. apply Hall.
  destruct items; [done | discriminate Hnil].
Qed.

Lemma list_items_queries_in_order_witness :
  (_extract_list_items_trace page_blank pracuj_req_selectors).2 = pracuj_req_selectors.
Proof.
  apply (proj2 (list_items_queries_in_order page_blank pracuj_req_selectors)). reflexivity.
Defined.

(** ** Skills of a rendered page: [_extract_skills] *)

Lemma skill_ok_spec (s : string) :
  skill_ok s = true <-> s <> "" /\ len s < 50 /\ existsb isdigit (chars s) = false.
Proof.
  unfold skill_ok. rewrite !andb_true_iff, truthy_true, Nat.ltb_lt, negb_true_iff. tauto.
Qed.

Lemma lexicon_skill_ok : Forall (fun k => skill_ok k = true) _get_tech_keywords.
Proof.
  assert (Hall : forallb skill_ok _get_tech_keywords = true) by (vm_compute; reflexivity).
  apply Forall_forall. intros k Hk. apply list_elem_of_In in Hk.
  by apply (proj1 (forallb_forall _ _) Hall).
Qed.

(** The test counts characters and knows the digits of every script. *)
Example skill_ok_unicode :
  len "Zażółć gęślą jaźń — zażółć gęślą jaźń — zażółć XY" = 49
  /\ String.length "Zażółć gęślą jaźń — zażółć gęślą jaźń — zażółć XY" = 75
  /\ skill_ok "Zażółć gęślą jaźń — zażółć gęślą jaźń — zażółć XY" = true
  /\ skill_ok "Python ٣" = false
  /\ skill_ok "Python ²" = false.
Proof. repeat split; vm_compute; reflexivity. Qed.

(** X7: no skill of a rendered page is empty, has 50 characters or more,
    or contains a character that is a digit ([str.isdigit]). *)
Theorem extract_skills_shape (py : runtime) (pg : page) (selectors skills : list string) :
  set_semantics py ->
  _extract_skills py pg selectors = Ok skills ->
  Forall (fun s => s <> "" /\ len s < 50 /\ existsb isdigit (chars s) = false) skills.
Proof.
  intros Hset Hsk.
  destruct (extract_skills_spec py pg selectors skills Hset Hsk) as (_ & _ & Hall).
  eapply Forall_impl; [exact Hall|]. intros s [Hs|Hs]; apply skill_ok_spec; [done|].
  by apply (proj1 (Forall_forall _ _) lexicon_skill_ok).
Qed.

Lemma extract_skills_shape_witness :
  Forall (fun s => s <> "" /\ len s < 50 /\ existsb isdigit (chars s) = false)
    ["Django"; "Zażółć"; "Flask"].
Proof.
  apply (extract_skills_shape py_plain
           (page_with "Dev" ["Django"; "Python 3"; "Zażółć"; "Python ²"; "Flask"])
           pracuj_skill_selectors ["Django"; "Zażółć"; "Flask"] py_plain_set_semantics).
  vm_compute. reflexivity.
Defined.

(** The keyword loop keeps what it was given and adds every keyword that
    occurs in the page text. *)
Lemma keyword_loop_complete (page_text : string) (kws acc : list string) :
  let result :=
    fold_left
      (fun skills keyword =>
         if contains (lower keyword) page_text && negb (bool_decide (keyword ∈ skills))
         then skills ++ [keyword] else skills) kws acc in
  (forall s, s ∈ acc -> s ∈ result)
  /\ (forall k, k ∈ kws -> contains (lower k) page_text = true -> k ∈ result).
Proof.
  revert acc. induction kws as [|k kws IH]; intros acc; simpl.
  - split; [done | intros k Hk; by apply elem_of_nil in Hk].
  - set (acc' := if _ && _ then acc ++ [k] else acc).
    destruct (IH acc') as [Hkeep Hadd].
    assert (Hacc : forall s, s ∈ acc -> s ∈ acc').
    { intros s Hs. subst acc'. destruct (_ && _); [|done].
      apply elem_of_app. by left. }
    split; [eauto|].
    intros k' Hin Hc. apply elem_of_cons in Hin as [->|Hin]; [|eauto].
    apply Hkeep. subst acc'. rewrite Hc. cbn [andb].
    destruct (bool_decide (k ∈ acc)) eqn:Hd; cbn [negb].
    + by apply bool_decide_eq_true in Hd.
    + apply elem_of_app. right. by left.
Qed.

(** X8: as long as fewer than 15 skills come out, none was dropped: every
    accepted tag text and every lexicon keyword that occurs in the text of
    the page, in any letter case, is among them. *)
Theorem extract_skills_complete_below_cap (py : runtime) (pg : page)
    (selectors skills : list string) (body : element) (t : string) :
  set_semantics py ->
  find_element pg TAG_NAME "body" = Ok body ->
  text body = Ok t ->
  _extract_skills py pg selectors = Ok skills ->
  length skills < 15 ->
  (forall s, s ∈ (selector_loop skill_ok pg selectors []).1 -> s ∈ skills)
  /\ (forall k, k ∈ _get_tech_keywords -> contains (lower k) (lower t) = true -> k ∈ skills).
Proof.
  intros Hset Hbody Htext. unfold _extract_skills. rewrite Hbody. result_simpl.
  rewrite Htext. result_simpl. intros [= <-] Hlen.
  set (found := (selector_loop skill_ok pg selectors []).1) in *.
  set (all := list_of_set py (add_keywords (lower t) found)) in *.
  assert (Hall : take 15 all = all).
  { apply take_ge. rewrite length_take in Hlen. lia. }
  rewrite Hall. destruct (Hset (add_keywords (lower t) found)) as [_ Hin]. fold all in Hin.
  destruct (keyword_loop_complete (lower t) _get_tech_keywords found) as [Hkeep Hadd].
  split; intros x Hx; [|intros Hc]; apply Hin; [by apply Hkeep | by apply Hadd].
Qed.

Lemma extract_skills_complete_below_cap_witness :
  let pg := {|
    wait_until_present := fun _ => Ok (elem "Dev");
    find_element := fun _ _ => Ok (elem "We use DOCKER and aws daily");
    find_elements := fun _ sel =>
      if String.eqb sel ".skill-tag" then Ok [elem "Django"; elem "Flask"] else Ok [];
    page_source := Ok (doc_h1 "" "");
    current_url := Ok "https://www.pracuj.pl/praca/oferta" |} in
  let skills := ["Django"; "Flask"; "Docker"; "AWS"] in
  (forall s, s ∈ (selector_loop skill_ok pg pracuj_skill_selectors []).1 -> s ∈ skills)
  /\ (forall k, k ∈ _get_tech_keywords ->
        contains (lower k) (lower "We use DOCKER and aws daily") = true -> k ∈ skills).
Proof.
  intros pg skills.
  apply (extract_skills_complete_below_cap py_plain pg pracuj_skill_selectors skills
           (elem "We use DOCKER and aws daily") "We use DOCKER and aws daily"
           py_plain_set_semantics);
    [reflexivity | reflexivity | reflexivity | vm_compute; lia].
Defined.

(** X9: the pracuj strategy needs the body of the page: when the element
    [body] cannot be found, the call fails with that exception although
    the title was found. *)
Theorem pracuj_needs_body (py : runtime) (pg : page) (title : string) (e : exn) :
  pracuj_title pg = Ok title ->
  find_element pg TAG_NAME "body" = Raise e ->
  _scrape_pracuj_selenium py pg = failure (str_of e).
Proof.
  intros Ht Hbody. unfold _scrape_pracuj_selenium, _scrape_pracuj_selenium_body.
  rewrite Ht. result_simpl. unfold _extract_skills. rewrite Hbody. by result_simpl.
Qed.

Lemma pracuj_needs_body_witness :
  let pg := {|
    wait_until_present := fun _ => Ok (elem "Senior Python Developer");
    find_element := fun _ _ => no_such_element;
    find_elements := fun _ _ => Ok [elem "Django"];
    page_source := Ok (doc_h1 "" "");
    current_url := Ok "https://www.pracuj.pl/praca/oferta" |} in
  _scrape_pracuj_selenium py_plain pg
  = failure "Message: no such element: Unable to locate element".
Proof.
  intros pg.
  apply (pracuj_needs_body py_plain pg "Senior Python Developer"
           (Exn NoSuchElementException "Message: no such element: Unable to locate element"));
    reflexivity.
Defined.

(** ** Skills of a text: [_extract_skills_from_text] *)

Lemma elem_of_filter_bool {A} (f : A -> bool) (l : list A) (x : A) :
  x ∈ List.filter f l <-> x ∈ l /\ f x = true.
Proof. rewrite !list_elem_of_In. apply filter_In. Qed.

(** An element that stands before another one is cut later. *)
Lemma take_keeps_earlier {A} (n : nat) (a b c : list A) (x y : A) :
  NoDup (a ++ x :: b ++ y :: c) ->
  y ∈ take n (a ++ x :: b ++ y :: c) ->
  x ∈ take n (a ++ x :: b ++ y :: c).
Proof.
  intros Hnd Hy. apply elem_of_take in Hy as (i & Hi & Hlt).
  assert (Hyi : (a ++ x :: b ++ y :: c) !! (length a + S (length b)) = Some y).
  { rewrite lookup_app_r by lia. replace (length a + S (length b) - length a) with (S (length b)) by lia.
    simpl. rewrite lookup_app_r by lia. by replace (length b - length b) with 0 by lia. }
  assert (i = length a + S (length b)) as -> by (eapply NoDup_lookup; eauto).
  apply elem_of_take. exists (length a). split; [|lia].
  rewrite lookup_app_r by lia. by replace (length a - length a) with 0 by lia.
Qed.

(** X10: the skills of a text are lexicon keywords that occur in it, in any
    letter case; and as long as fewer than 15 come out, every lexicon
    keyword that occurs in the text is among them. *)
Theorem skills_from_text_sound_complete (text : string) :
  (forall k, k ∈ _extract_skills_from_text text ->
     k ∈ _get_tech_keywords /\ contains (lower k) (lower text) = true)
  /\ (length (_extract_skills_from_text text) < 15 ->
      forall k, k ∈ _get_tech_keywords -> contains (lower k) (lower text) = true ->
        k ∈ _extract_skills_from_text text).
Proof.
  unfold _extract_skills_from_text. destruct text as [|c text]; cbn [truthy negb].
  - split; [intros k Hk; by apply elem_of_nil in Hk|].
    intros _ k Hk Hc. exfalso. revert Hc.
    assert (Hne : k <> "").
    { apply (proj1 (Forall_forall _ _) lexicon_skill_ok), skill_ok_spec in Hk. tauto. }
    assert (Hl : lower k <> "").
    { apply truthy_true. rewrite truthy_lower. by apply truthy_true. }
    change (lower "") with "". destruct (lower k); [done | discriminate].
  - set (found := List.filter _ _). split.
    + intros k Hk. eapply elem_of_sublist in Hk; [|apply sublist_take].
      subst found. by apply elem_of_filter_bool in Hk.
    + intros Hlen k Hk Hc. rewrite take_ge by (rewrite length_take in Hlen; lia).
      by apply elem_of_filter_bool.
Qed.

Lemma skills_from_text_sound_complete_witness :
  length (_extract_skills_from_text "Senior Python Developer. Docker, AWS") < 15
  /\ "Docker" ∈ _extract_skills_from_text "Senior Python Developer. Docker, AWS".
Proof.
  assert (Hlen : length (_extract_skills_from_text "Senior Python Developer. Docker, AWS") < 15)
    by (vm_compute; lia).
  split; [exact Hlen|].
  apply (proj2 (skills_from_text_sound_complete "Senior Python Developer. Docker, AWS") Hlen);
    [elem_solve | reflexivity].
Defined.

(** X11: the lexicon is searched by substring, so a keyword whose
    lower-cased name occurs inside the name of a keyword that stands later
    in the lexicon (Go in Django and in MongoDB, Java in JavaScript) comes
    with it: whenever the later one is reported, the earlier one is. *)
Theorem skills_from_text_substring_closed (text : string) (pre mid post : list string)
    (k1 k2 : string) :
  _get_tech_keywords = pre ++ k1 :: mid ++ k2 :: post ->
  contains (lower k1) (lower k2) = true ->
  k2 ∈ _extract_skills_from_text text ->
  k1 ∈ _extract_skills_from_text text.
Proof.
  intros Hlex Hsub. unfold _extract_skills_from_text.
  destruct (negb (truthy text)); [intros H; by apply elem_of_nil in H|]. rewrite Hlex.
  set (f := fun skill => contains (lower skill) (lower text)).
  intros H2.
  assert (Hf2 : f k2 = true).
  { eapply elem_of_sublist in H2; [|apply sublist_take].
    apply elem_of_filter_bool in H2. tauto. }
  assert (Hf1 : f k1 = true) by (unfold f in *; by eapply contains_trans).
  assert (Hsplit : List.filter f (pre ++ k1 :: mid ++ k2 :: post)
                   = List.filter f pre ++ k1 :: List.filter f mid ++ k2 :: List.filter f post).
  { rewrite List.filter_app. cbn [List.filter]. rewrite Hf1.
    rewrite List.filter_app. cbn [List.filter]. by rewrite Hf2. }
  rewrite Hsplit in *. apply take_keeps_earlier; [|done].
  rewrite <- Hsplit. eapply sublist_NoDup; [|apply filter_sublist].
  rewrite <- Hlex. apply tech_keywords_NoDup.
Qed.

(** A page that mentions Django is reported to ask for Go. *)
Lemma skills_from_text_substring_closed_witness :
  "Go" ∈ _extract_skills_from_text "Backend developer (Django)".
Proof.
  apply (skills_from_text_substring_closed "Backend developer (Django)"
           ["Python"; "Java"; "JavaScript"; "TypeScript"; "C#"; "C++"; "PHP"; "Ruby"]
           ["Rust"; "Kotlin"; "React"; "Angular"; "Vue"]
           [ "Flask"; "Spring"; "Node.js"; "Express"; "FastAPI";
             "MySQL"; "PostgreSQL"; "MongoDB"; "Redis"; "ElasticSearch"; "SQLite";
             "Docker"; "Kubernetes"; "AWS"; "Azure"; "GCP"; "Jenkins"; "GitLab"; "GitHub";
             "Git"; "CI/CD"; "Linux"; "Ubuntu"; "Nginx"; "Apache";
             "Scrum"; "Agile"; "REST"; "API"; "GraphQL"; "Microservices";
             "HTML"; "CSS"; "SASS"; "Bootstrap"; "Tailwind"; "jQuery"; "Webpack" ]
           "Go" "Django"); [reflexivity | reflexivity | vm_compute; elem_solve].
Defined.

(** For a pair in the other order the cut at 15 can separate the two: Git
    stands after GitHub in the lexicon, and is dropped here although its
    letters are in the text. *)
Example skills_cut_drops_contained :
  let text := "Python, TypeScript, PHP, Ruby, Rust, Kotlin, React, Angular, Vue, Flask, Spring, MySQL, Redis, Docker, GitHub" in
  contains (lower "Git") (lower text) = true
  /\ _extract_skills_from_text text
     = [ "Python"; "TypeScript"; "PHP"; "Ruby"; "Rust"; "Kotlin"; "React"; "Angular"; "Vue";
         "Flask"; "Spring"; "MySQL"; "Redis"; "Docker"; "GitHub" ].
Proof. split; vm_compute; reflexivity. Qed.

(** X12: the skills of a text do not depend on its letter case. *)
Theorem skills_from_text_ignores_case (text : string) :
  _extract_skills_from_text (lower text) = _extract_skills_from_text text.
Proof. unfold _extract_skills_from_text. by rewrite truthy_lower, lower_idemp. Qed.

(** ** Requirements of a text: [_extract_requirements_from_text] *)

Lemma requirement_ok_bounds (req : string) :
  requirement_ok req = true <-> req <> "" /\ 10 < len req < 150.
Proof.
  unfold requirement_ok. rewrite !andb_true_iff, truthy_true, !Nat.ltb_lt. tauto.
Qed.

Lemma Forall_flat_map_intro {A B} (P : B -> Prop) (f : A -> list B) (l : list A) :
  (forall x, x ∈ l -> Forall P (f x)) -> Forall P (flat_map f l).
Proof.
  induction l as [|x l IH]; intros Hf; simpl; [constructor|].
  apply Forall_app. split; [apply Hf; by left|].
  apply IH. intros y Hy. apply Hf. by right.
Qed.

(** X13: whatever the regular expressions find, every requirement taken
    from a text has more than 10 and fewer than 150 characters and is the
    stripped form of a piece into which a match of one of the patterns was
    split; and the empty text has no requirement. *)
Theorem requirements_from_text_bounds (py : runtime) (text : string) :
  Forall (fun req =>
            10 < len req < 150
            /\ exists pattern m piece,
                 pattern ∈ requirement_patterns
                 /\ m ∈ re_findall py pattern text
                 /\ piece ∈ re_split py requirement_separators m
                 /\ req = strip piece)
         (_extract_requirements_from_text py text)
  /\ (text = "" -> _extract_requirements_from_text py text = []).
Proof.
  unfold _extract_requirements_from_text. split; [|by intros ->].
  destruct (negb (truthy text)); [constructor|].
  apply Forall_take, Forall_flat_map_intro. intros pattern Hpattern.
  apply Forall_flat_map_intro. intros m Hm.
  apply Forall_forall. intros req Hreq.
  apply elem_of_filter_bool in Hreq as [Hreq Hok].
  apply requirement_ok_bounds in Hok as [_ Hlen]. split; [done|].
  apply list_elem_of_fmap in Hreq as (piece & -> & Hpiece).
  by exists pattern, m, piece.
Qed.

Lemma requirements_from_text_bounds_witness :
  _extract_requirements_from_text py_requirements posting_text
  = ["5+ years of Python"; "knowledge of AWS services"]
  /\ Forall (fun req =>
               10 < len req < 150
               /\ exists pattern m piece,
                    pattern ∈ requirement_patterns
                    /\ m ∈ re_findall py_requirements pattern posting_text
                    /\ piece ∈ re_split py_requirements requirement_separators m
                    /\ req = strip piece)
            ["5+ years of Python"; "knowledge of AWS services"]
  /\ _extract_requirements_from_text py_requirements "" = [].
Proof.
  split; [vm_compute; reflexivity|]. split.
  - exact (proj1 (requirements_from_text_bounds py_requirements posting_text)).
  - apply (proj2 (requirements_from_text_bounds py_requirements "")). reflexivity.
Defined.

(** ** Results of the generic extractor and of the requests stage *)

(** The requests stage, and the generic extractor under it, answer with
    the portal and the URL they were given. *)
Lemma requests_echo (py : runtime) (self : scraper) (url portal : string) :
  _scrape_with_requests py self url portal !! "portal" = Some (VStr portal)
  /\ _scrape_with_requests py self url portal !! "url" = Some (VStr url).
Proof.
  unfold _scrape_with_requests.
  destruct (_scrape_with_requests_body py self url portal) as [r|e] eqn:Hbody;
    [|by split].
  apply requests_ok_generic in Hbody as [sp ->].
  unfold _extract_generic_info, _extract_generic_info_body.
  destruct (generic_title sp title_tags) as [title|e]; result_simpl; [|by split].
  destruct (get_text sp) as [page_text|e]; result_simpl; by split.
Qed.

(** X14: whether it succeeds or not, the requests stage (and the generic
    extractor under it) answers with the portal and the URL it was given;
    and a successful result has "N/A" for company, location and salary and
    as description the first 1000 characters of the text of the page, the
    whole text when it has no more. *)
Theorem requests_result_echo (py : runtime) (self : scraper) (url portal : string) :
  let r := _scrape_with_requests py self url portal in
  r !! "portal" = Some (VStr portal)
  /\ r !! "url" = Some (VStr url)
  /\ (get_success r = true ->
      r !! "company" = Some (VStr "N/A")
      /\ r !! "location" = Some (VStr "N/A")
      /\ r !! "salary" = Some (VStr "N/A")
      /\ exists sp page_text description,
           inner_call (CallRequests self url portal) = Some (CallGeneric sp url portal)
           /\ get_text sp = Ok page_text
           /\ r !! "description" = Some (VStr description)
           /\ description = prefix 1000 page_text
           /\ len description = min 1000 (len page_text)
           /\ (len page_text <= 1000 -> description = page_text)).
Proof.
  intros r. subst r. destruct (requests_echo py self url portal) as [Hp Hu].
  split; [done|]. split; [done|]. clear Hp Hu.
  unfold _scrape_with_requests, _scrape_with_requests_body. cbn [inner_call].
  destruct (session_get self url) as [resp|e]; result_simpl; [|done].
  destruct (raise_for_status resp) as [[]|e]; result_simpl; [|done].
  destruct (html_parser (content resp)) as [sp|e]; result_simpl; [|done].
  unfold _extract_generic_info, _extract_generic_info_body.
  destruct (generic_title sp title_tags) as [title|e]; result_simpl; [|done].
  destruct (get_text sp) as [page_text|e] eqn:Htext; result_simpl; [|done].
  intros _. split; [done|]. split; [done|]. split; [done|].
  exists sp, page_text, (prefix 1000 page_text).
  split; [done|]. split; [done|]. split; [done|]. split; [done|].
  split; [apply len_prefix | apply prefix_all].
Qed.

Lemma requests_result_echo_witness :
  let self := init false timed_out
                (serves (doc_h1 "Python Developer" (times 1200 "ż"))) in
  let r := _scrape_with_requests py_plain self "https://example.org/jobs/1" "unknown" in
  (len (times 1200 "ż") = 1200 /\ r !! "description" = Some (VStr (times 1000 "ż")))
  /\ r !! "company" = Some (VStr "N/A")
  /\ r !! "location" = Some (VStr "N/A")
  /\ r !! "salary" = Some (VStr "N/A")
  /\ exists sp page_text description,
       inner_call (CallRequests self "https://example.org/jobs/1" "unknown")
       = Some (CallGeneric sp "https://example.org/jobs/1" "unknown")
       /\ get_text sp = Ok page_text
       /\ r !! "description" = Some (VStr description)
       /\ description = prefix 1000 page_text
       /\ len description = min 1000 (len page_text)
       /\ (len page_text <= 1000 -> description = page_text).
Proof.
  intros self r. split; [split; vm_compute; reflexivity|].
  apply (proj2 (proj2 (requests_result_echo py_plain self "https://example.org/jobs/1"
                         "unknown"))).
  vm_compute. reflexivity.
Defined.

(** X15: a successful result of the pracuj strategy names the portal
    "pracuj", and its description is the first 1500 characters of the text
    of the first description selector that has text (the whole text when
    it has no more), and empty when none has. *)
Theorem pracuj_result_description (py : runtime) (pg : page) :
  get_success (_scrape_pracuj_selenium py pg) = true ->
  _scrape_pracuj_selenium py pg !! "portal" = Some (VStr "pracuj")
  /\ exists description,
       _scrape_pracuj_selenium py pg !! "description" = Some (VStr description)
       /\ description = prefix 1500 (default "" (_try_selectors pg pracuj_desc_selectors))
       /\ len description <= 1500
       /\ (forall t, _try_selectors pg pracuj_desc_selectors = Some t ->
             len description = min 1500 (len t)
             /\ (len t <= 1500 -> description = t))
       /\ (_try_selectors pg pracuj_desc_selectors = None -> description = "").
Proof.
  unfold _scrape_pracuj_selenium, _scrape_pracuj_selenium_body.
  destruct (pracuj_title pg) as [title|e]; result_simpl; [|done].
  destruct (_extract_skills py pg pracuj_skill_selectors) as [skills|e]; result_simpl; [|done].
  destruct (current_url pg) as [url|e]; result_simpl; [|done].
  intros _. split; [done|]. eexists. split; [reflexivity|]. split; [reflexivity|].
  split; [apply length_prefix|]. split.
  - intros t ->. cbn [default]. split; [apply len_prefix | apply prefix_all].
  - by intros ->.
Qed.

Lemma pracuj_result_description_witness :
  let pg := page_described (times 2000 "ż") in
  (len (times 2000 "ż") = 2000
   /\ _scrape_pracuj_selenium py_plain pg !! "description" = Some (VStr (times 1500 "ż")))
  /\ _scrape_pracuj_selenium py_plain pg !! "portal" = Some (VStr "pracuj")
  /\ exists description,
       _scrape_pracuj_selenium py_plain pg !! "description" = Some (VStr description)
       /\ description = prefix 1500 (default "" (_try_selectors pg pracuj_desc_selectors))
       /\ len description <= 1500
       /\ (forall t, _try_selectors pg pracuj_desc_selectors = Some t ->
             len description = min 1500 (len t)
             /\ (len t <= 1500 -> description = t))
       /\ (_try_selectors pg pracuj_desc_selectors = None -> description = "").
Proof.
  intros pg. split; [split; vm_compute; reflexivity|].
  apply (pracuj_result_description py_plain pg). vm_compute. reflexivity.
Defined.

(** ** The pipeline, further *)

(** X16: a result of [scrape_job] with success=false is always the one of
    the requests stage: it names the portal and the URL and carries an
    error text, and what the selenium stage reported is not in it. *)
Theorem scrape_job_failure_is_requests (py : runtime) (self : scraper) (url : string)
    (r : dict) :
  scrape_job py self url = Ok r ->
  get_success r = false ->
  exists portal,
    detect_portal py url = Ok portal
    /\ r = _scrape_with_requests py self url portal
    /\ r !! "portal" = Some (VStr portal)
    /\ r !! "url" = Some (VStr url)
    /\ exists msg, r !! "error" = Some (VStr msg).
Proof.
  unfold scrape_job. destruct (detect_portal py url) as [portal|e]; result_simpl; [|done].
  intros Hr Hfail. exists portal. split; [done|].
  assert (Hreq : r = _scrape_with_requests py self url portal).
  { destruct (use_selenium self && rendered_portal portal); [|congruence].
    destruct (get_success (scrape_with_selenium py self url portal)) eqn:Hs; congruence. }
  split; [done|]. subst r.
  destruct (requests_echo py self url portal) as (Hp & Hu).
  split; [done|]. split; [done|].
  destruct (stage_failed py _ (out_requests py self url portal) Hfail)
    as (msg & [Hr' | (p & u & Hr')]); rewrite Hr'; by exists msg.
Qed.

Lemma scrape_job_failure_is_requests_witness :
  let self := init true (Ok (browser page_blank))
                (unreachable (Exn HTTPError "403 Client Error: Forbidden")) in
  let url := "https://justjoin.it/offers/python-developer" in
  exists portal,
    detect_portal py_plain url = Ok portal
    /\ failure_at "403 Client Error: Forbidden" "justjoin" url
       = _scrape_with_requests py_plain self url portal
    /\ failure_at "403 Client Error: Forbidden" "justjoin" url !! "portal" = Some (VStr portal)
    /\ failure_at "403 Client Error: Forbidden" "justjoin" url !! "url" = Some (VStr url)
    /\ exists msg,
         failure_at "403 Client Error: Forbidden" "justjoin" url !! "error" = Some (VStr msg).
Proof.
  intros self url.
  apply (scrape_job_failure_is_requests py_plain self url); reflexivity.
Defined.

(** X17: where a result of [scrape_job] comes from: the requests stage, or,
    with selenium on and a driver that loaded the page, the pracuj strategy
    for a pracuj URL or the nofluff strategy for a nofluff URL, and then it
    is a success. No other portal gets a rendered result. *)
Theorem scrape_job_origin (py : runtime) (self : scraper) (url : string) (r : dict) :
  scrape_job py self url = Ok r ->
  exists portal,
    detect_portal py url = Ok portal
    /\ (r = _scrape_with_requests py self url portal
        \/ (use_selenium self = true /\ get_success r = true
            /\ exists d pg,
                 driver self = Some d /\ get d url = Ok pg
                 /\ ((portal = "pracuj" /\ r = _scrape_pracuj_selenium py pg)
                     \/ (portal = "nofluff" /\ r = _scrape_nofluff_selenium pg)))).
Proof.
  unfold scrape_job. destruct (detect_portal py url) as [portal|e]; result_simpl; [|done].
  intros Hr. exists portal. split; [done|].
  destruct (use_selenium self) eqn:Hsel; cbn [andb] in Hr; [|left; congruence].
  destruct (rendered_portal portal) eqn:Hrend; [|left; congruence].
  destruct (get_success (scrape_with_selenium py self url portal)) eqn:Hs;
    [|left; congruence].
  injection Hr as <-. right. split; [done|]. split; [done|].
  revert Hs. unfold scrape_with_selenium.
  destruct (driver self) as [d|] eqn:Hd; [|by rewrite get_success_failure].
  unfold scrape_with_selenium_body, _scrape_justjoin_selenium.
  destruct (get d url) as [pg|e] eqn:Hget; result_simpl; [|by rewrite get_success_failure].
  intros Hs. exists d, pg. split; [done|]. split; [done|].
  destruct (String.eqb_spec portal "pracuj") as [->|Hp]; [by left|].
  destruct (String.eqb_spec portal "nofluff") as [->|Hn]; [by right|].
  destruct (String.eqb_spec portal "justjoin") as [->|Hj];
    [by rewrite get_success_failure in Hs|].
  exfalso. unfold rendered_portal in Hrend. apply bool_decide_eq_true in Hrend.
  rewrite !elem_of_cons in Hrend. destruct Hrend as [?|[?|[?|Hnil]]]; try done.
  by apply elem_of_nil in Hnil.
Qed.

Lemma scrape_job_origin_witness :
  let self := init true (Ok (browser page_blank)) (serves (doc_h1 "" "")) in
  let url := "https://www.pracuj.pl/praca/oferta" in
  let r := _scrape_pracuj_selenium py_plain page_blank in
  exists portal,
    detect_portal py_plain url = Ok portal
    /\ (r = _scrape_with_requests py_plain self url portal
        \/ (use_selenium self = true /\ get_success r = true
            /\ exists d pg,
                 driver self = Some d /\ get d url = Ok pg
                 /\ ((portal = "pracuj" /\ r = _scrape_pracuj_selenium py_plain pg)
                     \/ (portal = "nofluff" /\ r = _scrape_nofluff_selenium pg)))).
Proof.
  intros self url r. apply (scrape_job_origin py_plain self url r). reflexivity.
Defined.

(** ** The constructor *)

(** X18: a scraper that the constructor built has selenium on only if that
    was asked for and the driver was created and prepared, and then it
    holds that driver; built without selenium, it has no driver. *)
Theorem init_selenium_invariant (flag : bool) (chrome : result webdriver)
    (session : string -> result response) :
  let self := init flag chrome session in
  (use_selenium self = true ->
     flag = true
     /\ exists d, chrome = Ok d /\ execute_script d = Ok tt /\ driver self = Some d)
  /\ (flag = false -> use_selenium self = false /\ driver self = None)
  /\ session_get self = session.
Proof.
  unfold init, _setup_selenium. destruct flag; simpl.
  - destruct chrome as [d|e]; simpl; [|by split].
    destruct (execute_script d) as [[]|e] eqn:He; simpl; [|by split].
    split; [|by split]. intros _. split; [done|]. by exists d.
  - by split.
Qed.

Lemma init_selenium_invariant_witness :
  let self := init true (Ok (browser page_blank)) (serves (doc_h1 "" "")) in
  true = true
  /\ exists d, Ok (browser page_blank) = Ok d /\ execute_script d = Ok tt
       /\ driver self = Some d.
Proof.
  intros self.
  apply (proj1 (init_selenium_invariant true (Ok (browser page_blank))
                  (serves (doc_h1 "" "")))).
  reflexivity.
Defined.

(** ** Batches, further *)

(** X19: when [urlparse] accepts every URL of a batch, [batch_scrape]
    returns one result per URL, in the order of the URLs, and each is what
    [scrape_job] returns for its URL (a failed scrape is a success=false
    result at its place and does not stop the batch). *)
Theorem batch_scrape_aligned (py : runtime) (self : scraper) (urls : list string) :
  Forall (fun url => exists netloc, urlparse_netloc py url = Ok netloc) urls ->
  exists rs,
    batch_scrape py self urls = Ok rs
    /\ Forall2 (fun url r => scrape_job py self url = Ok r) urls rs.
Proof.
  intros Hall.
  assert (Hportal : Forall (fun url => exists portal, detect_portal py url = Ok portal) urls).
  { eapply Forall_impl; [exact Hall|]. intros url [netloc Hn].
    unfold detect_portal. rewrite Hn. result_simpl. eauto. }
  destruct (batch_loop_all py self urls [] Hportal) as (rs & Hrs & Hall2). eauto.
Qed.

Lemma batch_scrape_aligned_witness :
  let self := init false timed_out (unreachable (Exn HTTPError "403 Client Error: Forbidden")) in
  let urls := ["https://example.org/jobs/1"; "https://www.pracuj.pl/praca/oferta"] in
  exists rs,
    batch_scrape py_plain self urls = Ok rs
    /\ Forall2 (fun url r => scrape_job py_plain self url = Ok r) urls rs.
Proof.
  intros self urls. apply (batch_scrape_aligned py_plain self urls).
  constructor; [by exists "example.org"|].
  constructor; [by exists "www.pracuj.pl" | constructor].
Defined.

Lemma batch_loop_acc (py : runtime) (self : scraper) (urls : list string) (acc : list dict) :
  batch_loop py self urls acc
  = (rs ← batch_loop py self urls []; mret (acc ++ rs)).
Proof.
  revert acc. induction urls as [|url urls IH]; intros acc; simpl.
  - result_simpl. by rewrite app_nil_r.
  - destruct (scrape_job py self url) as [r|e]; result_simpl; [|done].
    rewrite (IH (acc ++ [r])), (IH [r]).
    destruct (batch_loop py self urls []) as [rs|e]; result_simpl; [|done].
    by rewrite <- app_assoc.
Qed.

(** X20: a batch over two lists is the batch over the first followed by the
    batch over the second; if the first raises, the second is not run. *)
Theorem batch_scrape_app (py : runtime) (self : scraper) (urls1 urls2 : list string) :
  batch_scrape py self (urls1 ++ urls2)
  = (rs1 ← batch_scrape py self urls1;
     rs2 ← batch_scrape py self urls2;
     mret (rs1 ++ rs2)).
Proof.
  unfold batch_scrape. induction urls1 as [|url urls1 IH]; simpl.
  - result_simpl. by destruct (batch_loop py self urls2 []).
  - destruct (scrape_job py self url) as [r|e]; result_simpl; [|done].
    rewrite (batch_loop_acc py self (urls1 ++ urls2) [r]), (batch_loop_acc py self urls1 [r]).
    unfold batch_scrape in IH. rewrite IH. result_simpl.
    destruct (batch_loop py self urls1 []) as [rs1|e]; [|done].
    by destruct (batch_loop py self urls2 []) as [rs2|e].
Qed.

(** ** From result dicts to [JobData]: [create_job_data] *)

(** X21: a failed result of a stage becomes a [JobData] with success=false
    and the default content; [JobData] has no error field, so two failures
    that differ only in their error text become the same [JobData]. *)
Theorem create_job_data_failed (py : runtime) (now : string) (r : dict) :
  stage_output py r ->
  get_success r = false ->
  (exists job,
     Api.create_job_data now r = Ok job
     /\ Api.success job = false
     /\ Api.title job = "N/A" /\ Api.company job = "N/A" /\ Api.location job = "N/A"
     /\ Api.salary job = None
     /\ Api.requirements job = [] /\ Api.skills job = []
     /\ Api.description job = "" /\ Api.experience_level job = "Unknown"
     /\ Api.scraped_at job = now)
  /\ (forall msg msg' portal url,
        Api.create_job_data now (failure_at msg portal url)
        = Api.create_job_data now (failure_at msg' portal url)).
Proof.
  intros Hout Hfail. split; [|done].
  destruct (stage_failed py r Hout Hfail) as (msg & [-> | (portal & url & ->)]);
    eexists; by repeat split.
Qed.

Lemma create_job_data_failed_witness :
  let self := init false timed_out (unreachable (Exn HTTPError "403 Client Error: Forbidden")) in
  let r := _scrape_with_requests py_plain self "https://example.org/jobs/1" "unknown" in
  exists job,
    Api.create_job_data "2025-08-25T12:00:00" r = Ok job
    /\ Api.success job = false
    /\ Api.title job = "N/A" /\ Api.company job = "N/A" /\ Api.location job = "N/A"
    /\ Api.salary job = None
    /\ Api.requirements job = [] /\ Api.skills job = []
    /\ Api.description job = "" /\ Api.experience_level job = "Unknown"
    /\ Api.scraped_at job = "2025-08-25T12:00:00".
Proof.
  intros self r.
  apply (proj1 (create_job_data_failed py_plain "2025-08-25T12:00:00" r
                  (out_requests py_plain self "https://example.org/jobs/1" "unknown")
                  eq_refl)).
Defined.

(** X22: a successful result of a stage is accepted by [create_job_data],
    and the [JobData] has the same success flag, title, company, location,
    salary, requirements, skills, description and experience level. *)
Theorem create_job_data_carries_over (py : runtime) (now : string) (r : dict) :
  stage_output py r ->
  get_success r = true ->
  exists job,
    Api.create_job_data now r = Ok job
    /\ carried_over r job
    /\ Api.success job = true
    /\ Api.scraped_at job = now.
Proof.
  assert (Hpracuj : forall pg, get_success (_scrape_pracuj_selenium py pg) = true ->
            exists job, Api.create_job_data now (_scrape_pracuj_selenium py pg) = Ok job
              /\ carried_over (_scrape_pracuj_selenium py pg) job
              /\ Api.success job = true /\ Api.scraped_at job = now).
  { intros pg. unfold _scrape_pracuj_selenium, _scrape_pracuj_selenium_body.
    destruct (pracuj_title pg); result_simpl; [|done].
    destruct (_extract_skills py pg pracuj_skill_selectors); result_simpl; [|done].
    destruct (current_url pg); result_simpl; [|done].
    intros _. eexists. split; [reflexivity|]. by repeat split. }
  assert (Hnofluff : forall pg, get_success (_scrape_nofluff_selenium pg) = true ->
            exists job, Api.create_job_data now (_scrape_nofluff_selenium pg) = Ok job
              /\ carried_over (_scrape_nofluff_selenium pg) job
              /\ Api.success job = true /\ Api.scraped_at job = now).
  { intros pg. unfold _scrape_nofluff_selenium, _scrape_nofluff_selenium_body.
    destruct (wait_until_present pg _) as [title_elem|e]; result_simpl; [|done].
    destruct (stripped_text title_elem); result_simpl; [|done].
    destruct (find_element pg CSS_SELECTOR ".company-name, .posting-details-company")
      as [company_elem|e]; result_simpl; [|done].
    destruct (stripped_text company_elem); result_simpl; [|done].
    destruct (find_elements pg CSS_SELECTOR ".posting-technologies .technology")
      as [tech_elements|e]; result_simpl; [|done].
    destruct (nonempty_texts tech_elements); result_simpl; [|done].
    destruct (find_elements pg CSS_SELECTOR ".posting-requirements li")
      as [req_elements|e]; result_simpl; [|done].
    destruct (nonempty_texts req_elements); result_simpl; [|done].
    destruct (find_element pg CSS_SELECTOR ".posting-salary, .salary-range")
      as [salary_elem|e]; result_simpl; [|done].
    destruct (stripped_text salary_elem); result_simpl; [|done].
    destruct (current_url pg); result_simpl; [|done].
    intros _. eexists. split; [reflexivity|]. by repeat split. }
  assert (Hgeneric : forall sp url portal,
            get_success (_extract_generic_info py sp url portal) = true ->
            exists job, Api.create_job_data now (_extract_generic_info py sp url portal) = Ok job
              /\ carried_over (_extract_generic_info py sp url portal) job
              /\ Api.success job = true /\ Api.scraped_at job = now).
  { intros sp url portal. unfold _extract_generic_info, _extract_generic_info_body.
    destruct (generic_title sp title_tags); result_simpl; [|done].
    destruct (get_text sp); result_simpl; [|done].
    intros _. eexists. split; [reflexivity|]. by repeat split. }
  intros [pg|pg|sp url portal|self url portal|self url portal];
    [apply Hpracuj | apply Hnofluff | apply Hgeneric | |].
  - unfold scrape_with_selenium. destruct (driver self) as [d|]; [|done].
    destruct (scrape_with_selenium_body py d url portal) as [r'|e] eqn:Hbody; [|done].
    apply selenium_ok_inner in Hbody as [[pg ->]|[[pg ->]|[sp ->]]];
      [apply Hpracuj | apply Hnofluff | apply Hgeneric].
  - unfold _scrape_with_requests.
    destruct (_scrape_with_requests_body py self url portal) as [r'|e] eqn:Hbody; [|done].
    apply requests_ok_generic in Hbody as [sp ->]. apply Hgeneric.
Qed.

Lemma create_job_data_carries_over_witness :
  let r := _scrape_pracuj_selenium py_plain (page_with "Python Developer" ["Django"; "Flask"]) in
  exists job,
    Api.create_job_data "2025-08-25T12:00:00" r = Ok job
    /\ carried_over r job
    /\ Api.success job = true
    /\ Api.scraped_at job = "2025-08-25T12:00:00".
Proof.
  intros r.
  apply (create_job_data_carries_over py_plain "2025-08-25T12:00:00" r
           (out_pracuj py_plain (page_with "Python Developer" ["Django"; "Flask"])) eq_refl).
Defined.

(** ** The batch endpoint, further *)

Lemma count_if_plain (default : bool) (l : list Api.entry) (n : nat) :
  Api.count_if (Api.entry_get_success default) l = Ok n ->
  Forall (fun r => exists d, r = Api.Plain d) l.
Proof.
  revert n. induction l as [|r rest IH]; intros n; [constructor|].
  simpl. destruct r as [job|d]; result_simpl; [done|].
  destruct (Api.count_if (Api.entry_get_success default) rest) as [m|e]; [|done].
  intros _. constructor; [eauto | by eapply IH].
Qed.

(** The entries of the tasks that raised are counted as failed, none as
    successful. *)
Lemma count_raised (now : string) (urls : list string) (outcomes : list (result Api.JobData)) :
  length outcomes = length urls ->
  Forall (fun o => exists e, o = Raise e) outcomes ->
  Api.count_if (Api.entry_get_success false) (zip_with (Api.processed now) urls outcomes)
  = Ok 0
  /\ Api.count_if (fun r => b ← Api.entry_get_success true r; mret (negb b))
       (zip_with (Api.processed now) urls outcomes)
     = Ok (length urls).
Proof.
  revert outcomes. induction urls as [|url urls IH]; intros [|o outcomes] Hlen Hall;
    try done.
  apply Forall_cons in Hall as [[e ->] Hall]. injection Hlen as Hlen.
  destruct (IH outcomes Hlen Hall) as [IH1 IH2].
  cbn [zip_with Api.count_if Api.processed Api.entry_get_success].
  rewrite IH1, IH2. by result_simpl.
Qed.

(** X23: the batch endpoint returns a response only when every task
    raised: the response then lists one success=false entry per URL, at the
    index of the URL, with the URL and the text of the exception, and
    counts no success and as many failures as URLs. Without a scraper it
    answers 503, and with more than 20 URLs 400. *)
Theorem batch_scrape_jobs_returned (py : runtime) (scraper_instance : option scraper)
    (now : string) (urls : list string) (max_concurrent : positive) :
  (scraper_instance = None ->
   Api.batch_scrape_jobs py scraper_instance now urls max_concurrent
   = Api.HTTPException 503 "Scraper not initialized")
  /\ (forall self, scraper_instance = Some self -> 20 < length urls ->
        Api.batch_scrape_jobs py scraper_instance now urls max_concurrent
        = Api.HTTPException 400 "Maximum 20 URLs per batch")
  /\ (forall resp,
        Api.batch_scrape_jobs py scraper_instance now urls max_concurrent = Api.Returned resp ->
        exists self,
          scraper_instance = Some self
          /\ length urls <= 20
          /\ Api.total_requested resp = length urls
          /\ length (Api.results resp) = length urls
          /\ Api.successful resp = 0
          /\ Api.failed resp = length urls
          /\ forall i url, urls !! i = Some url ->
               exists e d,
                 Api.scrape_single py self now url = Raise e
                 /\ Api.results resp !! i = Some (Api.Plain d)
                 /\ d !! "success" = Some (VBool false)
                 /\ d !! "url" = Some (VStr url)
                 /\ d !! "error" = Some (VStr (str_of e))).
Proof.
  unfold Api.batch_scrape_jobs. split; [by intros ->|]. split.
  - intros self -> Hlen. apply Nat.ltb_lt in Hlen. by rewrite Hlen.
  - intros resp. destruct scraper_instance as [self|]; [|done].
    destruct (20 <? length urls) eqn:Hlen; [done|].
    apply Nat.ltb_ge in Hlen.
    unfold Api.batch_scrape_jobs_body.
    set (outcomes := map (Api.scrape_single py self now) urls).
    set (entries := zip_with (Api.processed now) urls outcomes).
    destruct (Api.count_if (Api.entry_get_success false) entries) as [n|e] eqn:Hcount;
      result_simpl; [|done].
    pose proof (count_if_plain false entries n Hcount) as Hplain.
    assert (Hraised : Forall (fun o => exists e, o = Raise e) outcomes).
    { apply Forall_lookup. intros i o Ho.
      assert (Hu : exists url, urls !! i = Some url).
      { subst outcomes. rewrite list_lookup_fmap in Ho.
        destruct (urls !! i) as [url|]; [eauto | done]. }
      destruct Hu as [url Hu].
      assert (He : entries !! i = Some (Api.processed now url o)).
      { subst entries. by rewrite lookup_zip_with, Hu, Ho. }
      destruct (proj1 (Forall_lookup _ _) Hplain i _ He) as [d Hd].
      destruct o as [job|e]; [done | eauto]. }
    assert (Hlen' : length outcomes = length urls) by (subst outcomes; apply length_map).
    destruct (count_raised now urls outcomes Hlen' Hraised) as [H0 Hn].
    fold entries in H0, Hn. rewrite H0 in Hcount. injection Hcount as <-.
    result_simpl. rewrite Hn. intros [= <-]. exists self. simpl.
    split; [done|]. split; [done|]. split; [done|].
    split; [subst entries; rewrite length_zip_with; lia|].
    split; [done|]. split; [done|].
    intros i url Hu.
    assert (Ho : outcomes !! i = Some (Api.scrape_single py self now url)).
    { subst outcomes. by rewrite list_lookup_fmap, Hu. }
    destruct (proj1 (Forall_lookup _ _) Hraised i _ Ho) as [e He].
    destruct (processed_failure now url e) as (d & Hd & Hs & Hurl & Herr).
    exists e, d. split; [done|]. split; [|done].
    subst entries. by rewrite lookup_zip_with, Hu, Ho, He, <- Hd.
Qed.

Lemma batch_scrape_jobs_returned_witness :
  let self := init false timed_out (serves (doc_h1 "" "")) in
  let resp := {|
    Api.total_requested := 1; Api.successful := 0; Api.failed := 1;
    Api.results := [Api.processed "2025-08-25T12:00:00" "http://["
                      (Raise (Exn ValueError "Invalid IPv6 URL"))] |} in
  exists self',
    Some self = Some self'
    /\ length ["http://["] <= 20
    /\ Api.total_requested resp = length ["http://["]
    /\ length (Api.results resp) = length ["http://["]
    /\ Api.successful resp = 0
    /\ Api.failed resp = length ["http://["]
    /\ forall i url, ["http://["] !! i = Some url ->
         exists e d,
           Api.scrape_single py_plain self' "2025-08-25T12:00:00" url = Raise e
           /\ Api.results resp !! i = Some (Api.Plain d)
           /\ d !! "success" = Some (VBool false)
           /\ d !! "url" = Some (VStr url)
           /\ d !! "error" = Some (VStr (str_of e)).
Proof.
  intros self resp.
  apply (proj2 (proj2 (batch_scrape_jobs_returned py_plain (Some self)
                         "2025-08-25T12:00:00" ["http://["] 3)) resp).
  reflexivity.
Defined.

(** ** The single-scrape endpoints *)

(** A dict that the scraper calls a success becomes a [JobData] that says
    so. *)
Lemma create_job_data_success (now : string) (r : dict) (job : Api.JobData) :
  get_success r = true ->
  Api.create_job_data now r = Ok job ->
  Api.success job = true.
Proof.
  unfold Api.create_job_data, get_success.
  destruct (Api.get_bool r "success" false) as [b|e] eqn:Hb; result_simpl; [|done].
  assert (Hbt : forall v, r !! "success" = v ->
            match v with Some (VBool b') => b' | Some (VStr s) => truthy s
                       | Some (VList l) => negb (bool_decide (l = [])) | None => false end
            = true -> b = true).
  { intros v Hv. unfold Api.get_bool in Hb. rewrite Hv in Hb.
    destruct v as [[b'|s|l]|]; try done; intros Ht; congruence. }
  intros Ht. specialize (Hbt _ eq_refl Ht). subst b.
  destruct (Api.get_str r "portal" "unknown"); result_simpl; [|done].
  destruct (Api.get_str r "url" ""); result_simpl; [|done].
  destruct (Api.get_str r "title" "N/A"); result_simpl; [|done].
  destruct (Api.get_str r "company" "N/A"); result_simpl; [|done].
  destruct (Api.get_str r "location" "N/A"); result_simpl; [|done].
  destruct (Api.get_opt_str r "salary"); result_simpl; [|done].
  destruct (Api.get_list r "requirements"); result_simpl; [|done].
  destruct (Api.get_list r "skills"); result_simpl; [|done].
  destruct (Api.get_str r "description" ""); result_simpl; [|done].
  destruct (Api.get_str r "experience_level" "Unknown"); result_simpl; [|done].
  by intros [= <-].
Qed.

Section HandlerProperties.

Context (py : runtime).
Context (http_exception_str : nat -> string -> string).
Context (format_value : value -> string).

Local Abbreviation api_scrape_job :=
  (Endpoints.api_scrape_job py http_exception_str format_value).
Local Abbreviation main_scrape_job := (Endpoints.main_scrape_job py).

(** X24: the scrape endpoint of [api.py] never answers with status 400:
    the 400 that it raises for a failed scrape is caught by its own
    handler and raised again as 500. It answers 503 without a scraper, 500
    for every other error, and a [JobData] that it returns has
    success=true. *)
Theorem api_scrape_job_statuses (now url : string) :
  api_scrape_job None now url = Api.HTTPException 503 "Scraper not initialized"
  /\ (forall self status_code detail,
        api_scrape_job (Some self) now url = Api.HTTPException status_code detail ->
        status_code = 500)
  /\ (forall self r,
        scrape_job py self url = Ok r -> get_success r = false ->
        api_scrape_job (Some self) now url
        = Api.HTTPException 500
            (http_exception_str 400
               ("Scraping failed: " +:+ Endpoints.error_text format_value r)))
  /\ (forall self job,
        api_scrape_job (Some self) now url = Api.Returned job ->
        Api.success job = true
        /\ exists r, scrape_job py self url = Ok r /\ get_success r = true
             /\ Api.create_job_data now r = Ok job).
Proof.
  unfold Endpoints.api_scrape_job, Endpoints.api_scrape_job_body.
  split; [done|]. split; [|split].
  - intros self status_code detail.
    destruct (scrape_job py self url) as [r|e]; [|by intros [= <- _]].
    destruct (get_success r); cbn [negb]; [|by intros [= <- _]].
    destruct (Api.create_job_data now r); simpl; [done | by intros [= <- _]].
  - intros self r -> ->. done.
  - intros self job.
    destruct (scrape_job py self url) as [r|e]; [|done].
    destruct (get_success r) eqn:Hs; cbn [negb]; [|done].
    destruct (Api.create_job_data now r) as [job'|e] eqn:Hjob; simpl; [|done].
    intros [= <-]. split; [by eapply create_job_data_success | eauto].
Qed.

(** X25: the scrape endpoint of [main.py] answers with status 400, 500 or
    503 when it fails (400 for a scrape that failed, 500 for an exception,
    503 when no scraper can be built), and a [JobData] that it returns has
    success=true. *)
Theorem main_scrape_job_statuses (quit : webdriver -> result unit) (fresh : result scraper)
    (scraper_global : option scraper) (now url : string) :
  (forall status_code detail,
     main_scrape_job quit fresh scraper_global now url
     = Api.HTTPException status_code detail ->
     status_code ∈ [400; 500; 503])
  /\ (forall job,
        main_scrape_job quit fresh scraper_global now url = Api.Returned job ->
        Api.success job = true).
Proof.
  assert (Hreport : forall msg,
    (forall status_code detail,
       @Endpoints.report_failure Api.JobData msg = Endpoints.RaiseHTTP status_code detail ->
       status_code = 400)
    /\ (forall job, @Endpoints.report_failure Api.JobData msg <> Endpoints.Return job)
    /\ (forall e, @Endpoints.report_failure Api.JobData msg <> Endpoints.RaiseOther e)).
  { intros msg. unfold Endpoints.report_failure.
    destruct (contains "403" msg); repeat split; intros; congruence. }
  assert (Hconv : forall r,
    get_success r = true ->
    (forall status_code detail,
       Endpoints.of_result (Api.create_job_data now r)
       <> Endpoints.RaiseHTTP status_code detail)
    /\ (forall job, Endpoints.of_result (Api.create_job_data now r) = Endpoints.Return job ->
          Api.success job = true)).
  { intros r Hs. destruct (Api.create_job_data now r) as [job|e] eqn:Hjob; simpl.
    - split; [done|]. intros job' [= <-]. by eapply create_job_data_success.
    - by split. }
  assert (Hbody : forall self,
    (forall status_code detail,
       Endpoints.main_scrape_job_body py quit fresh self now url
       = Endpoints.RaiseHTTP status_code detail -> status_code = 400)
    /\ (forall job,
          Endpoints.main_scrape_job_body py quit fresh self now url = Endpoints.Return job ->
          Api.success job = true)).
  { intros self. unfold Endpoints.main_scrape_job_body.
    destruct (scrape_job py self url) as [r|e]; [|by split].
    destruct (get_success r) eqn:Hs; cbn [negb].
    { destruct (Hconv r Hs) as [H1 H2]. split; [intros ? ? H; by apply H1 in H | done]. }
    destruct (Endpoints.error_msg_of r) as [msg|e]; [|by split].
    destruct (Hreport msg) as (Hr1 & Hr2 & Hr3).
    destruct (contains "invalid session id" (lower msg));
      [|split; [done | intros job H; by apply Hr2 in H]].
    destruct (Endpoints.reinitialize_scraper quit fresh (Some self)) as [self'|];
      [|split; [done | intros job H; by apply Hr2 in H]].
    destruct (scrape_job py self' url) as [r'|e]; [|by split].
    destruct (get_success r') eqn:Hs'; [|split; [done | intros job H; by apply Hr2 in H]].
    destruct (Hconv r' Hs') as [H1 H2]. split; [intros ? ? H; by apply H1 in H | done]. }
  assert (Hrun : forall self,
    (forall status_code detail,
       match Endpoints.main_scrape_job_body py quit fresh self now url with
       | Endpoints.Return job => Api.Returned job
       | Endpoints.RaiseHTTP status_code detail => Api.HTTPException status_code detail
       | Endpoints.RaiseOther e =>
           Api.HTTPException 500 ("Internal scraping error: " +:+ str_of e)
       end = Api.HTTPException status_code detail ->
       status_code ∈ [400; 500; 503])
    /\ (forall job,
          match Endpoints.main_scrape_job_body py quit fresh self now url with
          | Endpoints.Return job => Api.Returned job
          | Endpoints.RaiseHTTP status_code detail => Api.HTTPException status_code detail
          | Endpoints.RaiseOther e =>
              Api.HTTPException 500 ("Internal scraping error: " +:+ str_of e)
          end = Api.Returned job ->
          Api.success job = true)).
  { intros self. destruct (Hbody self) as [H1 H2].
    destruct (Endpoints.main_scrape_job_body py quit fresh self now url) as [job|sc dt|e].
    - split; [done|]. intros job' [= <-]. by apply H2.
    - split; [|done]. intros sc' dt' [= <- _]. rewrite (H1 sc dt eq_refl). elem_solve.
    - split; [|done]. intros sc' dt' [= <- _]. elem_solve. }
  unfold Endpoints.main_scrape_job.
  destruct scraper_global as [self|]; [apply Hrun|].
  destruct (Endpoints.reinitialize_scraper quit fresh None) as [self|]; [apply Hrun|].
  split; [|done]. intros sc dt [= <- _]. elem_solve.
Qed.

(** X26: a scrape that failed always carries an error text; unless that
    text mentions an invalid session, [main.py] reports it with status 400,
    with the anti-bot message when the text contains "403" and with the
    text itself otherwise. *)
Theorem main_scrape_job_failure_report (quit : webdriver -> result unit)
    (fresh : result scraper) (self : scraper) (now url : string) (r : dict) :
  scrape_job py self url = Ok r ->
  get_success r = false ->
  exists msg,
    r !! "error" = Some (VStr msg)
    /\ (contains "invalid session id" (lower msg) = false ->
        main_scrape_job quit fresh (Some self) now url
        = if contains "403" msg
          then Api.HTTPException 400 Endpoints.blocked_detail
          else Api.HTTPException 400 ("Scraping failed: " +:+ msg)).
Proof.
  intros Hr Hs.
  destruct (scrape_job_failure_is_requests py self url r Hr Hs)
    as (portal & _ & _ & _ & _ & msg & Herr).
  exists msg. split; [done|]. intros Hinv.
  unfold Endpoints.main_scrape_job, Endpoints.main_scrape_job_body.
  rewrite Hr, Hs. cbn [negb]. unfold Endpoints.error_msg_of. rewrite Herr, Hinv.
  unfold Endpoints.report_failure. by destruct (contains "403" msg).
Qed.

(** X27: with a scraper at hand, [main.py] closes it and builds a new one
    only because of the error text of the requests stage: when that text
    does not mention an invalid session, the answer does not depend on what
    closing and rebuilding would do, whatever the selenium stage reported. *)
Theorem main_scrape_job_no_reinit (quit quit' : webdriver -> result unit)
    (fresh fresh' : result scraper) (self : scraper) (now url : string) :
  (forall portal msg,
     _scrape_with_requests py self url portal !! "error" = Some (VStr msg) ->
     contains "invalid session id" (lower msg) = false) ->
  main_scrape_job quit fresh (Some self) now url
  = main_scrape_job quit' fresh' (Some self) now url.
Proof.
  intros Hreq. unfold Endpoints.main_scrape_job, Endpoints.main_scrape_job_body.
  destruct (scrape_job py self url) as [r|e] eqn:Hr; [|done].
  destruct (get_success r) eqn:Hs; cbn [negb]; [done|].
  destruct (scrape_job_failure_is_requests py self url r Hr Hs)
    as (portal & _ & -> & _ & _ & msg & Herr).
  unfold Endpoints.error_msg_of. rewrite Herr. by rewrite (Hreq portal msg Herr).
Qed.

End HandlerProperties.

Lemma api_scrape_job_statuses_witness :
  let self := init true (Ok (browser page_blank))
                (unreachable (Exn HTTPError "403 Client Error: Forbidden")) in
  let url := "https://justjoin.it/offers/python-developer" in
  let show status_code detail := "400: " +:+ detail in
  Endpoints.api_scrape_job py_plain show (fun _ => "") (Some self) "2025-08-25T12:00:00" url
  = Api.HTTPException 500 "400: Scraping failed: 403 Client Error: Forbidden".
Proof.
  intros self url show.
  apply (proj1 (proj2 (proj2 (api_scrape_job_statuses py_plain show (fun _ => "")
                                "2025-08-25T12:00:00" url)))
           self (failure_at "403 Client Error: Forbidden" "justjoin" url));
    reflexivity.
Defined.

Lemma main_scrape_job_statuses_witness :
  let self := init false timed_out (serves (doc_h1 "Python Developer" "Python Developer")) in
  let job := {|
    Api.success := true; Api.portal := "unknown"; Api.url := "https://example.org/jobs/1";
    Api.title := "Python Developer"; Api.company := "N/A"; Api.location := "N/A";
    Api.salary := Some "N/A"; Api.requirements := []; Api.skills := ["Python"];
    Api.description := "Python Developer"; Api.experience_level := "Mid";
    Api.scraped_at := "2025-08-25T12:00:00" |} in
  Api.success job = true.
Proof.
  intros self job.
  apply (proj2 (main_scrape_job_statuses py_plain (fun _ => Ok tt) (Ok self) (Some self)
                  "2025-08-25T12:00:00" "https://example.org/jobs/1") job).
  reflexivity.
Defined.

Lemma main_scrape_job_failure_report_witness :
  let self := init true (Ok (browser page_blank))
                (unreachable (Exn HTTPError "403 Client Error: Forbidden")) in
  let url := "https://justjoin.it/offers/python-developer" in
  exists msg,
    failure_at "403 Client Error: Forbidden" "justjoin" url !! "error" = Some (VStr msg)
    /\ (contains "invalid session id" (lower msg) = false ->
        Endpoints.main_scrape_job py_plain (fun _ => Ok tt) (Ok self) (Some self)
          "2025-08-25T12:00:00" url
        = if contains "403" msg
          then Api.HTTPException 400 Endpoints.blocked_detail
          else Api.HTTPException 400 ("Scraping failed: " +:+ msg)).
Proof.
  intros self url.
  apply (main_scrape_job_failure_report py_plain (fun _ => Ok tt) (Ok self) self
           "2025-08-25T12:00:00" url); reflexivity.
Defined.

Lemma main_scrape_job_no_reinit_witness :
  let self := init true (Ok (browser page_blank))
                (unreachable (Exn HTTPError "403 Client Error: Forbidden")) in
  let url := "https://justjoin.it/offers/python-developer" in
  Endpoints.main_scrape_job py_plain (fun _ => Ok tt) (Ok self) (Some self)
    "2025-08-25T12:00:00" url
  = Endpoints.main_scrape_job py_plain (fun _ => timed_out) timed_out (Some self)
      "2025-08-25T12:00:00" url.
Proof.
  intros self url. apply main_scrape_job_no_reinit.
  intros portal msg. unfold _scrape_with_requests. simpl. intros [= <-]. reflexivity.
Defined.

(** ** The skill lists of [analyze_skill_match] *)

(** X28: the missing skills are job skills, in the order of the job, at
    most 10; the matching skills are lower-cased user skills, in the order
    of the user, at most one per user skill; and without job skills both
    lists are empty. *)
Theorem analyze_skill_lists (job_skills user_skills : list string) :
  Endpoints.missing_skills job_skills user_skills `sublist_of` job_skills
  /\ length (Endpoints.missing_skills job_skills user_skills) <= 10
  /\ Endpoints.matching_skills job_skills user_skills `sublist_of` map lower user_skills
  /\ (job_skills = [] ->
      Endpoints.matching_skills job_skills user_skills = []
      /\ Endpoints.missing_skills job_skills user_skills = []).
Proof.
  unfold Endpoints.missing_skills, Endpoints.matching_skills.
  split; [etrans; [apply sublist_take | apply filter_sublist]|].
  split; [rewrite length_take; lia|].
  split; [apply filter_sublist|].
  intros ->. split; [|done]. simpl.
  induction (map lower user_skills) as [|u us IH]; [done | exact IH].
Qed.

Lemma analyze_skill_lists_witness :
  Endpoints.matching_skills [] ["Java"; "Python"] = []
  /\ Endpoints.missing_skills [] ["Java"; "Python"] = [].
Proof. apply (proj2 (proj2 (proj2 (analyze_skill_lists [] ["Java"; "Python"])))). reflexivity. Defined.

(** X29: matching looks for substrings and missing for equal names, both
    without regard to case, so one job skill can count on both sides: a
    user skill whose name occurs inside the name of a job skill is
    matching, and that job skill is missing all the same when no user skill
    has its name (here for at most 10 job skills, so that none is cut). *)
Theorem analyze_skill_on_both_sides (job_skills user_skills : list string)
    (user_skill job_skill : string) :
  user_skill ∈ user_skills ->
  job_skill ∈ job_skills ->
  contains (lower user_skill) (lower job_skill) = true ->
  lower job_skill ∉ map lower user_skills ->
  length job_skills <= 10 ->
  lower user_skill ∈ Endpoints.matching_skills job_skills user_skills
  /\ job_skill ∈ Endpoints.missing_skills job_skills user_skills.
Proof.
  intros Hu Hj Hc Hnot Hlen. unfold Endpoints.matching_skills, Endpoints.missing_skills.
  split.
  - apply elem_of_filter_bool. split; [by apply list_elem_of_fmap_2|].
    apply existsb_exists. exists (lower job_skill).
    split; [apply list_elem_of_In; by apply list_elem_of_fmap_2 | by rewrite Hc].
  - rewrite take_ge.
    + apply elem_of_filter_bool. split; [done|].
      apply negb_true_iff, bool_decide_eq_false. done.
    + etrans; [apply sublist_length, filter_sublist | done].
Qed.

Lemma analyze_skill_on_both_sides_witness :
  "java" ∈ Endpoints.matching_skills ["JavaScript"; "Docker"] ["Java"]
  /\ "JavaScript" ∈ Endpoints.missing_skills ["JavaScript"; "Docker"] ["Java"].
Proof.
  apply (analyze_skill_on_both_sides ["JavaScript"; "Docker"] ["Java"] "Java" "JavaScript").
  - elem_solve.
  - elem_solve.
  - reflexivity.
  - simpl. intros H. apply list_elem_of_singleton in H. discriminate H.
  - simpl. lia.
Defined.
